(** * Kinematics sandbox: MotionObject, Projectile and their orchestrators

    A shallow embedding of the analytical kinematics engine
    ([motion_object.js], [kinematics_sim.js], [projectile.js],
    [physics_sim.js]) and of the sample buffers of its graphs
    ([kinematics_graph.js]), together with the properties its design
    document states about it and further properties of the code.

    Numbers.  A JavaScript number is an IEEE 754 binary64 value, which is
    what Rocq's primitive [float] is, so every arithmetic operation and
    comparison below is the one the program performs, bit for bit.
    [Math.sqrt] is the IEEE square root.  [Math.cos] and [Math.sin] are
    implementation-approximated by the language standard; they are taken
    as parameters ([Math_cos], [Math_sin]) of the definitions that call
    them, and every theorem holds for all choices of them.  The
    exponentiation [e ** 2] is read as [e * e].

    Objects.  [THREE.Vector3] values are copied ([clone], [copy]) at every
    use in the modelled code and never shared, so they are plain records.
    The scene graph, geometries and materials belong to the renderer; of a
    mesh only its position and the opacity of its material are kept.  A
    disposed entity has [mesh = None]; dereferencing it raises a TypeError
    in the program, which is [None] in the option monad here. *)

From Stdlib Require Import Floats String.
From stdpp Require Import base option list gmap.

Set Warnings "-inexact-float".
Local Open Scope string_scope.
Local Open Scope float_scope.

(** Strict equality of two strings, as [switch] and [===] use it. *)
Notation "a === b" := (String.eqb a b) (at level 70, no associativity).

(** ** Host arithmetic helpers *)

(** [Math.max(a, b)]: NaN if either argument is NaN, and [+0] is larger
    than [-0]. *)
Definition Math_max (a b : float) : float :=
  if is_nan a || is_nan b then nan
  else if a <? b then b
  else if b <? a then a
  else if get_sign a then b else a.

(** [Math.abs]. *)
Definition Math_abs (a : float) : float := abs a.

(** [v || d] for a possibly missing number: [undefined], [0], [-0] and NaN
    are falsy. *)
Definition or_default (v : option float) (d : float) : float :=
  match v with
  | Some f => if is_zero f || is_nan f then d else f
  | None => d
  end.

(** [s || d] for a possibly missing string: the empty string is falsy. *)
Definition or_default_str (v : option string) (d : string) : string :=
  match v with
  | Some s => if s === "" then d else s
  | None => d
  end.

(** ** THREE.Vector3 *)

Module Vector3.

Record t : Type := mk { x : float; y : float; z : float }.

Definition set_x (v : float) (p : t) : t := mk v (y p) (z p).
Definition set_y (v : float) (p : t) : t := mk (x p) v (z p).
Definition set_z (v : float) (p : t) : t := mk (x p) (y p) v.

Definition add (a b : t) : t := mk (x a + x b) (y a + y b) (z a + z b).
Definition sub (a b : t) : t := mk (x a - x b) (y a - y b) (z a - z b).
Definition multiplyScalar (a : t) (s : float) : t :=
  mk (x a * s) (y a * s) (z a * s).
Definition length (a : t) : float :=
  sqrt (x a * x a + y a * y a + z a * z a).

End Vector3.

(** ** THREE.Mesh, as far as the engine writes to it *)

Record Mesh : Type := mkMesh {
  mesh_position : Vector3.t;
  material_transparent : bool;
  material_opacity : option float   (* [None] is [undefined] *)
}.

Definition set_mesh_position (p : Vector3.t) (me : Mesh) : Mesh :=
  mkMesh p (material_transparent me) (material_opacity me).

(** ** The [stats] object of a MotionObject *)

Record Stats : Type := mkStats {
  speed : float;
  displacement : float;
  accelerationMag : float;
  centripetalAccel : float;
  timeToImpact : float;
  impactVelocity : float;
  maxHeight : option float;   (* absent until the projectile branch adds it *)
  range : option float
}.

(** ** MotionObject ([motion_object.js]) *)

Module MotionObject.

Record t : Type := mk {
  mesh : option Mesh;
  motionType : string;
  position : Vector3.t;
  velocity : Vector3.t;
  acceleration : Vector3.t;
  mass : float;
  initialPosition : Vector3.t;
  initialVelocity : Vector3.t;
  elapsedTime : float;
  gravity : float;
  dropHeight : float;
  circularRadius : float;
  angularVelocity : float;
  circularClockwise : bool;
  circularCenter : Vector3.t;
  frameVelocity : Vector3.t;
  viewInWorldFrame : bool;
  dragMode : string;
  dragCoefficient : float;
  restitution : float;
  bounceEnabled : bool;
  bounceThreshold : float;
  isStopped : bool;
  isLaunched : bool;
  status : string;
  stats : Stats;
  trailPoints : list Vector3.t;
  trailLine : option (list Vector3.t);
  maxTrailPoints : nat
}.

(** One assignment [this.f = v] per mutable field. *)

Definition set_mesh (v : option Mesh) (m : t) : t :=
  {|
    mesh := v; motionType := motionType m; position := position m;
    velocity := velocity m; acceleration := acceleration m; mass := mass m;
    initialPosition := initialPosition m;
    initialVelocity := initialVelocity m; elapsedTime := elapsedTime m;
    gravity := gravity m; dropHeight := dropHeight m;
    circularRadius := circularRadius m; angularVelocity := angularVelocity m;
    circularClockwise := circularClockwise m;
    circularCenter := circularCenter m; frameVelocity := frameVelocity m;
    viewInWorldFrame := viewInWorldFrame m; dragMode := dragMode m;
    dragCoefficient := dragCoefficient m; restitution := restitution m;
    bounceEnabled := bounceEnabled m; bounceThreshold := bounceThreshold m;
    isStopped := isStopped m; isLaunched := isLaunched m; status := status m;
    stats := stats m; trailPoints := trailPoints m; trailLine := trailLine m;
    maxTrailPoints := maxTrailPoints m
  |}.

Definition set_position (v : Vector3.t) (m : t) : t :=
  {|
    mesh := mesh m; motionType := motionType m; position := v;
    velocity := velocity m; acceleration := acceleration m; mass := mass m;
    initialPosition := initialPosition m;
    initialVelocity := initialVelocity m; elapsedTime := elapsedTime m;
    gravity := gravity m; dropHeight := dropHeight m;
    circularRadius := circularRadius m; angularVelocity := angularVelocity m;
    circularClockwise := circularClockwise m;
    circularCenter := circularCenter m; frameVelocity := frameVelocity m;
    viewInWorldFrame := viewInWorldFrame m; dragMode := dragMode m;
    dragCoefficient := dragCoefficient m; restitution := restitution m;
    bounceEnabled := bounceEnabled m; bounceThreshold := bounceThreshold m;
    isStopped := isStopped m; isLaunched := isLaunched m; status := status m;
    stats := stats m; trailPoints := trailPoints m; trailLine := trailLine m;
    maxTrailPoints := maxTrailPoints m
  |}.

Definition set_velocity (v : Vector3.t) (m : t) : t :=
  {|
    mesh := mesh m; motionType := motionType m; position := position m;
    velocity := v; acceleration := acceleration m; mass := mass m;
    initialPosition := initialPosition m;
    initialVelocity := initialVelocity m; elapsedTime := elapsedTime m;
    gravity := gravity m; dropHeight := dropHeight m;
    circularRadius := circularRadius m; angularVelocity := angularVelocity m;
    circularClockwise := circularClockwise m;
    circularCenter := circularCenter m; frameVelocity := frameVelocity m;
    viewInWorldFrame := viewInWorldFrame m; dragMode := dragMode m;
    dragCoefficient := dragCoefficient m; restitution := restitution m;
    bounceEnabled := bounceEnabled m; bounceThreshold := bounceThreshold m;
    isStopped := isStopped m; isLaunched := isLaunched m; status := status m;
    stats := stats m; trailPoints := trailPoints m; trailLine := trailLine m;
    maxTrailPoints := maxTrailPoints m
  |}.

Definition set_acceleration (v : Vector3.t) (m : t) : t :=
  {|
    mesh := mesh m; motionType := motionType m; position := position m;
    velocity := velocity m; acceleration := v; mass := mass m;
    initialPosition := initialPosition m;
    initialVelocity := initialVelocity m; elapsedTime := elapsedTime m;
    gravity := gravity m; dropHeight := dropHeight m;
    circularRadius := circularRadius m; angularVelocity := angularVelocity m;
    circularClockwise := circularClockwise m;
    circularCenter := circularCenter m; frameVelocity := frameVelocity m;
    viewInWorldFrame := viewInWorldFrame m; dragMode := dragMode m;
    dragCoefficient := dragCoefficient m; restitution := restitution m;
    bounceEnabled := bounceEnabled m; bounceThreshold := bounceThreshold m;
    isStopped := isStopped m; isLaunched := isLaunched m; status := status m;
    stats := stats m; trailPoints := trailPoints m; trailLine := trailLine m;
    maxTrailPoints := maxTrailPoints m
  |}.

Definition set_initialPosition (v : Vector3.t) (m : t) : t :=
  {|
    mesh := mesh m; motionType := motionType m; position := position m;
    velocity := velocity m; acceleration := acceleration m; mass := mass m;
    initialPosition := v; initialVelocity := initialVelocity m;
    elapsedTime := elapsedTime m; gravity := gravity m;
    dropHeight := dropHeight m; circularRadius := circularRadius m;
    angularVelocity := angularVelocity m;
    circularClockwise := circularClockwise m;
    circularCenter := circularCenter m; frameVelocity := frameVelocity m;
    viewInWorldFrame := viewInWorldFrame m; dragMode := dragMode m;
    dragCoefficient := dragCoefficient m; restitution := restitution m;
    bounceEnabled := bounceEnabled m; bounceThreshold := bounceThreshold m;
    isStopped := isStopped m; isLaunched := isLaunched m; status := status m;
    stats := stats m; trailPoints := trailPoints m; trailLine := trailLine m;
    maxTrailPoints := maxTrailPoints m
  |}.

Definition set_initialVelocity (v : Vector3.t) (m : t) : t :=
  {|
    mesh := mesh m; motionType := motionType m; position := position m;
    velocity := velocity m; acceleration := acceleration m; mass := mass m;
    initialPosition := initialPosition m; initialVelocity := v;
    elapsedTime := elapsedTime m; gravity := gravity m;
    dropHeight := dropHeight m; circularRadius := circularRadius m;
    angularVelocity := angularVelocity m;
    circularClockwise := circularClockwise m;
    circularCenter := circularCenter m; frameVelocity := frameVelocity m;
    viewInWorldFrame := viewInWorldFrame m; dragMode := dragMode m;
    dragCoefficient := dragCoefficient m; restitution := restitution m;
    bounceEnabled := bounceEnabled m; bounceThreshold := bounceThreshold m;
    isStopped := isStopped m; isLaunched := isLaunched m; status := status m;
    stats := stats m; trailPoints := trailPoints m; trailLine := trailLine m;
    maxTrailPoints := maxTrailPoints m
  |}.

Definition set_elapsedTime (v : float) (m : t) : t :=
  {|
    mesh := mesh m; motionType := motionType m; position := position m;
    velocity := velocity m; acceleration := acceleration m; mass := mass m;
    initialPosition := initialPosition m;
    initialVelocity := initialVelocity m; elapsedTime := v;
    gravity := gravity m; dropHeight := dropHeight m;
    circularRadius := circularRadius m; angularVelocity := angularVelocity m;
    circularClockwise := circularClockwise m;
    circularCenter := circularCenter m; frameVelocity := frameVelocity m;
    viewInWorldFrame := viewInWorldFrame m; dragMode := dragMode m;
    dragCoefficient := dragCoefficient m; restitution := restitution m;
    bounceEnabled := bounceEnabled m; bounceThreshold := bounceThreshold m;
    isStopped := isStopped m; isLaunched := isLaunched m; status := status m;
    stats := stats m; trailPoints := trailPoints m; trailLine := trailLine m;
    maxTrailPoints := maxTrailPoints m
  |}.

Definition set_circularCenter (v : Vector3.t) (m : t) : t :=
  {|
    mesh := mesh m; motionType := motionType m; position := position m;
    velocity := velocity m; acceleration := acceleration m; mass := mass m;
    initialPosition := initialPosition m;
    initialVelocity := initialVelocity m; elapsedTime := elapsedTime m;
    gravity := gravity m; dropHeight := dropHeight m;
    circularRadius := circularRadius m; angularVelocity := angularVelocity m;
    circularClockwise := circularClockwise m; circularCenter := v;
    frameVelocity := frameVelocity m; viewInWorldFrame := viewInWorldFrame m;
    dragMode := dragMode m; dragCoefficient := dragCoefficient m;
    restitution := restitution m; bounceEnabled := bounceEnabled m;
    bounceThreshold := bounceThreshold m; isStopped := isStopped m;
    isLaunched := isLaunched m; status := status m; stats := stats m;
    trailPoints := trailPoints m; trailLine := trailLine m;
    maxTrailPoints := maxTrailPoints m
  |}.

Definition set_isStopped (v : bool) (m : t) : t :=
  {|
    mesh := mesh m; motionType := motionType m; position := position m;
    velocity := velocity m; acceleration := acceleration m; mass := mass m;
    initialPosition := initialPosition m;
    initialVelocity := initialVelocity m; elapsedTime := elapsedTime m;
    gravity := gravity m; dropHeight := dropHeight m;
    circularRadius := circularRadius m; angularVelocity := angularVelocity m;
    circularClockwise := circularClockwise m;
    circularCenter := circularCenter m; frameVelocity := frameVelocity m;
    viewInWorldFrame := viewInWorldFrame m; dragMode := dragMode m;
    dragCoefficient := dragCoefficient m; restitution := restitution m;
    bounceEnabled := bounceEnabled m; bounceThreshold := bounceThreshold m;
    isStopped := v; isLaunched := isLaunched m; status := status m;
    stats := stats m; trailPoints := trailPoints m; trailLine := trailLine m;
    maxTrailPoints := maxTrailPoints m
  |}.

Definition set_isLaunched (v : bool) (m : t) : t :=
  {|
    mesh := mesh m; motionType := motionType m; position := position m;
    velocity := velocity m; acceleration := acceleration m; mass := mass m;
    initialPosition := initialPosition m;
    initialVelocity := initialVelocity m; elapsedTime := elapsedTime m;
    gravity := gravity m; dropHeight := dropHeight m;
    circularRadius := circularRadius m; angularVelocity := angularVelocity m;
    circularClockwise := circularClockwise m;
    circularCenter := circularCenter m; frameVelocity := frameVelocity m;
    viewInWorldFrame := viewInWorldFrame m; dragMode := dragMode m;
    dragCoefficient := dragCoefficient m; restitution := restitution m;
    bounceEnabled := bounceEnabled m; bounceThreshold := bounceThreshold m;
    isStopped := isStopped m; isLaunched := v; status := status m;
    stats := stats m; trailPoints := trailPoints m; trailLine := trailLine m;
    maxTrailPoints := maxTrailPoints m
  |}.

Definition set_status (v : string) (m : t) : t :=
  {|
    mesh := mesh m; motionType := motionType m; position := position m;
    velocity := velocity m; acceleration := acceleration m; mass := mass m;
    initialPosition := initialPosition m;
    initialVelocity := initialVelocity m; elapsedTime := elapsedTime m;
    gravity := gravity m; dropHeight := dropHeight m;
    circularRadius := circularRadius m; angularVelocity := angularVelocity m;
    circularClockwise := circularClockwise m;
    circularCenter := circularCenter m; frameVelocity := frameVelocity m;
    viewInWorldFrame := viewInWorldFrame m; dragMode := dragMode m;
    dragCoefficient := dragCoefficient m; restitution := restitution m;
    bounceEnabled := bounceEnabled m; bounceThreshold := bounceThreshold m;
    isStopped := isStopped m; isLaunched := isLaunched m; status := v;
    stats := stats m; trailPoints := trailPoints m; trailLine := trailLine m;
    maxTrailPoints := maxTrailPoints m
  |}.

Definition set_stats (v : Stats) (m : t) : t :=
  {|
    mesh := mesh m; motionType := motionType m; position := position m;
    velocity := velocity m; acceleration := acceleration m; mass := mass m;
    initialPosition := initialPosition m;
    initialVelocity := initialVelocity m; elapsedTime := elapsedTime m;
    gravity := gravity m; dropHeight := dropHeight m;
    circularRadius := circularRadius m; angularVelocity := angularVelocity m;
    circularClockwise := circularClockwise m;
    circularCenter := circularCenter m; frameVelocity := frameVelocity m;
    viewInWorldFrame := viewInWorldFrame m; dragMode := dragMode m;
    dragCoefficient := dragCoefficient m; restitution := restitution m;
    bounceEnabled := bounceEnabled m; bounceThreshold := bounceThreshold m;
    isStopped := isStopped m; isLaunched := isLaunched m; status := status m;
    stats := v; trailPoints := trailPoints m; trailLine := trailLine m;
    maxTrailPoints := maxTrailPoints m
  |}.

Definition set_trailPoints (v : list Vector3.t) (m : t) : t :=
  {|
    mesh := mesh m; motionType := motionType m; position := position m;
    velocity := velocity m; acceleration := acceleration m; mass := mass m;
    initialPosition := initialPosition m;
    initialVelocity := initialVelocity m; elapsedTime := elapsedTime m;
    gravity := gravity m; dropHeight := dropHeight m;
    circularRadius := circularRadius m; angularVelocity := angularVelocity m;
    circularClockwise := circularClockwise m;
    circularCenter := circularCenter m; frameVelocity := frameVelocity m;
    viewInWorldFrame := viewInWorldFrame m; dragMode := dragMode m;
    dragCoefficient := dragCoefficient m; restitution := restitution m;
    bounceEnabled := bounceEnabled m; bounceThreshold := bounceThreshold m;
    isStopped := isStopped m; isLaunched := isLaunched m; status := status m;
    stats := stats m; trailPoints := v; trailLine := trailLine m;
    maxTrailPoints := maxTrailPoints m
  |}.

Definition set_trailLine (v : option (list Vector3.t)) (m : t) : t :=
  {|
    mesh := mesh m; motionType := motionType m; position := position m;
    velocity := velocity m; acceleration := acceleration m; mass := mass m;
    initialPosition := initialPosition m;
    initialVelocity := initialVelocity m; elapsedTime := elapsedTime m;
    gravity := gravity m; dropHeight := dropHeight m;
    circularRadius := circularRadius m; angularVelocity := angularVelocity m;
    circularClockwise := circularClockwise m;
    circularCenter := circularCenter m; frameVelocity := frameVelocity m;
    viewInWorldFrame := viewInWorldFrame m; dragMode := dragMode m;
    dragCoefficient := dragCoefficient m; restitution := restitution m;
    bounceEnabled := bounceEnabled m; bounceThreshold := bounceThreshold m;
    isStopped := isStopped m; isLaunched := isLaunched m; status := status m;
    stats := stats m; trailPoints := trailPoints m; trailLine := v;
    maxTrailPoints := maxTrailPoints m
  |}.

(** The fields only [setParams] assigns. *)

Definition set_motionType (v : string) (m : t) : t :=
  {|
    mesh := mesh m; motionType := v; position := position m;
    velocity := velocity m; acceleration := acceleration m; mass := mass m;
    initialPosition := initialPosition m;
    initialVelocity := initialVelocity m; elapsedTime := elapsedTime m;
    gravity := gravity m; dropHeight := dropHeight m;
    circularRadius := circularRadius m; angularVelocity := angularVelocity m;
    circularClockwise := circularClockwise m;
    circularCenter := circularCenter m; frameVelocity := frameVelocity m;
    viewInWorldFrame := viewInWorldFrame m; dragMode := dragMode m;
    dragCoefficient := dragCoefficient m; restitution := restitution m;
    bounceEnabled := bounceEnabled m; bounceThreshold := bounceThreshold m;
    isStopped := isStopped m; isLaunched := isLaunched m; status := status m;
    stats := stats m; trailPoints := trailPoints m; trailLine := trailLine m;
    maxTrailPoints := maxTrailPoints m
  |}.

Definition set_mass (v : float) (m : t) : t :=
  {|
    mesh := mesh m; motionType := motionType m; position := position m;
    velocity := velocity m; acceleration := acceleration m; mass := v;
    initialPosition := initialPosition m;
    initialVelocity := initialVelocity m; elapsedTime := elapsedTime m;
    gravity := gravity m; dropHeight := dropHeight m;
    circularRadius := circularRadius m; angularVelocity := angularVelocity m;
    circularClockwise := circularClockwise m;
    circularCenter := circularCenter m; frameVelocity := frameVelocity m;
    viewInWorldFrame := viewInWorldFrame m; dragMode := dragMode m;
    dragCoefficient := dragCoefficient m; restitution := restitution m;
    bounceEnabled := bounceEnabled m; bounceThreshold := bounceThreshold m;
    isStopped := isStopped m; isLaunched := isLaunched m; status := status m;
    stats := stats m; trailPoints := trailPoints m; trailLine := trailLine m;
    maxTrailPoints := maxTrailPoints m
  |}.

Definition set_gravity (v : float) (m : t) : t :=
  {|
    mesh := mesh m; motionType := motionType m; position := position m;
    velocity := velocity m; acceleration := acceleration m; mass := mass m;
    initialPosition := initialPosition m;
    initialVelocity := initialVelocity m; elapsedTime := elapsedTime m;
    gravity := v; dropHeight := dropHeight m;
    circularRadius := circularRadius m; angularVelocity := angularVelocity m;
    circularClockwise := circularClockwise m;
    circularCenter := circularCenter m; frameVelocity := frameVelocity m;
    viewInWorldFrame := viewInWorldFrame m; dragMode := dragMode m;
    dragCoefficient := dragCoefficient m; restitution := restitution m;
    bounceEnabled := bounceEnabled m; bounceThreshold := bounceThreshold m;
    isStopped := isStopped m; isLaunched := isLaunched m; status := status m;
    stats := stats m; trailPoints := trailPoints m; trailLine := trailLine m;
    maxTrailPoints := maxTrailPoints m
  |}.

Definition set_dropHeight (v : float) (m : t) : t :=
  {|
    mesh := mesh m; motionType := motionType m; position := position m;
    velocity := velocity m; acceleration := acceleration m; mass := mass m;
    initialPosition := initialPosition m;
    initialVelocity := initialVelocity m; elapsedTime := elapsedTime m;
    gravity := gravity m; dropHeight := v;
    circularRadius := circularRadius m; angularVelocity := angularVelocity m;
    circularClockwise := circularClockwise m;
    circularCenter := circularCenter m; frameVelocity := frameVelocity m;
    viewInWorldFrame := viewInWorldFrame m; dragMode := dragMode m;
    dragCoefficient := dragCoefficient m; restitution := restitution m;
    bounceEnabled := bounceEnabled m; bounceThreshold := bounceThreshold m;
    isStopped := isStopped m; isLaunched := isLaunched m; status := status m;
    stats := stats m; trailPoints := trailPoints m; trailLine := trailLine m;
    maxTrailPoints := maxTrailPoints m
  |}.

Definition set_circularRadius (v : float) (m : t) : t :=
  {|
    mesh := mesh m; motionType := motionType m; position := position m;
    velocity := velocity m; acceleration := acceleration m; mass := mass m;
    initialPosition := initialPosition m;
    initialVelocity := initialVelocity m; elapsedTime := elapsedTime m;
    gravity := gravity m; dropHeight := dropHeight m; circularRadius := v;
    angularVelocity := angularVelocity m;
    circularClockwise := circularClockwise m;
    circularCenter := circularCenter m; frameVelocity := frameVelocity m;
    viewInWorldFrame := viewInWorldFrame m; dragMode := dragMode m;
    dragCoefficient := dragCoefficient m; restitution := restitution m;
    bounceEnabled := bounceEnabled m; bounceThreshold := bounceThreshold m;
    isStopped := isStopped m; isLaunched := isLaunched m; status := status m;
    stats := stats m; trailPoints := trailPoints m; trailLine := trailLine m;
    maxTrailPoints := maxTrailPoints m
  |}.

Definition set_angularVelocity (v : float) (m : t) : t :=
  {|
    mesh := mesh m; motionType := motionType m; position := position m;
    velocity := velocity m; acceleration := acceleration m; mass := mass m;
    initialPosition := initialPosition m;
    initialVelocity := initialVelocity m; elapsedTime := elapsedTime m;
    gravity := gravity m; dropHeight := dropHeight m;
    circularRadius := circularRadius m; angularVelocity := v;
    circularClockwise := circularClockwise m;
    circularCenter := circularCenter m; frameVelocity := frameVelocity m;
    viewInWorldFrame := viewInWorldFrame m; dragMode := dragMode m;
    dragCoefficient := dragCoefficient m; restitution := restitution m;
    bounceEnabled := bounceEnabled m; bounceThreshold := bounceThreshold m;
    isStopped := isStopped m; isLaunched := isLaunched m; status := status m;
    stats := stats m; trailPoints := trailPoints m; trailLine := trailLine m;
    maxTrailPoints := maxTrailPoints m
  |}.

Definition set_circularClockwise (v : bool) (m : t) : t :=
  {|
    mesh := mesh m; motionType := motionType m; position := position m;
    velocity := velocity m; acceleration := acceleration m; mass := mass m;
    initialPosition := initialPosition m;
    initialVelocity := initialVelocity m; elapsedTime := elapsedTime m;
    gravity := gravity m; dropHeight := dropHeight m;
    circularRadius := circularRadius m; angularVelocity := angularVelocity m;
    circularClockwise := v; circularCenter := circularCenter m;
    frameVelocity := frameVelocity m; viewInWorldFrame := viewInWorldFrame m;
    dragMode := dragMode m; dragCoefficient := dragCoefficient m;
    restitution := restitution m; bounceEnabled := bounceEnabled m;
    bounceThreshold := bounceThreshold m; isStopped := isStopped m;
    isLaunched := isLaunched m; status := status m; stats := stats m;
    trailPoints := trailPoints m; trailLine := trailLine m;
    maxTrailPoints := maxTrailPoints m
  |}.

Definition set_frameVelocity (v : Vector3.t) (m : t) : t :=
  {|
    mesh := mesh m; motionType := motionType m; position := position m;
    velocity := velocity m; acceleration := acceleration m; mass := mass m;
    initialPosition := initialPosition m;
    initialVelocity := initialVelocity m; elapsedTime := elapsedTime m;
    gravity := gravity m; dropHeight := dropHeight m;
    circularRadius := circularRadius m; angularVelocity := angularVelocity m;
    circularClockwise := circularClockwise m;
    circularCenter := circularCenter m; frameVelocity := v;
    viewInWorldFrame := viewInWorldFrame m; dragMode := dragMode m;
    dragCoefficient := dragCoefficient m; restitution := restitution m;
    bounceEnabled := bounceEnabled m; bounceThreshold := bounceThreshold m;
    isStopped := isStopped m; isLaunched := isLaunched m; status := status m;
    stats := stats m; trailPoints := trailPoints m; trailLine := trailLine m;
    maxTrailPoints := maxTrailPoints m
  |}.

Definition set_viewInWorldFrame (v : bool) (m : t) : t :=
  {|
    mesh := mesh m; motionType := motionType m; position := position m;
    velocity := velocity m; acceleration := acceleration m; mass := mass m;
    initialPosition := initialPosition m;
    initialVelocity := initialVelocity m; elapsedTime := elapsedTime m;
    gravity := gravity m; dropHeight := dropHeight m;
    circularRadius := circularRadius m; angularVelocity := angularVelocity m;
    circularClockwise := circularClockwise m;
    circularCenter := circularCenter m; frameVelocity := frameVelocity m;
    viewInWorldFrame := v; dragMode := dragMode m;
    dragCoefficient := dragCoefficient m; restitution := restitution m;
    bounceEnabled := bounceEnabled m; bounceThreshold := bounceThreshold m;
    isStopped := isStopped m; isLaunched := isLaunched m; status := status m;
    stats := stats m; trailPoints := trailPoints m; trailLine := trailLine m;
    maxTrailPoints := maxTrailPoints m
  |}.

Definition set_dragMode (v : string) (m : t) : t :=
  {|
    mesh := mesh m; motionType := motionType m; position := position m;
    velocity := velocity m; acceleration := acceleration m; mass := mass m;
    initialPosition := initialPosition m;
    initialVelocity := initialVelocity m; elapsedTime := elapsedTime m;
    gravity := gravity m; dropHeight := dropHeight m;
    circularRadius := circularRadius m; angularVelocity := angularVelocity m;
    circularClockwise := circularClockwise m;
    circularCenter := circularCenter m; frameVelocity := frameVelocity m;
    viewInWorldFrame := viewInWorldFrame m; dragMode := v;
    dragCoefficient := dragCoefficient m; restitution := restitution m;
    bounceEnabled := bounceEnabled m; bounceThreshold := bounceThreshold m;
    isStopped := isStopped m; isLaunched := isLaunched m; status := status m;
    stats := stats m; trailPoints := trailPoints m; trailLine := trailLine m;
    maxTrailPoints := maxTrailPoints m
  |}.

Definition set_dragCoefficient (v : float) (m : t) : t :=
  {|
    mesh := mesh m; motionType := motionType m; position := position m;
    velocity := velocity m; acceleration := acceleration m; mass := mass m;
    initialPosition := initialPosition m;
    initialVelocity := initialVelocity m; elapsedTime := elapsedTime m;
    gravity := gravity m; dropHeight := dropHeight m;
    circularRadius := circularRadius m; angularVelocity := angularVelocity m;
    circularClockwise := circularClockwise m;
    circularCenter := circularCenter m; frameVelocity := frameVelocity m;
    viewInWorldFrame := viewInWorldFrame m; dragMode := dragMode m;
    dragCoefficient := v; restitution := restitution m;
    bounceEnabled := bounceEnabled m; bounceThreshold := bounceThreshold m;
    isStopped := isStopped m; isLaunched := isLaunched m; status := status m;
    stats := stats m; trailPoints := trailPoints m; trailLine := trailLine m;
    maxTrailPoints := maxTrailPoints m
  |}.

Definition set_restitution (v : float) (m : t) : t :=
  {|
    mesh := mesh m; motionType := motionType m; position := position m;
    velocity := velocity m; acceleration := acceleration m; mass := mass m;
    initialPosition := initialPosition m;
    initialVelocity := initialVelocity m; elapsedTime := elapsedTime m;
    gravity := gravity m; dropHeight := dropHeight m;
    circularRadius := circularRadius m; angularVelocity := angularVelocity m;
    circularClockwise := circularClockwise m;
    circularCenter := circularCenter m; frameVelocity := frameVelocity m;
    viewInWorldFrame := viewInWorldFrame m; dragMode := dragMode m;
    dragCoefficient := dragCoefficient m; restitution := v;
    bounceEnabled := bounceEnabled m; bounceThreshold := bounceThreshold m;
    isStopped := isStopped m; isLaunched := isLaunched m; status := status m;
    stats := stats m; trailPoints := trailPoints m; trailLine := trailLine m;
    maxTrailPoints := maxTrailPoints m
  |}.

Definition set_bounceEnabled (v : bool) (m : t) : t :=
  {|
    mesh := mesh m; motionType := motionType m; position := position m;
    velocity := velocity m; acceleration := acceleration m; mass := mass m;
    initialPosition := initialPosition m;
    initialVelocity := initialVelocity m; elapsedTime := elapsedTime m;
    gravity := gravity m; dropHeight := dropHeight m;
    circularRadius := circularRadius m; angularVelocity := angularVelocity m;
    circularClockwise := circularClockwise m;
    circularCenter := circularCenter m; frameVelocity := frameVelocity m;
    viewInWorldFrame := viewInWorldFrame m; dragMode := dragMode m;
    dragCoefficient := dragCoefficient m; restitution := restitution m;
    bounceEnabled := v; bounceThreshold := bounceThreshold m;
    isStopped := isStopped m; isLaunched := isLaunched m; status := status m;
    stats := stats m; trailPoints := trailPoints m; trailLine := trailLine m;
    maxTrailPoints := maxTrailPoints m
  |}.

(** The [params] argument of the constructor; [None] is an absent key. *)
Record Params : Type := mkParams {
  p_mesh : option Mesh;
  p_motionType : option string;
  p_vx : option float; p_vy : option float; p_vz : option float;
  p_ax : option float; p_ay : option float; p_az : option float;
  p_mass : option float;
  p_gravity : option float;
  p_dropHeight : option float;
  p_circularRadius : option float;
  p_angularVelocity : option float;
  p_circularClockwise : option bool;
  p_frameVx : option float; p_frameVy : option float; p_frameVz : option float;
  p_dragMode : option string;
  p_dragCoefficient : option float;
  p_restitution : option float;
  p_bounceEnabled : option bool
}.

(** [new MotionObject(scene, position, params)].  Without [params.mesh]
    the constructor builds a sphere placed at [position]; a
    MeshStandardMaterial has opacity 1 and is not transparent. *)
Definition new (pos : Vector3.t) (params : Params) : t :=
  {|
    mesh := Some (match p_mesh params with
                  | Some me => me
                  | None => mkMesh pos false (Some 1)
                  end);
    motionType := or_default_str (p_motionType params) "linear";
    position := pos;
    velocity := Vector3.mk (or_default (p_vx params) 0)
                           (or_default (p_vy params) 0)
                           (or_default (p_vz params) 0);
    acceleration := Vector3.mk (or_default (p_ax params) 0)
                               (or_default (p_ay params) 0)
                               (or_default (p_az params) 0);
    mass := or_default (p_mass params) 1.0;
    initialPosition := pos;
    initialVelocity := Vector3.mk (or_default (p_vx params) 0)
                                  (or_default (p_vy params) 0)
                                  (or_default (p_vz params) 0);
    elapsedTime := 0;
    gravity := or_default (p_gravity params) 9.8;
    dropHeight := or_default (p_dropHeight params) (Vector3.y pos);
    circularRadius := or_default (p_circularRadius params) 5;
    angularVelocity := or_default (p_angularVelocity params) 1;
    circularClockwise := default false (p_circularClockwise params);
    circularCenter := pos;
    frameVelocity := Vector3.mk (or_default (p_frameVx params) 0)
                                (or_default (p_frameVy params) 0)
                                (or_default (p_frameVz params) 0);
    viewInWorldFrame := true;
    dragMode := or_default_str (p_dragMode params) "none";
    dragCoefficient := or_default (p_dragCoefficient params) 0.1;
    restitution := or_default (p_restitution params) 0.7;
    bounceEnabled := default true (p_bounceEnabled params);
    bounceThreshold := 0.1;
    isStopped := false;
    isLaunched := false;
    status := "idle";
    stats := mkStats 0 0 0 0 0 0 None None;
    trailPoints := [];
    trailLine := None;
    maxTrailPoints := 200
  |}.

(** [launch()].  There is no test of [isLaunched]. *)
Definition launch (m : t) : t :=
  let m := set_isLaunched true m in
  let m := set_status "active" m in
  let m := set_elapsedTime 0 m in
  let m := set_isStopped false m in
  let m := set_initialPosition (position m) m in
  let m := set_initialVelocity (velocity m) m in
  let m :=
    if motionType m === "freefall" then
      let m := set_acceleration (Vector3.mk 0 (- gravity m) 0) m in
      let m := set_velocity (Vector3.mk 0 0 0) m in
      set_initialVelocity (Vector3.mk 0 0 0) m
    else m in
  let m :=
    if motionType m === "projectile" then
      set_acceleration (Vector3.mk 0 (- gravity m) 0) m
    else m in
  if motionType m === "circular" then
    let m := set_circularCenter (position m) m in
    let m := set_position
               (Vector3.set_x (Vector3.x (circularCenter m) + circularRadius m)
                              (position m)) m in
    let m := set_position
               (Vector3.set_z (Vector3.z (circularCenter m)) (position m)) m in
    set_initialPosition (position m) m
  else m.

(** [_clearTrail()]. *)
Definition _clearTrail (m : t) : t :=
  match trailLine m with
  | Some _ => set_trailLine None m
  | None => m
  end.

(** [reset()].  [this.mesh.position] raises on a disposed entity, after
    position and velocity were written. *)
Definition reset (m : t) : option t :=
  let m := set_position (initialPosition m) m in
  let m := set_velocity (initialVelocity m) m in
  me ← mesh m;
  let m := set_mesh (Some (set_mesh_position (initialPosition m) me)) m in
  let m := set_elapsedTime 0 m in
  let m := set_isLaunched false m in
  let m := set_isStopped false m in
  let m := set_status "idle" m in
  let m := set_trailPoints [] m in
  Some (_clearTrail m).

(** [_applyDrag(dt)]. *)
Definition _applyDrag (dt : float) (m : t) : t :=
  if dragMode m === "none" then m
  else
    let k := dragCoefficient m in
    let ms := mass m in
    let speed := Vector3.length (velocity m) in
    if speed <? 0.001 then m
    else if dragMode m === "linear" then
      let v := velocity m in
      set_velocity
        (Vector3.mk (Vector3.x v - (k * Vector3.x v / ms) * dt)
                    (Vector3.y v - (k * Vector3.y v / ms) * dt)
                    (Vector3.z v - (k * Vector3.z v / ms) * dt)) m
    else if dragMode m === "quadratic" then
      let v := velocity m in
      set_velocity
        (Vector3.mk (Vector3.x v - (k * speed * Vector3.x v / ms) * dt)
                    (Vector3.y v - (k * speed * Vector3.y v / ms) * dt)
                    (Vector3.z v - (k * speed * Vector3.z v / ms) * dt)) m
    else m.

(** The trigger of the ground-contact resolver:
    [position.y <= 0 && velocity.y < 0]. *)
Definition groundContact (m : t) : bool :=
  (Vector3.y (position m) <=? 0) && (Vector3.y (velocity m) <? 0).

(** [_handleGroundCollision()]. *)
Definition _handleGroundCollision (m : t) : t :=
  if groundContact m then
    let m := set_position (Vector3.set_y 0 (position m)) m in
    if bounceEnabled m && (0 <? restitution m) then
      let m := set_velocity
                 (Vector3.set_y (- restitution m * Vector3.y (velocity m))
                                (velocity m)) m in
      let m :=
        if Math_abs (Vector3.y (velocity m)) <? bounceThreshold m then
          let m := set_velocity (Vector3.set_y 0 (velocity m)) m in
          let m := set_isStopped true m in
          set_status "stopped" m
        else m in
      let m := set_initialPosition (position m) m in
      let m := set_initialVelocity (velocity m) m in
      set_elapsedTime 0 m
    else
      let m := set_velocity (Vector3.set_y 0 (velocity m)) m in
      let m := set_isStopped true m in
      set_status "stopped" m
  else m.

(** [_updateLinear(dt)]. *)
Definition _updateLinear (dt : float) (m : t) : t :=
  let m := _applyDrag dt m in
  let m :=
    if dragMode m === "none" then
      let t := elapsedTime m in
      let p0 := initialPosition m in
      let u := initialVelocity m in
      set_position
        (Vector3.mk (Vector3.x p0 + Vector3.x u * t)
                    (Vector3.y p0 + Vector3.y u * t)
                    (Vector3.z p0 + Vector3.z u * t)) m
    else
      let p := position m in
      let v := velocity m in
      set_position
        (Vector3.mk (Vector3.x p + Vector3.x v * dt)
                    (Vector3.y p + Vector3.y v * dt)
                    (Vector3.z p + Vector3.z v * dt)) m in
  _handleGroundCollision m.

(** [_updateAccelerated(dt)]. *)
Definition _updateAccelerated (dt : float) (m : t) : t :=
  let m := _applyDrag dt m in
  let a := acceleration m in
  let m :=
    if dragMode m === "none" then
      let t := elapsedTime m in
      let p0 := initialPosition m in
      let u := initialVelocity m in
      let m := set_position
        (Vector3.mk
           (Vector3.x p0 + Vector3.x u * t + 0.5 * Vector3.x a * t * t)
           (Vector3.y p0 + Vector3.y u * t + 0.5 * Vector3.y a * t * t)
           (Vector3.z p0 + Vector3.z u * t + 0.5 * Vector3.z a * t * t)) m in
      set_velocity
        (Vector3.mk (Vector3.x u + Vector3.x a * t)
                    (Vector3.y u + Vector3.y a * t)
                    (Vector3.z u + Vector3.z a * t)) m
    else
      let v := velocity m in
      let m := set_velocity
        (Vector3.mk (Vector3.x v + Vector3.x a * dt)
                    (Vector3.y v + Vector3.y a * dt)
                    (Vector3.z v + Vector3.z a * dt)) m in
      let p := position m in
      let v := velocity m in
      set_position
        (Vector3.mk (Vector3.x p + Vector3.x v * dt)
                    (Vector3.y p + Vector3.y v * dt)
                    (Vector3.z p + Vector3.z v * dt)) m in
  _handleGroundCollision m.

(** [_updateFreefall(dt)]. *)
Definition _updateFreefall (dt : float) (m : t) : t :=
  let m := _applyDrag dt m in
  let m :=
    if dragMode m === "none" then
      let t := elapsedTime m in
      let g := gravity m in
      let m := set_position
        (Vector3.set_y (Vector3.y (initialPosition m) - 0.5 * g * t * t)
                       (position m)) m in
      let m := set_velocity (Vector3.set_y (- g * t) (velocity m)) m in
      let m := set_position
        (Vector3.set_x (Vector3.x (initialPosition m)) (position m)) m in
      set_position
        (Vector3.set_z (Vector3.z (initialPosition m)) (position m)) m
    else
      let m := set_velocity
        (Vector3.set_y (Vector3.y (velocity m) + (- gravity m) * dt)
                       (velocity m)) m in
      let p := position m in
      let v := velocity m in
      set_position
        (Vector3.mk (Vector3.x p + Vector3.x v * dt)
                    (Vector3.y p + Vector3.y v * dt)
                    (Vector3.z p + Vector3.z v * dt)) m in
  _handleGroundCollision m.

(** [_updateProjectile(dt)]. *)
Definition _updateProjectile (dt : float) (m : t) : t :=
  let m := _applyDrag dt m in
  let m :=
    if dragMode m === "none" then
      let t := elapsedTime m in
      let g := gravity m in
      let p0 := initialPosition m in
      let u := initialVelocity m in
      let m := set_position
        (Vector3.mk (Vector3.x p0 + Vector3.x u * t)
                    (Vector3.y p0 + Vector3.y u * t - 0.5 * g * t * t)
                    (Vector3.z p0 + Vector3.z u * t)) m in
      set_velocity
        (Vector3.mk (Vector3.x u) (Vector3.y u - g * t) (Vector3.z u)) m
    else
      let m := set_velocity
        (Vector3.set_y (Vector3.y (velocity m) + (- gravity m) * dt)
                       (velocity m)) m in
      let p := position m in
      let v := velocity m in
      set_position
        (Vector3.mk (Vector3.x p + Vector3.x v * dt)
                    (Vector3.y p + Vector3.y v * dt)
                    (Vector3.z p + Vector3.z v * dt)) m in
  _handleGroundCollision m.

(** [_updateRelative(dt)].  In the frame-relative view the method writes
    the mesh and returns before the ground test. *)
Definition _updateRelative (dt : float) (m : t) : option t :=
  let m := _applyDrag dt m in
  let totalVel := Vector3.add (velocity m) (frameVelocity m) in
  let p := position m in
  let m := set_position
    (Vector3.mk (Vector3.x p + Vector3.x totalVel * dt)
                (Vector3.y p + Vector3.y totalVel * dt)
                (Vector3.z p + Vector3.z totalVel * dt)) m in
  if negb (viewInWorldFrame m) then
    let frameDisp := Vector3.multiplyScalar (frameVelocity m) (elapsedTime m) in
    me ← mesh m;
    Some (set_mesh
            (Some (set_mesh_position (Vector3.sub (position m) frameDisp) me))
            m)
  else Some (_handleGroundCollision m).

(** [_computeStats()]. *)
Definition _computeStats (m : t) : t :=
  let spd := Vector3.length (velocity m) in
  let disp := Vector3.length (Vector3.sub (position m) (initialPosition m)) in
  let s := stats m in
  let s := mkStats spd disp (Vector3.length (acceleration m))
                   (centripetalAccel s) (timeToImpact s) (impactVelocity s)
                   (maxHeight s) (range s) in
  let s :=
    if motionType m === "circular" then
      let w := angularVelocity m in
      let r := circularRadius m in
      mkStats (speed s) (displacement s) (accelerationMag s) (w * w * r)
              (timeToImpact s) (impactVelocity s) (maxHeight s) (range s)
    else s in
  let s :=
    if (motionType m === "freefall")
       && (0 <? Vector3.y (initialPosition m)) && (0 <? gravity m) then
      let tImpact := sqrt (2 * dropHeight m / gravity m) in
      mkStats (speed s) (displacement s) (accelerationMag s)
              (centripetalAccel s)
              (Math_max 0 (tImpact - elapsedTime m))
              (gravity m * tImpact) (maxHeight s) (range s)
    else s in
  let s :=
    if (motionType m === "projectile") && (0 <? gravity m) then
      let vy0 := Vector3.y (initialVelocity m) in
      let g := gravity m in
      let tFlight := if 0 <? vy0 then 2 * vy0 / g else 0 in
      let maxH := if 0 <? vy0 then (vy0 * vy0) / (2 * g) else 0 in
      let ux := Vector3.x (initialVelocity m) in
      let uz := Vector3.z (initialVelocity m) in
      let vHoriz := sqrt (ux * ux + uz * uz) in
      mkStats (speed s) (displacement s) (accelerationMag s)
              (centripetalAccel s)
              (Math_max 0 (tFlight - elapsedTime m))
              (sqrt (vHoriz * vHoriz
                     + (vy0 - g * tFlight) * (vy0 - g * tFlight)))
              (Some maxH) (Some (vHoriz * tFlight))
    else s in
  set_stats s m.

(** [_updateTrail()]: push a copy of the position, drop the oldest point
    beyond [maxTrailPoints], and rebuild the line from more than two
    points. *)
Definition _updateTrail (m : t) : t :=
  let m := set_trailPoints (trailPoints m ++ [position m])%list m in
  let m :=
    if bool_decide (maxTrailPoints m < List.length (trailPoints m))%nat
    then set_trailPoints (tail (trailPoints m)) m
    else m in
  if bool_decide (2 < List.length (trailPoints m))%nat then
    let m := _clearTrail m in
    set_trailLine (Some (trailPoints m)) m
  else m.

(** [dispose()]. *)
Definition dispose (m : t) : t :=
  let m := match mesh m with
           | Some _ => set_mesh None m
           | None => m
           end in
  _clearTrail m.

Section Host.

Variables Math_cos Math_sin : float -> float.

(** [_updateCircular(dt)]; no ground test. *)
Definition _updateCircular (dt : float) (m : t) : t :=
  let t := elapsedTime m in
  let r := circularRadius m in
  let w := angularVelocity m in
  let sign := if circularClockwise m then (-1) else 1 in
  let c := circularCenter m in
  let m := set_position
    (Vector3.mk (Vector3.x c + r * Math_cos (sign * w * t))
                (Vector3.y c)
                (Vector3.z c + r * Math_sin (sign * w * t))) m in
  set_velocity
    (Vector3.mk (- r * w * Math_sin (sign * w * t) * sign)
                0
                (r * w * Math_cos (sign * w * t) * sign)) m.

(** The [switch] of [update]: six recognised tags and a [default]. *)
Definition dispatch (dt : float) (m : t) : option t :=
  if motionType m === "linear" then Some (_updateLinear dt m)
  else if motionType m === "accelerated" then Some (_updateAccelerated dt m)
  else if motionType m === "freefall" then Some (_updateFreefall dt m)
  else if motionType m === "projectile" then Some (_updateProjectile dt m)
  else if motionType m === "circular" then Some (_updateCircular dt m)
  else if motionType m === "relative" then _updateRelative dt m
  else Some (_updateLinear dt m).

(** [update(dt)]: the new state and the returned status. *)
Definition update (dt : float) (m : t) : option (t * string) :=
  if negb (isLaunched m) || isStopped m then Some (m, status m)
  else
    let m := set_elapsedTime (elapsedTime m + dt) m in
    m ← dispatch dt m;
    me ← mesh m;
    let m := set_mesh (Some (set_mesh_position (position m) me)) m in
    let m := _updateTrail m in
    let m := _computeStats m in
    Some (m, status m).

(** The sample of [computePreviewPoints] at time [t]. *)
Definition previewPoint (m : t) (t : float) : Vector3.t :=
  let p0 := initialPosition m in
  let u := initialVelocity m in
  let a := acceleration m in
  let linear :=
    Vector3.mk (Vector3.x p0 + Vector3.x u * t)
               (Vector3.y p0 + Vector3.y u * t)
               (Vector3.z p0 + Vector3.z u * t) in
  if motionType m === "linear" then linear
  else if motionType m === "accelerated" then
    Vector3.mk (Vector3.x p0 + Vector3.x u * t + 0.5 * Vector3.x a * t * t)
               (Vector3.y p0 + Vector3.y u * t + 0.5 * Vector3.y a * t * t)
               (Vector3.z p0 + Vector3.z u * t + 0.5 * Vector3.z a * t * t)
  else if motionType m === "freefall" then
    Vector3.mk (Vector3.x p0)
               (Vector3.y p0 - 0.5 * gravity m * t * t)
               (Vector3.z p0)
  else if motionType m === "projectile" then
    Vector3.mk (Vector3.x p0 + Vector3.x u * t)
               (Vector3.y p0 + Vector3.y u * t - 0.5 * gravity m * t * t)
               (Vector3.z p0 + Vector3.z u * t)
  else if motionType m === "circular" then
    let sign := if circularClockwise m then (-1) else 1 in
    let c := circularCenter m in
    Vector3.mk
      (Vector3.x c + circularRadius m * Math_cos (sign * angularVelocity m * t))
      (Vector3.y c)
      (Vector3.z c + circularRadius m * Math_sin (sign * angularVelocity m * t))
  else if motionType m === "relative" then
    let totalVx := Vector3.x (velocity m) + Vector3.x (frameVelocity m) in
    let totalVz := Vector3.z (velocity m) + Vector3.z (frameVelocity m) in
    Vector3.mk (Vector3.x p0 + totalVx * t)
               (Vector3.y p0 + Vector3.y (velocity m) * t)
               (Vector3.z p0 + totalVz * t)
  else linear.

(** The [for] loop of [computePreviewPoints]: [fuel] iterations are left,
    [i] is the loop counter as the number it is in the program, and [this]
    is threaded through so that the effect of the call on it is part of the
    result. *)
Fixpoint previewLoop (fuel : nat) (i : float) (m : t)
    (points : list Vector3.t) : t * list Vector3.t :=
  match fuel with
  | O => (m, points)
  | S fuel' =>
    let t := i * 0.05 in
    let p := previewPoint m t in
    let py := if Vector3.y p <? 0 then 0 else Vector3.y p in
    let points := (points ++ [Vector3.mk (Vector3.x p) py (Vector3.z p)])%list in
    if (py <=? 0) && (0 <? i) && negb (motionType m === "circular")
    then (m, points)
    else previewLoop fuel' (i + 1) m points
  end.

(** [computePreviewPoints(numPoints)] for a count [numPoints]. *)
Definition computePreviewPoints (numPoints : nat) (m : t)
    : t * list Vector3.t :=
  previewLoop numPoints 0 m [].

(** [THREE.MathUtils.degToRad]: [degrees * (Math.PI / 180)]. *)
Definition degToRad (degrees : float) : float :=
  degrees * (3.141592653589793 / 180).

(** The [config] argument of [setParams]; [None] is an absent key. *)
Record Config : Type := mkConfig {
  c_motionType : option string;
  c_velocityMag : option float;
  c_directionAngle : option float;
  c_verticalAngle : option float;
  c_vx : option float; c_vy : option float; c_vz : option float;
  c_accelMag : option float;
  c_accelDirection : option float;
  c_accelVerticalAngle : option float;
  c_ax : option float; c_ay : option float; c_az : option float;
  c_gravity : option float;
  c_dropHeight : option float;
  c_circularRadius : option float;
  c_angularVelocity : option float;
  c_circularClockwise : option bool;
  c_frameVelocityMag : option float;
  c_frameDirection : option float;
  c_viewInWorldFrame : option bool;
  c_dragMode : option string;
  c_dragCoefficient : option float;
  c_restitution : option float;
  c_bounceEnabled : option bool;
  c_mass : option float
}.

(** [{}]. *)
Definition emptyConfig : Config :=
  mkConfig None None None None None None None None None None None None None
           None None None None None None None None None None None None None.

(** [this.f = v] when the key is present. *)
Definition assign {A : Type} (v : option A) (set : A -> t -> t) (m : t) : t :=
  match v with
  | Some a => set a m
  | None => m
  end.

(** [setParams(config)].  The [dropHeight] branch writes the mesh and
    raises on a disposed entity. *)
Definition setParams (config : Config) (m : t) : option t :=
  let m := assign (c_motionType config) set_motionType m in
  let m :=
    match c_velocityMag config, c_directionAngle config with
    | Some mag, Some dir =>
      let hAngle := degToRad (or_default (Some dir) 0) in
      let vAngle := degToRad (or_default (c_verticalAngle config) 0) in
      let m := set_velocity
        (Vector3.mk (mag * Math_cos vAngle * Math_sin hAngle)
                    (mag * Math_sin vAngle)
                    (mag * Math_cos vAngle * Math_cos hAngle)) m in
      set_initialVelocity (velocity m) m
    | _, _ => m
    end in
  let m := assign (c_vx config)
    (fun v m => set_initialVelocity (Vector3.set_x v (initialVelocity m))
                  (set_velocity (Vector3.set_x v (velocity m)) m)) m in
  let m := assign (c_vy config)
    (fun v m => set_initialVelocity (Vector3.set_y v (initialVelocity m))
                  (set_velocity (Vector3.set_y v (velocity m)) m)) m in
  let m := assign (c_vz config)
    (fun v m => set_initialVelocity (Vector3.set_z v (initialVelocity m))
                  (set_velocity (Vector3.set_z v (velocity m)) m)) m in
  let m :=
    match c_accelMag config, c_accelDirection config with
    | Some aMag, Some dir =>
      let aAngle := degToRad (or_default (Some dir) 0) in
      let aVAngle := degToRad (or_default (c_accelVerticalAngle config) 0) in
      set_acceleration
        (Vector3.mk (aMag * Math_cos aVAngle * Math_sin aAngle)
                    (aMag * Math_sin aVAngle)
                    (aMag * Math_cos aVAngle * Math_cos aAngle)) m
    | _, _ => m
    end in
  let m := assign (c_ax config)
    (fun v m => set_acceleration (Vector3.set_x v (acceleration m)) m) m in
  let m := assign (c_ay config)
    (fun v m => set_acceleration (Vector3.set_y v (acceleration m)) m) m in
  let m := assign (c_az config)
    (fun v m => set_acceleration (Vector3.set_z v (acceleration m)) m) m in
  let m := assign (c_gravity config) set_gravity m in
  m ← match c_dropHeight config with
      | Some h =>
        let m := set_dropHeight h m in
        let m := set_initialPosition
                   (Vector3.set_y h (initialPosition m)) m in
        let m := set_position (Vector3.set_y h (position m)) m in
        me ← mesh m;
        Some (set_mesh
                (Some (set_mesh_position
                         (Vector3.set_y h (mesh_position me)) me)) m)
      | None => Some m
      end;
  let m := assign (c_circularRadius config) set_circularRadius m in
  let m := assign (c_angularVelocity config) set_angularVelocity m in
  let m := assign (c_circularClockwise config) set_circularClockwise m in
  let m :=
    match c_frameVelocityMag config, c_frameDirection config with
    | Some mag, Some dir =>
      let fAngle := degToRad dir in
      set_frameVelocity
        (Vector3.mk (mag * Math_sin fAngle) 0 (mag * Math_cos fAngle)) m
    | _, _ => m
    end in
  let m := assign (c_viewInWorldFrame config) set_viewInWorldFrame m in
  let m := assign (c_dragMode config) set_dragMode m in
  let m := assign (c_dragCoefficient config) set_dragCoefficient m in
  let m := assign (c_restitution config) set_restitution m in
  let m := assign (c_bounceEnabled config) set_bounceEnabled m in
  Some (set_mass (or_default (c_mass config) (mass m)) m).

End Host.

End MotionObject.

(** ** Projectile ([projectile.js]) *)

Module Projectile.

Record t : Type := mk {
  initialVelocity : float;   (* launch speed, a magnitude *)
  angle : float;             (* degrees *)
  gravity : float;
  mass : float;
  launchPosition : Vector3.t;
  elapsedTime : float;
  isLaunched : bool;
  hasLanded : bool;
  landedTimer : float;
  groundLevel : float;
  vx : float;
  vy : float;
  launchDir : Vector3.t;
  mesh : option Mesh;
  trajectoryLine : option (list Vector3.t);
  ring : option Vector3.t    (* position of the pre-launch ring *)
}.

Definition set_elapsedTime (v : float) (p : t) : t :=
  {|
    initialVelocity := initialVelocity p; angle := angle p;
    gravity := gravity p; mass := mass p; launchPosition := launchPosition p;
    elapsedTime := v; isLaunched := isLaunched p; hasLanded := hasLanded p;
    landedTimer := landedTimer p; groundLevel := groundLevel p; vx := vx p;
    vy := vy p; launchDir := launchDir p; mesh := mesh p;
    trajectoryLine := trajectoryLine p; ring := ring p
  |}.

Definition set_isLaunched (v : bool) (p : t) : t :=
  {|
    initialVelocity := initialVelocity p; angle := angle p;
    gravity := gravity p; mass := mass p; launchPosition := launchPosition p;
    elapsedTime := elapsedTime p; isLaunched := v; hasLanded := hasLanded p;
    landedTimer := landedTimer p; groundLevel := groundLevel p; vx := vx p;
    vy := vy p; launchDir := launchDir p; mesh := mesh p;
    trajectoryLine := trajectoryLine p; ring := ring p
  |}.

Definition set_hasLanded (v : bool) (p : t) : t :=
  {|
    initialVelocity := initialVelocity p; angle := angle p;
    gravity := gravity p; mass := mass p; launchPosition := launchPosition p;
    elapsedTime := elapsedTime p; isLaunched := isLaunched p; hasLanded := v;
    landedTimer := landedTimer p; groundLevel := groundLevel p; vx := vx p;
    vy := vy p; launchDir := launchDir p; mesh := mesh p;
    trajectoryLine := trajectoryLine p; ring := ring p
  |}.

Definition set_landedTimer (v : float) (p : t) : t :=
  {|
    initialVelocity := initialVelocity p; angle := angle p;
    gravity := gravity p; mass := mass p; launchPosition := launchPosition p;
    elapsedTime := elapsedTime p; isLaunched := isLaunched p;
    hasLanded := hasLanded p; landedTimer := v; groundLevel := groundLevel p;
    vx := vx p; vy := vy p; launchDir := launchDir p; mesh := mesh p;
    trajectoryLine := trajectoryLine p; ring := ring p
  |}.

Definition set_vx (v : float) (p : t) : t :=
  {|
    initialVelocity := initialVelocity p; angle := angle p;
    gravity := gravity p; mass := mass p; launchPosition := launchPosition p;
    elapsedTime := elapsedTime p; isLaunched := isLaunched p;
    hasLanded := hasLanded p; landedTimer := landedTimer p;
    groundLevel := groundLevel p; vx := v; vy := vy p;
    launchDir := launchDir p; mesh := mesh p;
    trajectoryLine := trajectoryLine p; ring := ring p
  |}.

Definition set_vy (v : float) (p : t) : t :=
  {|
    initialVelocity := initialVelocity p; angle := angle p;
    gravity := gravity p; mass := mass p; launchPosition := launchPosition p;
    elapsedTime := elapsedTime p; isLaunched := isLaunched p;
    hasLanded := hasLanded p; landedTimer := landedTimer p;
    groundLevel := groundLevel p; vx := vx p; vy := v;
    launchDir := launchDir p; mesh := mesh p;
    trajectoryLine := trajectoryLine p; ring := ring p
  |}.

Definition set_mesh (v : option Mesh) (p : t) : t :=
  {|
    initialVelocity := initialVelocity p; angle := angle p;
    gravity := gravity p; mass := mass p; launchPosition := launchPosition p;
    elapsedTime := elapsedTime p; isLaunched := isLaunched p;
    hasLanded := hasLanded p; landedTimer := landedTimer p;
    groundLevel := groundLevel p; vx := vx p; vy := vy p;
    launchDir := launchDir p; mesh := v; trajectoryLine := trajectoryLine p;
    ring := ring p
  |}.

Definition set_trajectoryLine (v : option (list Vector3.t)) (p : t) : t :=
  {|
    initialVelocity := initialVelocity p; angle := angle p;
    gravity := gravity p; mass := mass p; launchPosition := launchPosition p;
    elapsedTime := elapsedTime p; isLaunched := isLaunched p;
    hasLanded := hasLanded p; landedTimer := landedTimer p;
    groundLevel := groundLevel p; vx := vx p; vy := vy p;
    launchDir := launchDir p; mesh := mesh p; trajectoryLine := v;
    ring := ring p
  |}.

Definition set_ring (v : option Vector3.t) (p : t) : t :=
  {|
    initialVelocity := initialVelocity p; angle := angle p;
    gravity := gravity p; mass := mass p; launchPosition := launchPosition p;
    elapsedTime := elapsedTime p; isLaunched := isLaunched p;
    hasLanded := hasLanded p; landedTimer := landedTimer p;
    groundLevel := groundLevel p; vx := vx p; vy := vy p;
    launchDir := launchDir p; mesh := mesh p;
    trajectoryLine := trajectoryLine p; ring := v
  |}.

(** The fields [setParams] assigns. *)

Definition set_initialVelocity (v : float) (p : t) : t :=
  {|
    initialVelocity := v; angle := angle p; gravity := gravity p;
    mass := mass p; launchPosition := launchPosition p;
    elapsedTime := elapsedTime p; isLaunched := isLaunched p;
    hasLanded := hasLanded p; landedTimer := landedTimer p;
    groundLevel := groundLevel p; vx := vx p; vy := vy p;
    launchDir := launchDir p; mesh := mesh p;
    trajectoryLine := trajectoryLine p; ring := ring p
  |}.

Definition set_angle (v : float) (p : t) : t :=
  {|
    initialVelocity := initialVelocity p; angle := v; gravity := gravity p;
    mass := mass p; launchPosition := launchPosition p;
    elapsedTime := elapsedTime p; isLaunched := isLaunched p;
    hasLanded := hasLanded p; landedTimer := landedTimer p;
    groundLevel := groundLevel p; vx := vx p; vy := vy p;
    launchDir := launchDir p; mesh := mesh p;
    trajectoryLine := trajectoryLine p; ring := ring p
  |}.

Definition set_gravity (v : float) (p : t) : t :=
  {|
    initialVelocity := initialVelocity p; angle := angle p; gravity := v;
    mass := mass p; launchPosition := launchPosition p;
    elapsedTime := elapsedTime p; isLaunched := isLaunched p;
    hasLanded := hasLanded p; landedTimer := landedTimer p;
    groundLevel := groundLevel p; vx := vx p; vy := vy p;
    launchDir := launchDir p; mesh := mesh p;
    trajectoryLine := trajectoryLine p; ring := ring p
  |}.

Definition set_mass (v : float) (p : t) : t :=
  {|
    initialVelocity := initialVelocity p; angle := angle p;
    gravity := gravity p; mass := v; launchPosition := launchPosition p;
    elapsedTime := elapsedTime p; isLaunched := isLaunched p;
    hasLanded := hasLanded p; landedTimer := landedTimer p;
    groundLevel := groundLevel p; vx := vx p; vy := vy p;
    launchDir := launchDir p; mesh := mesh p;
    trajectoryLine := trajectoryLine p; ring := ring p
  |}.

Definition set_launchDir (v : Vector3.t) (p : t) : t :=
  {|
    initialVelocity := initialVelocity p; angle := angle p;
    gravity := gravity p; mass := mass p; launchPosition := launchPosition p;
    elapsedTime := elapsedTime p; isLaunched := isLaunched p;
    hasLanded := hasLanded p; landedTimer := landedTimer p;
    groundLevel := groundLevel p; vx := vx p; vy := vy p; launchDir := v;
    mesh := mesh p; trajectoryLine := trajectoryLine p; ring := ring p
  |}.

(** [new Projectile(scene, position, params)]; [??] keeps every supplied
    number, zero included. *)
Definition new (pos : Vector3.t)
    (velocity angle gravity mass : option float) : t :=
  {|
    initialVelocity := default 20 velocity;
    angle := default 45 angle;
    gravity := default 9.81 gravity;
    mass := default 1 mass;
    launchPosition := pos;
    elapsedTime := 0;
    isLaunched := false;
    hasLanded := false;
    landedTimer := 0;
    groundLevel := 0;
    vx := 0;
    vy := 0;
    launchDir := Vector3.mk 1 0 0;
    mesh := Some (mkMesh pos false (Some 1));
    trajectoryLine := None;
    ring := Some (Vector3.set_y (0 + 0.01) pos)
  |}.

(** [THREE.MathUtils.degToRad]: [degrees * (Math.PI / 180)]. *)
Definition degToRad (degrees : float) : float :=
  degrees * (3.141592653589793 / 180).

(** [clearTrajectoryLine()]. *)
Definition clearTrajectoryLine (p : t) : t :=
  match trajectoryLine p with
  | Some _ => set_trajectoryLine None p
  | None => p
  end.

(** [applyDrag(vx, vy)]: the extensibility hook, the identity. *)
Definition applyDrag (vx vy : float) : float * float := (vx, vy).

(** [reset()]. *)
Definition reset (p : t) : option t :=
  let p := set_isLaunched false p in
  let p := set_hasLanded false p in
  let p := set_elapsedTime 0 p in
  let p := set_landedTimer 0 p in
  let p := set_vx 0 p in
  let p := set_vy 0 p in
  me ← mesh p;
  Some (set_mesh (Some (set_mesh_position (launchPosition p) me)) p).

(** [update(dt)]: the new state and the returned status. *)
Definition update (dt : float) (p : t) : option (t * string) :=
  if negb (isLaunched p) then Some (p, "active")
  else if hasLanded p then
    let p := set_landedTimer (landedTimer p + dt) p in
    if 2.0 <=? landedTimer p then Some (p, "remove")
    else
      me ← mesh p;
      let me :=
        match material_opacity me with
        | Some _ =>
          mkMesh (mesh_position me) true
                 (Some (Math_max 0 (1 - landedTimer p / 2.0)))
        | None => me
        end in
      Some (set_mesh (Some me) p, "landed")
  else
    let p := set_elapsedTime (elapsedTime p + dt) p in
    let t := elapsedTime p in
    let '(adjVx, adjVy) := applyDrag (vx p) (vy p) in
    let dx := adjVx * t in
    let dy := adjVy * t - 0.5 * gravity p * t * t in
    let newX := Vector3.x (launchPosition p) + Vector3.x (launchDir p) * dx in
    let newZ := Vector3.z (launchPosition p) + Vector3.z (launchDir p) * dx in
    let newY := Vector3.y (launchPosition p) + dy in
    let landing := newY <=? groundLevel p in
    let newY := if landing then groundLevel p else newY in
    let p := if landing then set_landedTimer 0 (set_hasLanded true p) else p in
    me ← mesh p;
    let p := set_mesh
               (Some (set_mesh_position (Vector3.mk newX newY newZ) me)) p in
    Some (p, if hasLanded p then "landed" else "active").

(** [dispose()]. *)
Definition dispose (p : t) : t :=
  let p := clearTrajectoryLine p in
  let p := match mesh p with
           | Some _ => set_mesh None p
           | None => p
           end in
  match ring p with
  | Some _ => set_ring None p
  | None => p
  end.

(** [setParams({ velocity, angle, gravity, mass })]. *)
Definition setParams (velocity angle gravity mass : option float) (p : t)
    : t :=
  let p := match velocity with Some v => set_initialVelocity v p | None => p end in
  let p := match angle with Some v => set_angle v p | None => p end in
  let p := match gravity with Some v => set_gravity v p | None => p end in
  match mass with Some v => set_mass v p | None => p end.

(** The number a loop counter holds after [n] increments from 0. *)
Definition countToFloat (n : nat) : float := Nat.iter n (fun i => i + 1) 0.

(** The [for] loop of [computeTrajectoryPoints]: [fuel] iterations are
    left and [i] is the counter. *)
Fixpoint trajectoryLoop (vx vy dtSim : float) (fuel : nat) (i : float)
    (p : t) (points : list Vector3.t) : t * list Vector3.t :=
  match fuel with
  | O => (p, points)
  | S fuel' =>
    let t := i * dtSim in
    let dx := vx * t in
    let dy := vy * t - 0.5 * gravity p * t * t in
    let px := Vector3.x (launchPosition p) + Vector3.x (launchDir p) * dx in
    let pz := Vector3.z (launchPosition p) + Vector3.z (launchDir p) * dx in
    let py := Vector3.y (launchPosition p) + dy in
    if (py <=? groundLevel p) && (0 <? i) then
      (p, (points ++ [Vector3.mk px (groundLevel p) pz])%list)
    else
      trajectoryLoop vx vy dtSim fuel' (i + 1) p
                     (points ++ [Vector3.mk px py pz])%list
  end.

(** The [{ flightTime, maxHeight, range }] object of [computeStats]. *)
Record FlightStats : Type := mkFlightStats {
  flightTime : float;
  flightMaxHeight : float;
  flightRange : float
}.

Section Host.

Variables Math_cos Math_sin : float -> float.

(** [launch()], guarded by [isLaunched]. *)
Definition launch (p : t) : t :=
  if isLaunched p then p
  else
    let theta := degToRad (angle p) in
    let p := set_vx (initialVelocity p * Math_cos theta) p in
    let p := set_vy (initialVelocity p * Math_sin theta) p in
    let p := set_elapsedTime 0 p in
    let p := set_isLaunched true p in
    let p := set_hasLanded false p in
    let p := set_landedTimer 0 p in
    let p := match ring p with
             | Some _ => set_ring None p
             | None => p
             end in
    clearTrajectoryLine p.

(** [computeTrajectoryPoints(numPoints)] for a count [numPoints]; the
    loop runs from 0 to [numPoints] inclusive. *)
Definition computeTrajectoryPoints (numPoints : nat) (p : t)
    : t * list Vector3.t :=
  let theta := degToRad (angle p) in
  let vx := initialVelocity p * Math_cos theta in
  let vy := initialVelocity p * Math_sin theta in
  let estimatedFlightTime :=
    (vy + sqrt (vy * vy
                + 2 * gravity p
                  * (Vector3.y (launchPosition p) - groundLevel p)))
    / gravity p in
  let dtSim :=
    Math_max (estimatedFlightTime / countToFloat numPoints) 0.01 in
  trajectoryLoop vx vy dtSim (S numPoints) 0 p [].

(** [drawTrajectoryLine()], which asks for the default 60 points. *)
Definition drawTrajectoryLine (p : t) : t :=
  let p := clearTrajectoryLine p in
  let '(p, points) := computeTrajectoryPoints 60 p in
  if bool_decide (List.length points < 2)%nat then p
  else set_trajectoryLine (Some points) p.

(** [computeStats()]. *)
Definition computeStats (p : t) : FlightStats :=
  let theta := degToRad (angle p) in
  let vy := initialVelocity p * Math_sin theta in
  let flightTime := (2 * vy) / gravity p in
  let maxHeight := (vy * vy) / (2 * gravity p) in
  let range :=
    (initialVelocity p * initialVelocity p * Math_sin (2 * theta))
    / gravity p in
  mkFlightStats (Math_max 0 flightTime) (Math_max 0 maxHeight)
                (Math_max 0 range).

End Host.

End Projectile.

(** ** The orchestrators ([kinematics_sim.js], [physics_sim.js])

    The two classes differ in names only.  Entities are objects: the array
    holds references, so the model keeps a heap of entities by address and
    the array as a list of addresses.  [disposed] is the trace of the
    [dispose()] calls made so far, oldest first. *)

Module Simulation.

Record t (E : Type) : Type := mk {
  heap : gmap nat E;
  entities : list nat;
  timeScale : float;
  disposed : list nat
}.

Arguments mk {E} _ _ _ _.
Arguments heap {E} _.
Arguments entities {E} _.
Arguments timeScale {E} _.
Arguments disposed {E} _.

Section Generic.

Context {E : Type}.
Variable entity_update : float -> E -> option (E * string).
Variable entity_dispose : E -> E.

(** [new KinematicsSimulation()] in a given heap. *)
Definition new (h : gmap nat E) : t E := mk h [] 1.0 [].

(** [addObject(obj)] ([addProjectile] in [physics_sim.js]). *)
Definition addObject (a : nat) (s : t E) : t E :=
  mk (heap s) (entities s ++ [a])%list (timeScale s) (disposed s).

(** [count]. *)
Definition count (s : t E) : nat := List.length (entities s).

(** [obj.dispose()] on the object at address [a]. *)
Definition dispose_at (a : nat) (s : t E) : option (t E) :=
  e ← heap s !! a;
  Some (mk (<[a := entity_dispose e]> (heap s)) (entities s) (timeScale s)
           (disposed s ++ [a])%list).

(** [indexOf]: the first index holding [a]. *)
Fixpoint indexOf (a : nat) (l : list nat) : option nat :=
  match l with
  | [] => None
  | b :: l' => if bool_decide (a = b) then Some O else S <$> indexOf a l'
  end.

(** [removeObject(obj)] ([removeProjectile] in [physics_sim.js]). *)
Definition removeObject (a : nat) (s : t E) : option (t E) :=
  let s :=
    match indexOf a (entities s) with
    | Some idx => mk (heap s) (delete idx (entities s)) (timeScale s)
                     (disposed s)
    | None => s
    end in
  dispose_at a s.

(** [removeAll()]. *)
Definition removeAll (s : t E) : option (t E) :=
  s ← foldl (fun acc a => s ← acc; dispose_at a s) (Some s) (entities s);
  Some (mk (heap s) [] (timeScale s) (disposed s)).

(** One iteration of the loop of [update], at index [i]. *)
Definition update_step (scaledDt : float) (i : nat) (s : t E)
    : option (t E) :=
  a ← entities s !! i;
  e ← heap s !! a;
  '(e', st) ← entity_update scaledDt e;
  let s := mk (<[a := e']> (heap s)) (entities s) (timeScale s)
              (disposed s) in
  if st === "remove" then
    let s := mk (heap s) (delete i (entities s)) (timeScale s)
                (disposed s) in
    dispose_at a s
  else Some s.

(** The loop [for (i = k - 1; i >= 0; i--)]. *)
Fixpoint update_loop (scaledDt : float) (k : nat) (s : t E)
    : option (t E) :=
  match k with
  | O => Some s
  | S i => s ← update_step scaledDt i s; update_loop scaledDt i s
  end.

(** [update(deltaTime)]. *)
Definition update (deltaTime : float) (s : t E) : option (t E) :=
  let scaledDt := deltaTime * timeScale s in
  update_loop scaledDt (List.length (entities s)) s.

(** The status the update of the object at [a] returns in heap [h]. *)
Definition verdict (scaledDt : float) (h : gmap nat E) (a : nat)
    : option string :=
  e ← h !! a; r ← entity_update scaledDt e; Some r.2.

(** Whether that status is ['remove']. *)
Definition removes (scaledDt : float) (h : gmap nat E) (a : nat) : bool :=
  match verdict scaledDt h a with
  | Some st => st === "remove"
  | None => false
  end.

End Generic.

End Simulation.

(** [KinematicsSimulation]: the orchestrator of MotionObjects. *)
Module KinematicsSimulation.
Section Host.
Variables Math_cos Math_sin : float -> float.

Definition update (deltaTime : float) (s : Simulation.t MotionObject.t)
    : option (Simulation.t MotionObject.t) :=
  Simulation.update (MotionObject.update Math_cos Math_sin)
                    MotionObject.dispose deltaTime s.

End Host.
End KinematicsSimulation.

(** [PhysicsSimulation]: the orchestrator of Projectiles. *)
Module PhysicsSimulation.

Definition update (deltaTime : float) (s : Simulation.t Projectile.t)
    : option (Simulation.t Projectile.t) :=
  Simulation.update Projectile.update Projectile.dispose deltaTime s.

End PhysicsSimulation.

(** ** KinematicsGraph ([kinematics_graph.js]), its sample buffers

    The graph holds a reference to the entity it plots; [pushSample]
    reads that entity as it is in the heap at the time of the call.  The
    canvases and [render] belong to the page and are left out. *)

Module KinematicsGraph.

Record t : Type := mk {
  activeObject : option nat;   (* address of the plotted entity, or null *)
  MAX_SAMPLES : nat;
  timeData : list float;
  posData : list float;
  velData : list float;
  accData : list float
}.

(** The buffers of [new KinematicsGraph(container)]. *)
Definition new : t := mk None 300 [] [] [] [].

(** [clearData()]. *)
Definition clearData (g : t) : t :=
  mk (activeObject g) (MAX_SAMPLES g) [] [] [] [].

(** [setActiveObject(obj)]. *)
Definition setActiveObject (obj : option nat) (g : t) : t :=
  clearData (mk obj (MAX_SAMPLES g) (timeData g) (posData g) (velData g)
                (accData g)).

(** [pushSample()]; [None] only for an address that is not in the
    heap. *)
Definition pushSample (h : gmap nat MotionObject.t) (g : t) : option t :=
  match activeObject g with
  | None => Some g
  | Some a =>
    obj ← h !! a;
    if negb (MotionObject.isLaunched obj) then Some g
    else
      let t := MotionObject.elapsedTime obj in
      let posY := Vector3.y (MotionObject.position obj) in
      let velMag := Vector3.length (MotionObject.velocity obj) in
      let accMag := Vector3.length (MotionObject.acceleration obj) in
      let acc := accMag in
      let acc := if MotionObject.motionType obj === "freefall"
                 then MotionObject.gravity obj else acc in
      let acc := if MotionObject.motionType obj === "circular"
                 then centripetalAccel (MotionObject.stats obj) else acc in
      let g := mk (activeObject g) (MAX_SAMPLES g)
                  (timeData g ++ [t])%list (posData g ++ [posY])%list
                  (velData g ++ [velMag])%list (accData g ++ [acc])%list in
      if bool_decide (MAX_SAMPLES g < List.length (timeData g))%nat then
        Some (mk (activeObject g) (MAX_SAMPLES g) (tail (timeData g))
                 (tail (posData g)) (tail (velData g)) (tail (accData g)))
      else Some g
  end.

End KinematicsGraph.

(** ** Vocabulary of the statements *)

(** The same entity under another [motionType] tag. *)
Definition withMotionType (s : string) (m : MotionObject.t) : MotionObject.t :=
  MotionObject.mk
    (MotionObject.mesh m) s (MotionObject.position m)
    (MotionObject.velocity m) (MotionObject.acceleration m)
    (MotionObject.mass m) (MotionObject.initialPosition m)
    (MotionObject.initialVelocity m) (MotionObject.elapsedTime m)
    (MotionObject.gravity m) (MotionObject.dropHeight m)
    (MotionObject.circularRadius m) (MotionObject.angularVelocity m)
    (MotionObject.circularClockwise m) (MotionObject.circularCenter m)
    (MotionObject.frameVelocity m) (MotionObject.viewInWorldFrame m)
    (MotionObject.dragMode m) (MotionObject.dragCoefficient m)
    (MotionObject.restitution m) (MotionObject.bounceEnabled m)
    (MotionObject.bounceThreshold m) (MotionObject.isStopped m)
    (MotionObject.isLaunched m) (MotionObject.status m)
    (MotionObject.stats m) (MotionObject.trailPoints m)
    (MotionObject.trailLine m) (MotionObject.maxTrailPoints m).

(** The six tags the [switch] of [update] names. *)
Definition recognisedMode (s : string) : bool :=
  (s === "linear") || (s === "accelerated") || (s === "freefall")
  || (s === "projectile") || (s === "circular") || (s === "relative").

(** The values [elapsedTime] takes after each of the calls
    [update(dt1)], [update(dt2)], ... starting from [t0]. *)
Fixpoint elapsedTimes (t0 : float) (dts : list float) : list float :=
  match dts with
  | [] => []
  | dt :: rest => (t0 + dt) :: elapsedTimes (t0 + dt) rest
  end.

(** The value [elapsedTime] has after all of them. *)
Definition elapsedAfter (t0 : float) (dts : list float) : float :=
  foldl add t0 dts.

(** The ground test on the analytic linear sample at time [t]. *)
Definition linearContactAt (m : MotionObject.t) (t : float) : bool :=
  (Vector3.y (MotionObject.initialPosition m)
   + Vector3.y (MotionObject.initialVelocity m) * t <=? 0)
  && (Vector3.y (MotionObject.velocity m) <? 0).

Section Runs.

Variables Math_cos Math_sin : float -> float.

(** [update(dt)] called once per element of [dts], in order. *)
Fixpoint updates (dts : list float) (m : MotionObject.t)
    : option MotionObject.t :=
  match dts with
  | [] => Some m
  | dt :: rest =>
    r ← MotionObject.update Math_cos Math_sin dt m; updates rest r.1
  end.

End Runs.

(** [update(dt)] of a projectile once per element of [dts]: the final
    state and the statuses returned, in order. *)
Fixpoint projectileUpdates (dts : list float) (p : Projectile.t)
    : option (Projectile.t * list string) :=
  match dts with
  | [] => Some (p, [])
  | dt :: rest =>
    r ← Projectile.update dt p;
    q ← projectileUpdates rest r.1;
    Some (q.1, r.2 :: q.2)
  end.

(** The opacity of the mesh material of a projectile, when there is one. *)
Definition opacityOf (p : Projectile.t) : option float :=
  me ← Projectile.mesh p; material_opacity me.

(** The analytic linear sample [p0 + u * t], componentwise. *)
Definition linearAt (p0 u : Vector3.t) (t : float) : Vector3.t :=
  Vector3.mk (Vector3.x p0 + Vector3.x u * t)
             (Vector3.y p0 + Vector3.y u * t)
             (Vector3.z p0 + Vector3.z u * t).

(** What a launched, moving, drag-free linear entity carries from one
    update to the next. *)
Definition flying (m : MotionObject.t) : Prop :=
  MotionObject.isLaunched m = true /\ MotionObject.isStopped m = false
  /\ MotionObject.motionType m = "linear"
  /\ MotionObject.dragMode m = "none"
  /\ is_Some (MotionObject.mesh m).

(** Agreement of two states on the fields the trail and the stats leave
    alone. *)
Definition kept (a b : MotionObject.t) : Prop :=
  MotionObject.isLaunched a = MotionObject.isLaunched b
  /\ MotionObject.isStopped a = MotionObject.isStopped b
  /\ MotionObject.motionType a = MotionObject.motionType b
  /\ MotionObject.dragMode a = MotionObject.dragMode b
  /\ MotionObject.mesh a = MotionObject.mesh b
  /\ MotionObject.elapsedTime a = MotionObject.elapsedTime b
  /\ MotionObject.position a = MotionObject.position b
  /\ MotionObject.velocity a = MotionObject.velocity b
  /\ MotionObject.initialPosition a = MotionObject.initialPosition b
  /\ MotionObject.initialVelocity a = MotionObject.initialVelocity b
  /\ MotionObject.status a = MotionObject.status b.

(** The status a landed projectile returns once its timer reads [T]. *)
Definition landedStatus (T : float) : string :=
  if 2.0 <=? T then "remove" else "landed".

(** A projectile in its landed phase that still has a mesh whose material
    has an opacity. *)
Definition fading (p : Projectile.t) : Prop :=
  Projectile.isLaunched p = true /\ Projectile.hasLanded p = true
  /\ is_Some (opacityOf p).

(** The configuration of an entity: what [setParams] and [launch]
    choose and the integrators only read. *)
Definition settings (m : MotionObject.t) :=
  (MotionObject.motionType m, MotionObject.acceleration m,
   MotionObject.mass m, MotionObject.gravity m, MotionObject.dropHeight m,
   MotionObject.circularRadius m, MotionObject.angularVelocity m,
   MotionObject.circularClockwise m, MotionObject.circularCenter m,
   MotionObject.frameVelocity m, MotionObject.viewInWorldFrame m,
   MotionObject.dragMode m, MotionObject.dragCoefficient m,
   MotionObject.restitution m, MotionObject.bounceEnabled m,
   MotionObject.bounceThreshold m, MotionObject.maxTrailPoints m).

(** Whether the entity still has its mesh. *)
Definition hasMesh (m : MotionObject.t) : bool :=
  match MotionObject.mesh m with
  | Some _ => true
  | None => false
  end.

(** What the mode updates, the drag and the ground test carry over. *)
Definition carried (m : MotionObject.t) :=
  (settings m, MotionObject.isLaunched m, hasMesh m,
   MotionObject.trailPoints m, MotionObject.trailLine m,
   MotionObject.stats m).

(** The lifecycle flags of an entity. *)
Definition flags (m : MotionObject.t) : bool * string :=
  (MotionObject.isStopped m, MotionObject.status m).

(** The three lifecycle states of an entity: idle before launch, active
    in flight, stopped on the ground. *)
Definition consistent (m : MotionObject.t) : Prop :=
  (MotionObject.isLaunched m = false /\ flags m = (false, "idle"))
  \/ (MotionObject.isLaunched m = true
      /\ (flags m = (false, "active") \/ flags m = (true, "stopped"))).

(** A launched, moving, drag-free entity of mode [tag] that has its
    mesh. *)
Definition cruising (tag : string) (m : MotionObject.t) : Prop :=
  MotionObject.isLaunched m = true /\ MotionObject.isStopped m = false
  /\ MotionObject.motionType m = tag
  /\ MotionObject.dragMode m = "none"
  /\ is_Some (MotionObject.mesh m).

(** What [setParams] never writes. *)
Definition beyondParams (m : MotionObject.t) :=
  (flags m, MotionObject.isLaunched m, MotionObject.elapsedTime m,
   MotionObject.circularCenter m, MotionObject.bounceThreshold m,
   MotionObject.stats m, MotionObject.trailPoints m,
   MotionObject.trailLine m, MotionObject.maxTrailPoints m,
   Vector3.x (MotionObject.position m), Vector3.z (MotionObject.position m),
   Vector3.x (MotionObject.initialPosition m),
   Vector3.z (MotionObject.initialPosition m), hasMesh m).

(** A launched, moving entity on its circle that has its mesh. *)
Definition orbiting (m : MotionObject.t) : Prop :=
  MotionObject.isLaunched m = true /\ MotionObject.isStopped m = false
  /\ MotionObject.motionType m = "circular"
  /\ is_Some (MotionObject.mesh m).

(** The analytic samples of the accelerated, projectile and freefall
    modes at time [t], from the snapshot of [m]. *)
Definition acceleratedPos (m : MotionObject.t) (t : float) : Vector3.t :=
  let p0 := MotionObject.initialPosition m in
  let u := MotionObject.initialVelocity m in
  let a := MotionObject.acceleration m in
  Vector3.mk (Vector3.x p0 + Vector3.x u * t + 0.5 * Vector3.x a * t * t)
             (Vector3.y p0 + Vector3.y u * t + 0.5 * Vector3.y a * t * t)
             (Vector3.z p0 + Vector3.z u * t + 0.5 * Vector3.z a * t * t).

Definition acceleratedVel (m : MotionObject.t) (t : float) : Vector3.t :=
  let u := MotionObject.initialVelocity m in
  let a := MotionObject.acceleration m in
  Vector3.mk (Vector3.x u + Vector3.x a * t)
             (Vector3.y u + Vector3.y a * t)
             (Vector3.z u + Vector3.z a * t).

Definition projectilePos (m : MotionObject.t) (t : float) : Vector3.t :=
  let p0 := MotionObject.initialPosition m in
  let u := MotionObject.initialVelocity m in
  let g := MotionObject.gravity m in
  Vector3.mk (Vector3.x p0 + Vector3.x u * t)
             (Vector3.y p0 + Vector3.y u * t - 0.5 * g * t * t)
             (Vector3.z p0 + Vector3.z u * t).

Definition projectileVel (m : MotionObject.t) (t : float) : Vector3.t :=
  let u := MotionObject.initialVelocity m in
  Vector3.mk (Vector3.x u) (Vector3.y u - MotionObject.gravity m * t)
             (Vector3.z u).

Definition freefallPos (m : MotionObject.t) (t : float) : Vector3.t :=
  let p0 := MotionObject.initialPosition m in
  Vector3.mk (Vector3.x p0)
             (Vector3.y p0 - 0.5 * MotionObject.gravity m * t * t)
             (Vector3.z p0).

Definition freefallVel (m : MotionObject.t) (t : float) : Vector3.t :=
  Vector3.set_y (- MotionObject.gravity m * t) (MotionObject.velocity m).

(** The ground test on a sample. *)
Definition contactOn (pos vel : MotionObject.t -> float -> Vector3.t)
    (m : MotionObject.t) (t : float) : bool :=
  (Vector3.y (pos m t) <=? 0) && (Vector3.y (vel m t) <? 0).

(** ** Example data

    The closed examples need some [Math.cos] and [Math.sin]: truncated
    Maclaurin series serve.  No example depends on their accuracy. *)

Definition series_cos (a : float) : float :=
  let a2 := a * a in
  1 - a2 / 2 * (1 - a2 / 12 * (1 - a2 / 30 * (1 - a2 / 56 * (1 - a2 / 90
    * (1 - a2 / 132 * (1 - a2 / 182)))))).

Definition series_sin (a : float) : float :=
  let a2 := a * a in
  a * (1 - a2 / 6 * (1 - a2 / 20 * (1 - a2 / 42 * (1 - a2 / 72
    * (1 - a2 / 110 * (1 - a2 / 156 * (1 - a2 / 210))))))).

(** [new MotionObject(scene, (0, 5, 0), { motionType: 'freefall',
    gravity: 10 })]: dropped from 5 it reaches the ground after one
    second at speed 10. *)
Definition droppedBall : MotionObject.t :=
  MotionObject.new (Vector3.mk 0 5 0)
    (MotionObject.mkParams None (Some "freefall") None None None None None
       None None (Some 10) None None None None None None None None None
       None None).

(** [new MotionObject(scene, (0, 0, 0), { vy: -5 })]: on the ground,
    moving down. *)
Definition groundedBall : MotionObject.t :=
  MotionObject.new (Vector3.mk 0 0 0)
    (MotionObject.mkParams None None None (Some (-5)) None None None None
       None None None None None None None None None None None None None).

(** [new MotionObject(scene, (0, 2, 0), { vx: 1 })]: level flight. *)
Definition glider : MotionObject.t :=
  MotionObject.new (Vector3.mk 0 2 0)
    (MotionObject.mkParams None None (Some 1) None None None None None
       None None None None None None None None None None None None None).

(** [new MotionObject(scene, (0, 0.01, 0), { vy: -0.1 })] launched, as
    [_updateLinear] leaves it before the ground test of its first
    one-second update. *)
Definition slowContact : MotionObject.t :=
  let m := MotionObject.launch
    (MotionObject.new (Vector3.mk 0 0.01 0)
       (MotionObject.mkParams None None None (Some (-0.1)) None None None
          None None None None None None None None None None None None None
          None)) in
  let m := MotionObject.set_elapsedTime (MotionObject.elapsedTime m + 1) m in
  MotionObject.set_position
    (linearAt (MotionObject.initialPosition m)
              (MotionObject.initialVelocity m) (MotionObject.elapsedTime m)) m.

(** [droppedBall] launched, as [_updateFreefall] leaves it before the
    ground test of its first one-second update: on the ground, falling
    at 10. *)
Definition fastContact : MotionObject.t :=
  let m := MotionObject.launch droppedBall in
  let m := MotionObject.set_elapsedTime (MotionObject.elapsedTime m + 1) m in
  let t := MotionObject.elapsedTime m in
  let g := MotionObject.gravity m in
  let m := MotionObject.set_position
    (Vector3.set_y
       (Vector3.y (MotionObject.initialPosition m) - 0.5 * g * t * t)
       (MotionObject.position m)) m in
  MotionObject.set_velocity
    (Vector3.set_y (- g * t) (MotionObject.velocity m)) m.

(** An entity of a mode the [switch] does not name. *)
Definition spiralBall : MotionObject.t :=
  MotionObject.launch
    (MotionObject.new (Vector3.mk 0 2 0)
       (MotionObject.mkParams None (Some "spiral") (Some 1) None None None
          None None None None None None None None None None None None None
          None None)).

(** A kinematics world at [timeScale = 0] holding the launched
    [groundedBall]. *)
Definition frozenWorld : Simulation.t MotionObject.t :=
  Simulation.mk {[ 0%nat := MotionObject.launch groundedBall ]} [0%nat] 0 [].

(** A projectile that has been on the ground for [timer] seconds. *)
Definition landedProjectile (timer : float) : Projectile.t :=
  Projectile.set_landedTimer timer
    (Projectile.set_hasLanded true
       (Projectile.set_isLaunched true
          (Projectile.new (Vector3.mk 0 0 0) None None None None))).

(** A projectile world: three landed projectiles of which the first and
    the last are due for removal within half a second. *)
Definition landedWorld : Simulation.t Projectile.t :=
  Simulation.mk
    {[ 0%nat := landedProjectile 1.75; 1%nat := landedProjectile 0.5;
       2%nat := landedProjectile 1.9 ]}
    [0%nat; 1%nat; 2%nat] 1.0 [].

(** [{}] as the [params] of a constructor. *)
Definition plainParams : MotionObject.Params :=
  MotionObject.mkParams None None None None None None None None None None
    None None None None None None None None None None None.

(** [new MotionObject(scene, (0, 10, 0), { motionType: 'accelerated',
    vx: 1, ay: 2 })]: climbing. *)
Definition climber : MotionObject.t :=
  MotionObject.new (Vector3.mk 0 10 0)
    (MotionObject.mkParams None (Some "accelerated") (Some 1) None None
       None (Some 2) None None None None None None None None None None None
       None None None).

(** [new MotionObject(scene, (0, 1, 0), { motionType: 'projectile',
    vx: 2, vy: 10, gravity: 10 })]: thrown up. *)
Definition thrownBall : MotionObject.t :=
  MotionObject.new (Vector3.mk 0 1 0)
    (MotionObject.mkParams None (Some "projectile") (Some 2) (Some 10) None
       None None None None (Some 10) None None None None None None None
       None None None None).

(** [new MotionObject(scene, (0, -1, 0), { motionType: 'circular' })]: a
    circle below ground level. *)
Definition sunkenOrbiter : MotionObject.t :=
  MotionObject.new (Vector3.mk 0 (-1) 0)
    (MotionObject.mkParams None (Some "circular") None None None None None
       None None None None None None None None None None None None None
       None).

(** [{ vx: 2, dropHeight: 3 }] as the [config] of [setParams]. *)
Definition liftConfig : MotionObject.Config :=
  MotionObject.mkConfig None None None None (Some 2) None None None None
    None None None None None (Some 3) None None None None None None None
    None None None None.

(** [new Projectile(scene, (0, 0, 0))] after [launch()]: in flight at 45
    degrees with speed 20. *)
Definition firedShell : Projectile.t :=
  Projectile.launch series_cos series_sin
    (Projectile.new (Vector3.mk 0 0 0) None None None None).

(** A preview point that is not below the ground plane. *)
Definition onOrAboveGround (q : Vector3.t) : Prop :=
  (Vector3.y q <? 0) = false.

(** [py] after [if (py < 0) py = 0]. *)
Definition clampToGround (py : float) : float :=
  if py <? 0 then 0 else py.

(** The trail line, when there is one, shows exactly the trail points,
    more than two of them; and the trail is within its cap. *)
Definition trailDrawn (m : MotionObject.t) : Prop :=
  (List.length (MotionObject.trailPoints m)
   <= MotionObject.maxTrailPoints m)%nat
  /\ forall l,
       MotionObject.trailLine m = Some l ->
       l = MotionObject.trailPoints m /\ (2 < List.length l)%nat.

(** What [if (v)] accepts of a number: neither zero nor NaN. *)
Definition truthy (f : float) : bool := negb (is_zero f || is_nan f).

(** The launch state [setParams] writes. *)
Definition launchState (m : MotionObject.t) :=
  (MotionObject.velocity m, MotionObject.initialVelocity m,
   MotionObject.mass m).

(** An entity as the constructor leaves it: the velocity and its
    snapshot agree, and the mass is a number a division can use. *)
Definition configured (m : MotionObject.t) : Prop :=
  MotionObject.velocity m = MotionObject.initialVelocity m
  /\ truthy (MotionObject.mass m) = true.

(** The four buffers of a graph hold one sample each per row and at most
    [MAX_SAMPLES] rows. *)
Definition aligned (g : KinematicsGraph.t) : Prop :=
  List.length (KinematicsGraph.posData g)
  = List.length (KinematicsGraph.timeData g)
  /\ List.length (KinematicsGraph.velData g)
     = List.length (KinematicsGraph.timeData g)
  /\ List.length (KinematicsGraph.accData g)
     = List.length (KinematicsGraph.timeData g)
  /\ (List.length (KinematicsGraph.timeData g)
      <= KinematicsGraph.MAX_SAMPLES g)%nat.

(** A call on a graph: [pushSample()] with the heap as it is then,
    [setActiveObject(obj)] or [clearData()]. *)
Inductive GraphCall : Type :=
  | PushSample (h : gmap nat MotionObject.t)
  | SetActiveObject (obj : option nat)
  | ClearData.

Definition graphCall (c : GraphCall) (g : KinematicsGraph.t)
    : option KinematicsGraph.t :=
  match c with
  | PushSample h => KinematicsGraph.pushSample h g
  | SetActiveObject obj => Some (KinematicsGraph.setActiveObject obj g)
  | ClearData => Some (KinematicsGraph.clearData g)
  end.

(** The calls of [cs] in order. *)
Fixpoint graphCalls (cs : list GraphCall) (g : KinematicsGraph.t)
    : option KinematicsGraph.t :=
  match cs with
  | [] => Some g
  | c :: cs' => g' ← graphCall c g; graphCalls cs' g'
  end.

(** [new MotionObject(scene, (0, 0, 0), { motionType: 'relative',
    vy: -1, frameVx: 1 })], viewed in the moving frame
    ([viewInWorldFrame = false]) and launched. *)
Definition frameRider : MotionObject.t :=
  MotionObject.launch
    (MotionObject.set_viewInWorldFrame false
       (MotionObject.new (Vector3.mk 0 0 0)
          (MotionObject.mkParams None (Some "relative") None (Some (-1))
             None None None None None None None None None None (Some 1)
             None None None None None None))).

(** A launched, moving, drag-free entity in relative motion that is
    viewed in the moving frame and has its mesh. *)
Definition riding (m : MotionObject.t) : Prop :=
  MotionObject.isLaunched m = true /\ MotionObject.isStopped m = false
  /\ MotionObject.motionType m = "relative"
  /\ MotionObject.viewInWorldFrame m = false
  /\ MotionObject.dragMode m = "none"
  /\ is_Some (MotionObject.mesh m).

(** [new MotionObject(scene, (0, 0.01, 0), { vy: -0.1 })]: just above
    the ground, sinking slowly. *)
Definition sinker : MotionObject.t :=
  MotionObject.new (Vector3.mk 0 0.01 0)
    (MotionObject.mkParams None None None (Some (-0.1)) None None None
       None None None None None None None None None None None None None
       None).

(** The launched [glider] after 200 updates of a quarter of a second:
    its trail is full. *)
Definition seasonedGlider : MotionObject.t :=
  default (MotionObject.launch glider)
    (updates series_cos series_sin (replicate 200 0.25)
             (MotionObject.launch glider)).

(** [buffer.push(x)] followed by [buffer.shift()] when the buffer has
    outgrown [cap]. *)
Definition ringPush {A : Type} (cap : nat) (l : list A) (x : A) : list A :=
  if bool_decide (List.length l < cap)%nat then (l ++ [x])%list
  else (tail l ++ [x])%list.

(** The acceleration [pushSample] records: the centripetal one of the
    stats on a circle, gravity in free fall, the magnitude of the
    acceleration otherwise. *)
Definition sampledAcceleration (obj : MotionObject.t) : float :=
  if MotionObject.motionType obj === "circular"
  then centripetalAccel (MotionObject.stats obj)
  else if MotionObject.motionType obj === "freefall"
  then MotionObject.gravity obj
  else Vector3.length (MotionObject.acceleration obj).

(** A graph with full buffers: it is given an entity to plot, sampled
    once while that is the launched [glider] and 299 times more while it
    is the launched [groundedBall]. *)
Definition fullGraph : KinematicsGraph.t :=
  default KinematicsGraph.new
    (graphCalls
       (SetActiveObject (Some 0%nat)
        :: PushSample {[ 0%nat := MotionObject.launch glider ]}
        :: replicate 299 (PushSample (Simulation.heap frozenWorld)))
       KinematicsGraph.new).

(** * Properties *)

(** ** The ground-contact resolver *)

Section Resolver.

Import MotionObject.

(** A ground contact that bounces: the position is clamped, and the
    snapshot and [elapsedTime] are taken from the state the bounce
    leaves. *)
Lemma rebasing_bounce (m : MotionObject.t) :
  groundContact m = true ->
  bounceEnabled m && (0 <? restitution m) = true ->
  position (_handleGroundCollision m) = Vector3.set_y 0 (position m)
  /\ initialPosition (_handleGroundCollision m)
     = position (_handleGroundCollision m)
  /\ initialVelocity (_handleGroundCollision m)
     = velocity (_handleGroundCollision m)
  /\ elapsedTime (_handleGroundCollision m) = 0.
Proof.
  intros Hc Hb. unfold _handleGroundCollision. rewrite Hc. cbn.
  rewrite Hb. case_match; cbn; repeat split.
Qed.

(** C10.  The resolver leaves the horizontal components of position and
    velocity as they are, whether or not it fires: only [position.y] and
    [velocity.y] are ever written. *)
Theorem ground_contact_keeps_horizontal (m : MotionObject.t) :
  let m' := _handleGroundCollision m in
  Vector3.x (position m') = Vector3.x (position m)
  /\ Vector3.z (position m') = Vector3.z (position m)
  /\ Vector3.x (velocity m') = Vector3.x (velocity m)
  /\ Vector3.z (velocity m') = Vector3.z (velocity m).
Proof.
  cbv zeta. unfold _handleGroundCollision.
  destruct (groundContact m); [|done].
  cbn. destruct (bounceEnabled m && (0 <? restitution m)); cbn; [|done].
  case_match; cbn; done.
Qed.

(** C4, as the code has it.  When the trigger holds the resolver clamps
    [position.y] to 0.  With bounce enabled and a positive restitution it
    sets [velocity.y] to [-restitution * velocity.y]; below
    [bounceThreshold] it then zeroes [velocity.y] and stops the entity;
    and in both of these cases, stopping or not, it re-snapshots the
    initial position and velocity from the current state and resets
    [elapsedTime].  Otherwise it zeroes [velocity.y] and stops the
    entity, leaving the snapshot and [elapsedTime] alone. *)
Theorem ground_contact_resolution (m : MotionObject.t) :
  groundContact m = true ->
  let m' := _handleGroundCollision m in
  let bounced := - restitution m * Vector3.y (velocity m) in
  position m' = Vector3.set_y 0 (position m)
  /\ (bounceEnabled m && (0 <? restitution m) = true ->
      (if Math_abs bounced <? bounceThreshold m
       then velocity m' = Vector3.set_y 0 (velocity m)
            /\ status m' = "stopped" /\ isStopped m' = true
       else velocity m' = Vector3.set_y bounced (velocity m)
            /\ status m' = status m /\ isStopped m' = isStopped m)
      /\ initialPosition m' = position m'
      /\ initialVelocity m' = velocity m'
      /\ elapsedTime m' = 0)
  /\ (bounceEnabled m && (0 <? restitution m) = false ->
      velocity m' = Vector3.set_y 0 (velocity m)
      /\ status m' = "stopped" /\ isStopped m' = true
      /\ initialPosition m' = initialPosition m
      /\ initialVelocity m' = initialVelocity m
      /\ elapsedTime m' = elapsedTime m).
Proof.
  intros Hc. cbv zeta. unfold _handleGroundCollision. rewrite Hc. cbn.
  destruct (bounceEnabled m && (0 <? restitution m)); cbn.
  - case_match; cbn; repeat split; intros; discriminate.
  - repeat split; try reflexivity; intros; discriminate.
Qed.

(** The trigger holds of [slowContact], which the resolver stops. *)
Lemma ground_contact_resolution_witness :
  groundContact slowContact = true
  /\ position (_handleGroundCollision slowContact) = Vector3.mk 0 0 0
  /\ elapsedTime (_handleGroundCollision slowContact) = 0.
Proof.
  pose proof (ground_contact_resolution slowContact eq_refl) as H.
  cbv zeta in H. destruct H as (Hp & Hb & _).
  destruct (Hb eq_refl) as (_ & _ & _ & Ht).
  split; [reflexivity|]. split; [rewrite Hp; reflexivity | exact Ht].
Defined.

(** C4, as stated, fails: in the stopping case too the snapshot is
    retaken and [elapsedTime] reset.  [slowContact] arrives with
    [velocity.y = -0.1]; the bounce leaves 0.07, below the threshold
    0.1. *)
Lemma stopping_bounce_counterexample :
  groundContact slowContact = true
  /\ bounceEnabled slowContact && (0 <? restitution slowContact) = true
  /\ status (_handleGroundCollision slowContact) = "stopped"
  /\ initialPosition slowContact = Vector3.mk 0 0.01 0
  /\ initialPosition (_handleGroundCollision slowContact) = Vector3.mk 0 0 0
  /\ initialVelocity slowContact = Vector3.mk 0 (-0.1) 0
  /\ initialVelocity (_handleGroundCollision slowContact) = Vector3.mk 0 0 0
  /\ elapsedTime slowContact = 1
  /\ elapsedTime (_handleGroundCollision slowContact) = 0.
Proof. vm_compute. repeat split. Qed.

End Resolver.

(** ** launch, reset and the trajectory preview *)

Section Lifecycle.

Import MotionObject.

Variables Math_cos Math_sin : float -> float.

Lemma previewLoop_frame (fuel : nat) :
  forall i m points,
    (previewLoop Math_cos Math_sin fuel i m points).1 = m.
Proof.
  induction fuel as [|fuel IH]; intros i m points; cbn; [done|].
  case_match; [done|apply IH].
Qed.

Lemma previewLoop_length (fuel : nat) :
  forall i m points,
    (List.length (previewLoop Math_cos Math_sin fuel i m points).2
     <= List.length points + fuel)%nat.
Proof.
  induction fuel as [|fuel IH]; intros i m points; cbn; [lia|].
  case_match.
  - cbn. rewrite length_app. cbn. lia.
  - etrans; [apply IH|]. rewrite length_app. cbn. lia.
Qed.

(** C9.  [computePreviewPoints(n)] returns at most [n] points and hands
    back [this] exactly as it received it, in every mode and state. *)
Theorem computePreviewPoints_frame (n : nat) (m : MotionObject.t) :
  (computePreviewPoints Math_cos Math_sin n m).1 = m
  /\ (List.length (computePreviewPoints Math_cos Math_sin n m).2 <= n)%nat.
Proof.
  unfold computePreviewPoints. split; [apply previewLoop_frame|].
  apply (previewLoop_length n 0 m []).
Qed.


End Lifecycle.



Section Reset.

Import MotionObject.

Lemma clearTrail_fields (m : MotionObject.t) :
  status (_clearTrail m) = status m
  /\ isLaunched (_clearTrail m) = isLaunched m
  /\ isStopped (_clearTrail m) = isStopped m
  /\ elapsedTime (_clearTrail m) = elapsedTime m
  /\ position (_clearTrail m) = position m
  /\ velocity (_clearTrail m) = velocity m.
Proof. unfold _clearTrail. destruct (trailLine m); repeat split. Qed.

(** What [reset()] does.  On an entity that still has its mesh it
    returns it to idle with [elapsedTime] 0 and with position and
    velocity copied from the current snapshot [initialPosition],
    [initialVelocity].  A bounce rewrites that snapshot, so when the
    entity comes out of a re-basing ground contact, [reset()] puts it at
    the contact point on the ground with the velocity the bounce left. *)
Lemma reset_restores_snapshot (m : MotionObject.t) (me : Mesh) :
  mesh m = Some me ->
  exists m',
    reset m = Some m'
    /\ status m' = "idle" /\ isLaunched m' = false /\ isStopped m' = false
    /\ elapsedTime m' = 0
    /\ position m' = initialPosition m
    /\ velocity m' = initialVelocity m
    /\ (forall m0,
          m = _handleGroundCollision m0 ->
          groundContact m0 = true ->
          bounceEnabled m0 && (0 <? restitution m0) = true ->
          position m' = Vector3.set_y 0 (position m0)
          /\ velocity m' = velocity m).
Proof.
  intros Hme. unfold reset. cbn. rewrite Hme. cbn.
  eexists. split; [reflexivity|].
  match goal with
  | |- context [_clearTrail ?a] =>
    destruct (clearTrail_fields a) as (-> & -> & -> & -> & -> & ->)
  end.
  cbn. do 6 (split; [reflexivity|]).
  intros m0 -> Hc Hb.
  destruct (rebasing_bounce m0 Hc Hb) as (Hp & Hip & Hiv & _).
  now rewrite Hip, Hiv, Hp.
Qed.

End Reset.

(** [fastContact] bounces; the state the resolver leaves still has its
    mesh, and reset puts it on the ground moving up at 7. *)
Lemma reset_restores_snapshot_witness :
  MotionObject.groundContact fastContact = true
  /\ MotionObject.mesh (MotionObject._handleGroundCollision fastContact)
     = Some (mkMesh (Vector3.mk 0 5 0) false (Some 1))
  /\ exists m',
       MotionObject.reset (MotionObject._handleGroundCollision fastContact)
       = Some m'
       /\ MotionObject.status m' = "idle"
       /\ MotionObject.position m' = Vector3.mk 0 0 0
       /\ MotionObject.velocity m' = Vector3.mk 0 7 0.
Proof.
  split; [reflexivity|]. split; [reflexivity|].
  destruct (reset_restores_snapshot
              (MotionObject._handleGroundCollision fastContact) _ eq_refl)
    as (m' & Hr & Hs & _ & _ & _ & _ & _ & Hb).
  destruct (Hb fastContact eq_refl eq_refl eq_refl) as (Hp & Hv).
  exists m'. split; [exact Hr|]. split; [exact Hs|].
  split; [rewrite Hp|rewrite Hv]; reflexivity.
Defined.

(** C1 fails on the code.  [reset()] is documented as [Reset to initial
    state] and copies the snapshot taken at launch, but a bounce has
    overwritten that snapshot by then.  [droppedBall] is built at
    (0, 5, 0) and launched from there at rest; its one-second update
    ends in a bounce; [reset()] then leaves it idle on the ground at
    (0, 0, 0) with velocity 7 upwards, not where and as it was
    launched. *)
Lemma reset_after_bounce_misses_spawn_state :
  exists m1 m2 : MotionObject.t,
    MotionObject.position droppedBall = Vector3.mk 0 5 0
    /\ MotionObject.position (MotionObject.launch droppedBall)
       = Vector3.mk 0 5 0
    /\ MotionObject.velocity (MotionObject.launch droppedBall)
       = Vector3.mk 0 0 0
    /\ MotionObject.update series_cos series_sin 1
         (MotionObject.launch droppedBall) = Some (m1, "active")
    /\ MotionObject.initialPosition m1 = Vector3.mk 0 0 0
    /\ MotionObject.initialVelocity m1 = Vector3.mk 0 7 0
    /\ MotionObject.reset m1 = Some m2
    /\ MotionObject.status m2 = "idle"
    /\ MotionObject.isLaunched m2 = false
    /\ MotionObject.position m2 = Vector3.mk 0 0 0
    /\ MotionObject.velocity m2 = Vector3.mk 0 7 0.
Proof.
  eexists. eexists. do 3 (split; [reflexivity|]).
  split; [vm_compute; reflexivity|].
  do 2 (split; [vm_compute; reflexivity|]).
  split; [vm_compute; reflexivity|]. vm_compute. repeat split.
Qed.

(** ** The default branch of the mode switch *)

Section DefaultMode.

Import MotionObject.

Variables Math_cos Math_sin : float -> float.

Lemma tag_tag (s s' : string) (m : MotionObject.t) :
  withMotionType s (withMotionType s' m) = withMotionType s m.
Proof. reflexivity. Qed.

Lemma tag_id (m : MotionObject.t) : withMotionType (motionType m) m = m.
Proof. destruct m; reflexivity. Qed.

Lemma tag_set_elapsedTime (s : string) (v : float) (m : MotionObject.t) :
  set_elapsedTime v (withMotionType s m)
  = withMotionType s (set_elapsedTime v m).
Proof. reflexivity. Qed.

Lemma tag_set_mesh (s : string) (v : option Mesh) (m : MotionObject.t) :
  set_mesh v (withMotionType s m) = withMotionType s (set_mesh v m).
Proof. reflexivity. Qed.

Lemma applyDrag_tag (s : string) (dt : float) (m : MotionObject.t) :
  _applyDrag dt (withMotionType s m) = withMotionType s (_applyDrag dt m).
Proof. unfold _applyDrag. cbn. repeat case_match; reflexivity. Qed.

Lemma handleGroundCollision_tag (s : string) (m : MotionObject.t) :
  _handleGroundCollision (withMotionType s m)
  = withMotionType s (_handleGroundCollision m).
Proof.
  unfold _handleGroundCollision, groundContact. cbn.
  repeat (case_match; cbn); reflexivity.
Qed.

Lemma updateLinear_tag (s : string) (dt : float) (m : MotionObject.t) :
  _updateLinear dt (withMotionType s m)
  = withMotionType s (_updateLinear dt m).
Proof.
  unfold _updateLinear. rewrite applyDrag_tag. cbn.
  case_match; cbn; rewrite <- handleGroundCollision_tag; reflexivity.
Qed.

Lemma updateTrail_tag (s : string) (m : MotionObject.t) :
  _updateTrail (withMotionType s m) = withMotionType s (_updateTrail m).
Proof.
  destruct m. unfold _updateTrail, _clearTrail. cbn.
  repeat (case_match; cbn in *); first [reflexivity | congruence].
Qed.

Lemma computeStats_tag (s : string) (m : MotionObject.t) :
  recognisedMode s = false ->
  _computeStats (withMotionType s m)
  = withMotionType s (_computeStats (withMotionType "linear" m)).
Proof.
  unfold recognisedMode. intros H.
  repeat (apply orb_false_elim in H; destruct H as [H ?]).
  unfold _computeStats. cbn.
  repeat match goal with Hs : (s === _) = false |- _ => rewrite Hs end.
  reflexivity.
Qed.

(** The [switch] on a tag it does not name, and on ['linear']. *)
Lemma dispatch_default (s : string) (dt : float) (m : MotionObject.t) :
  recognisedMode s = false ->
  dispatch Math_cos Math_sin dt (withMotionType s m)
  = Some (_updateLinear dt (withMotionType s m)).
Proof.
  unfold recognisedMode. intros H.
  repeat (apply orb_false_elim in H; destruct H as [H ?]).
  unfold dispatch. cbn.
  repeat match goal with Hs : (s === _) = false |- _ => rewrite Hs end.
  reflexivity.
Qed.

Lemma dispatch_linear (dt : float) (m : MotionObject.t) :
  dispatch Math_cos Math_sin dt (withMotionType "linear" m)
  = Some (_updateLinear dt (withMotionType "linear" m)).
Proof. reflexivity. Qed.

(** The body of [update] past its guard. *)
Lemma update_unfold (dt : float) (m : MotionObject.t) :
  update Math_cos Math_sin dt m
  = if negb (isLaunched m) || isStopped m then Some (m, status m)
    else
      m1 ← dispatch Math_cos Math_sin dt
             (set_elapsedTime (elapsedTime m + dt) m);
      me ← mesh m1;
      Some (_computeStats
              (_updateTrail
                 (set_mesh (Some (set_mesh_position (position m1) me)) m1)),
            status
              (_computeStats
                 (_updateTrail
                    (set_mesh (Some (set_mesh_position (position m1) me))
                              m1)))).
Proof. reflexivity. Qed.

Lemma computeStats_status (m : MotionObject.t) :
  status (_computeStats m) = status m.
Proof. reflexivity. Qed.

(** The update of an entity under an unrecognised tag [s], in terms of
    the update of the entity under ['linear']. *)
Lemma update_default (s : string) (dt : float) (m : MotionObject.t) :
  recognisedMode s = false ->
  update Math_cos Math_sin dt (withMotionType s m)
  = (fun r => (withMotionType s r.1, r.2))
      <$> update Math_cos Math_sin dt (withMotionType "linear" m).
Proof.
  intros Hs. rewrite !update_unfold.
  change (isLaunched (withMotionType s m)) with (isLaunched m).
  change (isLaunched (withMotionType "linear" m)) with (isLaunched m).
  change (isStopped (withMotionType s m)) with (isStopped m).
  change (isStopped (withMotionType "linear" m)) with (isStopped m).
  destruct (negb (isLaunched m) || isStopped m); [reflexivity|].
  change (elapsedTime (withMotionType s m)) with (elapsedTime m).
  change (elapsedTime (withMotionType "linear" m)) with (elapsedTime m).
  rewrite !tag_set_elapsedTime, (dispatch_default s _ _ Hs), dispatch_linear.
  rewrite !updateLinear_tag.
  generalize (_updateLinear dt (set_elapsedTime (elapsedTime m + dt) m)).
  intros m1. cbn [mbind option_bind].
  change (mesh (withMotionType s m1)) with (mesh m1).
  change (mesh (withMotionType "linear" m1)) with (mesh m1).
  destruct (mesh m1) as [me|]; [|reflexivity]. cbn [mbind option_bind].
  change (position (withMotionType s m1)) with (position m1).
  change (position (withMotionType "linear" m1)) with (position m1).
  rewrite !tag_set_mesh, !updateTrail_tag.
  generalize (_updateTrail
                (set_mesh (Some (set_mesh_position (position m1) me)) m1)).
  intros m2. rewrite (computeStats_tag s m2 Hs).
  generalize (_computeStats (withMotionType "linear" m2)). intros m3.
  reflexivity.
Qed.

(** C7.  Under a [motionType] outside the six recognised tags,
    [update(dt)] does to the entity what it does to the same entity
    tagged ['linear']: the two calls raise together or return the same
    status and states that agree on every field but the tag itself, so on
    position, velocity, status and stats in particular. *)
Theorem unknown_mode_is_linear (dt : float) (m : MotionObject.t) :
  recognisedMode (motionType m) = false ->
  update Math_cos Math_sin dt m
  = (fun r => (withMotionType (motionType m) r.1, r.2))
      <$> update Math_cos Math_sin dt (withMotionType "linear" m).
Proof.
  intros Hm. rewrite <- (update_default (motionType m) dt m Hm).
  now rewrite tag_id.
Qed.

End DefaultMode.

(** The tag of [spiralBall] is not a recognised one, and its update is
    that of the same ball tagged ['linear']. *)
Lemma unknown_mode_is_linear_witness :
  recognisedMode (MotionObject.motionType spiralBall) = false
  /\ MotionObject.update series_cos series_sin 0.5 spiralBall
     = (fun r => (withMotionType "spiral" r.1, r.2))
         <$> MotionObject.update series_cos series_sin 0.5
               (withMotionType "linear" spiralBall).
Proof.
  split; [reflexivity|].
  exact (unknown_mode_is_linear series_cos series_sin 0.5 spiralBall
           eq_refl).
Defined.

(** ** Linear motion without drag *)

Section Linear.

Import MotionObject.

Variables Math_cos Math_sin : float -> float.

Lemma updateTrail_kept (m : MotionObject.t) : kept (_updateTrail m) m.
Proof.
  unfold _updateTrail, _clearTrail, kept.
  repeat (case_match; cbn); repeat split.
Qed.

Lemma computeStats_kept (m : MotionObject.t) : kept (_computeStats m) m.
Proof. unfold kept. repeat split. Qed.

Lemma dispatch_tagged_linear (dt : float) (m : MotionObject.t) :
  motionType m = "linear" ->
  dispatch Math_cos Math_sin dt m = Some (_updateLinear dt m).
Proof. intros H. unfold dispatch. now rewrite H. Qed.

Lemma updateLinear_nodrag (dt : float) (m : MotionObject.t) :
  dragMode m = "none" ->
  _updateLinear dt m
  = _handleGroundCollision
      (set_position
         (linearAt (initialPosition m) (initialVelocity m) (elapsedTime m))
         m).
Proof.
  intros H. unfold _updateLinear, _applyDrag. rewrite H. cbn. now rewrite H.
Qed.

Lemma handleGroundCollision_idle (m : MotionObject.t) :
  groundContact m = false -> _handleGroundCollision m = m.
Proof. intros H. unfold _handleGroundCollision. now rewrite H. Qed.

(** One update without ground contact. *)
Lemma linear_step (dt : float) (m : MotionObject.t) :
  flying m ->
  linearContactAt m (elapsedTime m + dt) = false ->
  exists m',
    update Math_cos Math_sin dt m = Some (m', status m)
    /\ flying m'
    /\ elapsedTime m' = elapsedTime m + dt
    /\ position m'
       = linearAt (initialPosition m) (initialVelocity m) (elapsedTime m')
    /\ velocity m' = velocity m
    /\ initialPosition m' = initialPosition m
    /\ initialVelocity m' = initialVelocity m
    /\ status m' = status m.
Proof.
  intros (Hl & Hs & Hm & Hd & [me Hme]) Hc.
  rewrite update_unfold, Hl, Hs. cbn [negb orb].
  set (m0 := set_elapsedTime (elapsedTime m + dt) m).
  rewrite (dispatch_tagged_linear dt m0 Hm), (updateLinear_nodrag dt m0 Hd).
  cbn [mbind option_bind].
  rewrite (handleGroundCollision_idle
             (set_position
                (linearAt (initialPosition m0) (initialVelocity m0)
                          (elapsedTime m0)) m0) Hc).
  set (m1 := set_position _ _).
  assert (mesh m1 = Some me) as Hme1 by exact Hme.
  rewrite Hme1. cbn [mbind option_bind].
  set (m2 := set_mesh _ m1).
  destruct (computeStats_kept (_updateTrail m2))
    as (Kl & Ks & Km & Kd & Kme & Kt & Kp & Kv & Kip & Kiv & Kst).
  destruct (updateTrail_kept m2)
    as (Tl & Ts & Tm & Td & Tme & Tt & Tp & Tv & Tip & Tiv & Tst).
  exists (_computeStats (_updateTrail m2)).
  split; [now rewrite Kst, Tst|].
  split.
  { unfold flying. rewrite Kl, Ks, Km, Kd, Kme, Tl, Ts, Tm, Td, Tme.
    repeat split; try assumption. now eexists. }
  rewrite Kt, Kp, Kv, Kip, Kiv, Kst, Tt, Tp, Tv, Tip, Tiv, Tst.
  repeat split.
Qed.

(** Any number of updates without ground contact. *)
Lemma linear_run (dts : list float) :
  forall m : MotionObject.t,
    flying m ->
    Forall (fun t => linearContactAt m t = false)
           (elapsedTimes (elapsedTime m) dts) ->
    exists m',
      updates Math_cos Math_sin dts m = Some m'
      /\ flying m'
      /\ elapsedTime m' = elapsedAfter (elapsedTime m) dts
      /\ position m'
         = match dts with
           | [] => position m
           | _ => linearAt (initialPosition m) (initialVelocity m)
                           (elapsedTime m')
           end
      /\ velocity m' = velocity m
      /\ initialPosition m' = initialPosition m
      /\ initialVelocity m' = initialVelocity m
      /\ status m' = status m.
Proof.
  induction dts as [|dt dts IH]; intros m Hf Hc.
  - exists m. cbn. repeat split; try reflexivity; apply Hf.
  - cbn in Hc. apply Forall_cons in Hc as [Hc0 Hc].
    destruct (linear_step dt m Hf Hc0)
      as (m1 & Hu & Hf1 & Ht1 & Hp1 & Hv1 & Hip1 & Hiv1 & Hs1).
    destruct (IH m1 Hf1) as (m' & Hr & Hf' & Ht' & Hp' & Hv' & Hip' & Hiv' & Hs').
    { rewrite Ht1. eapply Forall_impl; [exact Hc|].
      intros t Ht. unfold linearContactAt in *.
      now rewrite Hip1, Hiv1, Hv1. }
    exists m'. cbn. rewrite Hu. cbn. split; [exact Hr|].
    split; [exact Hf'|]. split; [now rewrite Ht', Ht1|].
    split.
    { rewrite Hp'. destruct dts; [|now rewrite Hip1, Hiv1].
      cbn in Hr. injection Hr as <-. exact Hp1. }
    repeat split; congruence.
Qed.

(** C6.  A linear entity without drag is launched and then updated any
    number of times, no update meeting the ground test.  Its
    [elapsedTime] is the sum of the steps, its snapshot is the position
    and velocity it was launched with, its velocity is still that initial
    velocity, and after the last update its position is the snapshot
    position plus the snapshot velocity times [elapsedTime], computed in
    one step from the snapshot. *)
Theorem linear_motion_is_analytic (m0 : MotionObject.t) (me : Mesh)
    (dts : list float) :
  motionType m0 = "linear" ->
  dragMode m0 = "none" ->
  mesh m0 = Some me ->
  Forall (fun t => linearContactAt (launch m0) t = false)
         (elapsedTimes 0 dts) ->
  exists m',
    updates Math_cos Math_sin dts (launch m0) = Some m'
    /\ status m' = "active"
    /\ elapsedTime m' = elapsedAfter 0 dts
    /\ initialPosition m' = position m0
    /\ initialVelocity m' = velocity m0
    /\ velocity m' = initialVelocity m'
    /\ position m'
       = match dts with
         | [] => initialPosition m'
         | _ => linearAt (initialPosition m') (initialVelocity m')
                         (elapsedTime m')
         end.
Proof.
  intros Hm Hd Hme Hc.
  assert (launch m0
          = set_initialVelocity (velocity m0)
              (set_initialPosition (position m0)
                 (set_isStopped false
                    (set_elapsedTime 0
                       (set_status "active" (set_isLaunched true m0))))))
    as Hlaunch.
  { unfold launch. do 3 (cbn; rewrite ?Hm). reflexivity. }
  assert (flying (launch m0)) as Hf.
  { rewrite Hlaunch. unfold flying. cbn. rewrite Hm, Hd, Hme. eauto. }
  assert (elapsedTime (launch m0) = 0
          /\ position (launch m0) = position m0
          /\ velocity (launch m0) = velocity m0
          /\ initialPosition (launch m0) = position m0
          /\ initialVelocity (launch m0) = velocity m0
          /\ status (launch m0) = "active")
    as (L0 & Lp & Lv & Lip & Liv & Ls)
    by (rewrite Hlaunch; repeat split).
  destruct (linear_run dts (launch m0) Hf)
    as (m' & Hr & _ & Ht & Hp & Hv & Hip & Hiv & Hs).
  { rewrite L0. exact Hc. }
  exists m'. rewrite L0 in Ht. rewrite Lip in Hip. rewrite Liv in Hiv.
  rewrite Lv in Hv. rewrite Ls in Hs. rewrite Lp, Lip, Liv in Hp.
  split; [exact Hr|]. split; [exact Hs|]. split; [exact Ht|].
  split; [exact Hip|]. split; [exact Hiv|]. split; [congruence|].
  rewrite Hp, Hip, Hiv. reflexivity.
Qed.

End Linear.

(** The glider flies level for three steps without ground contact and
    ends at (0.75, 2, 0). *)
Lemma linear_motion_is_analytic_witness :
  exists m',
    updates series_cos series_sin [0.25; 0.25; 0.25]
            (MotionObject.launch glider) = Some m'
    /\ MotionObject.elapsedTime m' = 0.75
    /\ MotionObject.position m' = Vector3.mk 0.75 2 0.
Proof.
  destruct (linear_motion_is_analytic series_cos series_sin glider
              (mkMesh (Vector3.mk 0 2 0) false (Some 1))
              [0.25; 0.25; 0.25] eq_refl eq_refl eq_refl)
    as (m' & Hr & _ & Ht & Hip & Hiv & _ & Hp).
  { repeat constructor. }
  exists m'. split; [exact Hr|]. split; [exact Ht|].
  rewrite Hp, Hip, Hiv, Ht. reflexivity.
Defined.

(** ** The landed phase of a projectile *)

Section Landed.

Import Projectile.

(** Comparison of binary64 values is antisymmetric. *)
Lemma SFcompare_antisym (a b : spec_float) :
  SFcompare b a = option_map CompOpp (SFcompare a b).
Proof.
  destruct a as [sa|sa| |sa ma ea], b as [sb|sb| |sb mb eb]; simpl;
    try reflexivity;
    try (destruct sa; reflexivity); try (destruct sb; reflexivity);
    try (destruct sa, sb; reflexivity).
  pose proof (Pos.compare_cont_antisym ma mb Eq) as Hm. simpl in Hm.
  destruct sa, sb; simpl; try reflexivity;
    rewrite (Z.compare_antisym ea eb); destruct (ea ?= eb)%Z; simpl;
    try reflexivity; rewrite <- Hm; try reflexivity;
    now rewrite CompOpp_involutive.
Qed.

(** [a < b] excludes [a >= b]. *)
Lemma ltb_not_geb (a b : float) : (a <? b) = true -> (b <=? a) = false.
Proof.
  rewrite ltb_spec, leb_spec. unfold SFltb, SFleb.
  rewrite (SFcompare_antisym (Prim2SF a) (Prim2SF b)).
  destruct (SFcompare (Prim2SF a) (Prim2SF b)) as [[]|]; simpl; congruence.
Qed.

(** One update of a landed projectile. *)
Lemma landed_step (dt : float) (p : Projectile.t) :
  fading p ->
  exists p',
    update dt p = Some (p', landedStatus (landedTimer p + dt))
    /\ fading p'
    /\ landedTimer p' = landedTimer p + dt
    /\ opacityOf p'
       = if 2.0 <=? landedTimer p + dt then opacityOf p
         else Some (Math_max 0 (1 - (landedTimer p + dt) / 2.0)).
Proof.
  intros (Hl & Hh & [o Ho]). unfold opacityOf in Ho.
  destruct (mesh p) as [me|] eqn:Hme; [|discriminate]. cbn in Ho.
  unfold update, landedStatus, fading, opacityOf. rewrite Hl, Hh. cbn.
  destruct (2.0 <=? landedTimer p + dt).
  - eexists. split; [reflexivity|]. cbn. rewrite Hme. cbn.
    repeat split; try assumption. eauto.
  - rewrite Hme. cbn. rewrite Ho.
    eexists. split; [reflexivity|]. cbn. repeat split; try assumption. eauto.
Qed.

(** C8.  A launched projectile that has landed, with its mesh, is
    updated.  Each update adds [dt] to [landedTimer].  While the new
    timer is below 2.0 the update returns ['landed'] and sets the opacity
    to [max(0, 1 - landedTimer / 2.0)]; once it is 2.0 or more the update
    returns ['remove']; and ['remove'] is returned only then.  The
    projectile stays in its landed phase, so over any sequence of updates
    the timer is the running sum of the steps and the statuses are those
    its successive values give. *)
Theorem landed_countdown (p : Projectile.t) (dts : list float) :
  fading p ->
  (forall dt,
     let T := landedTimer p + dt in
     exists p' st,
       update dt p = Some (p', st)
       /\ landedTimer p' = T
       /\ ((T <? 2.0) = true ->
           st = "landed"
           /\ opacityOf p' = Some (Math_max 0 (1 - T / 2.0)))
       /\ ((2.0 <=? T) = true -> st = "remove")
       /\ (st = "remove" -> (2.0 <=? T) = true))
  /\ exists p' sts,
       projectileUpdates dts p = Some (p', sts)
       /\ fading p'
       /\ landedTimer p' = elapsedAfter (landedTimer p) dts
       /\ sts = map landedStatus (elapsedTimes (landedTimer p) dts).
Proof.
  intros Hf. split.
  - intros dt. cbv zeta.
    destruct (landed_step dt p Hf) as (p' & Hu & _ & Ht & Ho).
    exists p', (landedStatus (landedTimer p + dt)).
    split; [exact Hu|]. split; [exact Ht|].
    unfold landedStatus. split; [|split].
    + intros Hlt. apply ltb_not_geb in Hlt. rewrite Hlt in Ho |- *.
      split; [reflexivity|exact Ho].
    + now intros ->.
    + destruct (2.0 <=? landedTimer p + dt); [reflexivity|discriminate].
  - revert p Hf. induction dts as [|dt dts IH]; intros p Hf.
    + exists p, []. repeat split; apply Hf.
    + destruct (landed_step dt p Hf) as (p1 & Hu & Hf1 & Ht1 & _).
      destruct (IH p1 Hf1) as (p' & sts & Hr & Hf' & Ht' & Hs').
      exists p', (landedStatus (landedTimer p + dt) :: sts).
      cbn. rewrite Hu. cbn. rewrite Hr. cbn.
      split; [reflexivity|]. split; [exact Hf'|].
      split; [now rewrite Ht', Ht1|]. now rewrite Hs', Ht1.
Qed.

End Landed.

(** A projectile landed for 1.75 seconds: an eighth of a second later
    it still fades, at opacity 0.0625; a quarter later it is due for
    removal. *)
Lemma landed_countdown_witness :
  fading (landedProjectile 1.75)
  /\ (exists p',
        Projectile.update 0.125 (landedProjectile 1.75)
        = Some (p', "landed")
        /\ opacityOf p' = Some 0.0625)
  /\ exists p',
       projectileUpdates [0.125; 0.125; 0.25] (landedProjectile 1.75)
       = Some (p', ["landed"; "remove"; "remove"])
       /\ Projectile.landedTimer p' = 2.25.
Proof.
  assert (fading (landedProjectile 1.75)) as Hf.
  { unfold fading. cbn. eauto. }
  split; [exact Hf|].
  destruct (landed_countdown (landedProjectile 1.75) [0.125; 0.125; 0.25] Hf)
    as (Hstep & p' & sts & Hr & _ & Ht & Hs).
  split.
  - destruct (Hstep 0.125) as (q & st & Hu & _ & Hlt & _).
    destruct (Hlt eq_refl) as (-> & Ho).
    exists q. split; [exact Hu|]. rewrite Ho. reflexivity.
  - exists p'. split; [|exact Ht]. rewrite Hr, Hs. reflexivity.
Defined.

(** ** Removal during the orchestrator's update *)

Section Removal.

Import Simulation.

Context {E : Type}.
Variable entity_update : float -> E -> option (E * string).
Variable entity_dispose : E -> E.


(** The loop, started at index [k] in a state whose array still begins
    with the first [k] entities of [l0], keeps of those exactly the ones
    whose update does not ask for removal and disposes of the others,
    last first. *)
Lemma update_loop_spec (scaledDt : float) (l0 : list nat)
    (h0 : gmap nat E) :
  NoDup l0 ->
  (forall a, a ∈ l0 -> is_Some (verdict entity_update scaledDt h0 a)) ->
  forall (k : nat) (s : Simulation.t E) (rest : list nat),
    (k <= List.length l0)%nat ->
    entities s = (take k l0 ++ rest)%list ->
    (forall a, a ∈ take k l0 -> heap s !! a = h0 !! a) ->
    exists s',
      update_loop entity_update entity_dispose scaledDt k s = Some s'
      /\ entities s'
         = (List.filter (fun a => negb (removes entity_update scaledDt h0 a))
                        (take k l0) ++ rest)%list
      /\ disposed s'
         = (disposed s
            ++ reverse (List.filter (removes entity_update scaledDt h0)
                                    (take k l0)))%list
      /\ timeScale s' = timeScale s.
Proof.
  intros Hnd Hlive. induction k as [|i IH]; intros s rest Hk He Hh.
  { exists s. cbn. rewrite app_nil_r. repeat split. exact He. }
  destruct (lookup_lt_is_Some_2 l0 i) as [a Ha]; [lia|].
  rewrite (take_S_r _ _ _ Ha) in He, Hh |- *.
  assert (List.length (take i l0) = i) as Hlen by (apply length_take_le; lia).
  assert (entities s !! i = Some a) as Hi.
  { rewrite He, <- app_assoc. cbn.
    rewrite <- Hlen at 1. apply list_lookup_middle. reflexivity. }
  assert (heap s !! a = h0 !! a) as Hha.
  { apply Hh. apply elem_of_app. right. apply list_elem_of_singleton.
    reflexivity. }
  assert (forall a', a' ∈ take i l0 -> a' <> a) as Hne.
  { intros a' Hin ->. apply elem_of_take in Hin as (j & Hj & Hlt).
    pose proof (NoDup_lookup _ _ _ _ Hnd Hj Ha). lia. }
  destruct (Hlive a (list_elem_of_lookup_2 _ _ _ Ha)) as [st Hv].
  pose proof Hv as Hv'. unfold verdict in Hv'.
  destruct (h0 !! a) as [e|] eqn:Hea; [|discriminate]. cbn in Hv'.
  destruct (entity_update scaledDt e) as [[e' st']|] eqn:Hu; [|discriminate].
  cbn in Hv'. injection Hv' as <-.
  assert (removes entity_update scaledDt h0 a = (st' === "remove")) as Hrem.
  { unfold removes, verdict. rewrite Hea. cbn. now rewrite Hu. }
  cbn [update_loop]. unfold update_step at 1.
  rewrite Hi. cbn [mbind option_bind]. rewrite Hha.
  cbn [mbind option_bind]. rewrite Hu. cbn [mbind option_bind entities heap].
  rewrite !List.filter_app. cbn [List.filter].
  rewrite !Hrem.
  destruct (st' === "remove") eqn:Hst; cbn [negb].
  - unfold dispose_at. cbn [heap entities timeScale disposed].
    rewrite lookup_insert_eq. cbn [mbind option_bind].
    match goal with
    | |- context [update_loop _ _ _ i ?s1] =>
      destruct (IH s1 rest) as (s' & Hr & Hes & Hds & Hts)
    end.
    + lia.
    + cbn [entities]. rewrite He, <- app_assoc. cbn.
      rewrite <- Hlen at 1. apply delete_middle.
    + intros a' Hin. cbn [heap].
      rewrite !lookup_insert_ne by (apply not_eq_sym, Hne, Hin).
      apply Hh. apply elem_of_app. now left.
    + exists s'. split; [exact Hr|]. cbn [disposed timeScale] in *.
      split; [now rewrite Hes, app_nil_r|].
      split; [|exact Hts].
      rewrite Hds, reverse_snoc, <- app_assoc. reflexivity.
  - cbn [mbind option_bind].
    match goal with
    | |- context [update_loop _ _ _ i ?s1] =>
      destruct (IH s1 (a :: rest)) as (s' & Hr & Hes & Hds & Hts)
    end.
    + lia.
    + cbn [entities]. rewrite He, <- app_assoc. reflexivity.
    + intros a' Hin. cbn [heap].
      rewrite lookup_insert_ne by (apply not_eq_sym, Hne, Hin).
      apply Hh. apply elem_of_app. now left.
    + exists s'. split; [exact Hr|]. cbn [disposed timeScale] in *.
      split; [now rewrite Hes, <- app_assoc|].
      split; [|exact Hts]. now rewrite Hds, app_nil_r.
Qed.


End Removal.


(** ** Time scale zero *)

(** C2 fails on the code.  The orchestrator comment reads [0.0 = frozen],
    but at [timeScale = 0] every launched entity is still updated with
    [dt = 0], and the ground test still runs.  [groundedBall] is launched
    on the ground moving down at 5; one update of [frozenWorld] turns its
    velocity to 3.5 upwards. *)
Lemma frozen_update_changes_velocity :
  exists (s' : Simulation.t MotionObject.t) (e : MotionObject.t),
    KinematicsSimulation.update series_cos series_sin 0.016 frozenWorld
    = Some s'
    /\ Simulation.timeScale frozenWorld = 0
    /\ Simulation.heap frozenWorld !! 0%nat
       = Some (MotionObject.launch groundedBall)
    /\ MotionObject.velocity (MotionObject.launch groundedBall)
       = Vector3.mk 0 (-5) 0
    /\ Simulation.heap s' !! 0%nat = Some e
    /\ MotionObject.elapsedTime e = 0
    /\ MotionObject.position e = Vector3.mk 0 0 0
    /\ MotionObject.velocity e = Vector3.mk 0 3.5 0.
Proof.
  eexists. eexists. split; [vm_compute; reflexivity|].
  do 3 (split; [reflexivity|]). split; [vm_compute; reflexivity|].
  vm_compute. repeat split.
Qed.

(** * Further properties of the engine *)

(** ** What an update leaves alone *)

Section Footprint.

Import MotionObject.

Variables Math_cos Math_sin : float -> float.

Lemma carried_fields (a b : MotionObject.t) :
  carried a = carried b ->
  settings a = settings b /\ isLaunched a = isLaunched b
  /\ hasMesh a = hasMesh b /\ trailPoints a = trailPoints b
  /\ trailLine a = trailLine b /\ stats a = stats b.
Proof.
  intros H. repeat split.
  - exact (f_equal (fun c => c.1.1.1.1.1) H).
  - exact (f_equal (fun c => c.1.1.1.1.2) H).
  - exact (f_equal (fun c => c.1.1.1.2) H).
  - exact (f_equal (fun c => c.1.1.2) H).
  - exact (f_equal (fun c => c.1.2) H).
  - exact (f_equal (fun c => c.2) H).
Qed.

Lemma settings_cap (a b : MotionObject.t) :
  settings a = settings b -> maxTrailPoints a = maxTrailPoints b.
Proof. intros H. exact (f_equal (fun c => c.2) H). Qed.

Lemma applyDrag_carried (dt : float) (m : MotionObject.t) :
  carried (_applyDrag dt m) = carried m /\ flags (_applyDrag dt m) = flags m.
Proof. unfold _applyDrag. repeat case_match; split; reflexivity. Qed.

Lemma handleGroundCollision_carried (m : MotionObject.t) :
  carried (_handleGroundCollision m) = carried m
  /\ (flags (_handleGroundCollision m) = flags m
      \/ flags (_handleGroundCollision m) = (true, "stopped")).
Proof.
  unfold _handleGroundCollision.
  destruct (groundContact m); [|split; [reflexivity|now left]].
  cbn. destruct (bounceEnabled m && (0 <? restitution m)); cbn.
  - case_match; split; first [reflexivity | now left | now right].
  - split; [reflexivity|now right].
Qed.

(** Each position written before the ground test leaves the carried
    fields and the flags of the state after drag. *)
Lemma integrated_carried (dt : float) (m m1 : MotionObject.t) :
  carried m1 = carried (_applyDrag dt m) ->
  flags m1 = flags (_applyDrag dt m) ->
  carried (_handleGroundCollision m1) = carried m
  /\ (flags (_handleGroundCollision m1) = flags m
      \/ flags (_handleGroundCollision m1) = (true, "stopped")).
Proof.
  intros Hc Hf.
  destruct (applyDrag_carried dt m) as (Hc0 & Hf0).
  destruct (handleGroundCollision_carried m1) as (Hc1 & Hf1).
  rewrite Hc1, Hc, Hc0, <- Hf0, <- Hf. split; [reflexivity|exact Hf1].
Qed.

Lemma updateLinear_carried (dt : float) (m : MotionObject.t) :
  carried (_updateLinear dt m) = carried m
  /\ (flags (_updateLinear dt m) = flags m
      \/ flags (_updateLinear dt m) = (true, "stopped")).
Proof.
  unfold _updateLinear.
  destruct (dragMode (_applyDrag dt m) === "none");
    apply (integrated_carried dt m); reflexivity.
Qed.

Lemma updateAccelerated_carried (dt : float) (m : MotionObject.t) :
  carried (_updateAccelerated dt m) = carried m
  /\ (flags (_updateAccelerated dt m) = flags m
      \/ flags (_updateAccelerated dt m) = (true, "stopped")).
Proof.
  unfold _updateAccelerated.
  destruct (dragMode (_applyDrag dt m) === "none");
    apply (integrated_carried dt m); reflexivity.
Qed.

Lemma updateFreefall_carried (dt : float) (m : MotionObject.t) :
  carried (_updateFreefall dt m) = carried m
  /\ (flags (_updateFreefall dt m) = flags m
      \/ flags (_updateFreefall dt m) = (true, "stopped")).
Proof.
  unfold _updateFreefall.
  destruct (dragMode (_applyDrag dt m) === "none");
    apply (integrated_carried dt m); reflexivity.
Qed.

Lemma updateProjectile_carried (dt : float) (m : MotionObject.t) :
  carried (_updateProjectile dt m) = carried m
  /\ (flags (_updateProjectile dt m) = flags m
      \/ flags (_updateProjectile dt m) = (true, "stopped")).
Proof.
  unfold _updateProjectile.
  destruct (dragMode (_applyDrag dt m) === "none");
    apply (integrated_carried dt m); reflexivity.
Qed.

Lemma updateCircular_carried (dt : float) (m : MotionObject.t) :
  carried (_updateCircular Math_cos Math_sin dt m) = carried m
  /\ flags (_updateCircular Math_cos Math_sin dt m) = flags m.
Proof. split; reflexivity. Qed.

Lemma updateRelative_carried (dt : float) (m m' : MotionObject.t) :
  _updateRelative dt m = Some m' ->
  carried m' = carried m
  /\ (flags m' = flags m \/ flags m' = (true, "stopped")).
Proof.
  unfold _updateRelative.
  destruct (applyDrag_carried dt m) as (Hc0 & Hf0).
  destruct (negb (viewInWorldFrame _)).
  - cbn. destruct (mesh (_applyDrag dt m)) as [me|] eqn:Hme; [|discriminate].
    cbn. intros [= <-]. rewrite <- Hc0, <- Hf0. split; [|now left].
    unfold carried, hasMesh. cbn. now rewrite Hme.
  - intros [= <-]. apply (integrated_carried dt m); reflexivity.
Qed.

Lemma updateRelative_None (dt : float) (m : MotionObject.t) :
  _updateRelative dt m = None -> mesh m = None.
Proof.
  unfold _updateRelative.
  destruct (applyDrag_carried dt m) as (Hc0 & _).
  destruct (negb (viewInWorldFrame _)); [|discriminate].
  cbn. destruct (mesh (_applyDrag dt m)) eqn:Hme; [discriminate|].
  intros _. unfold carried, hasMesh in Hc0. cbn in Hc0. rewrite Hme in Hc0.
  destruct (mesh m); [|reflexivity]. inversion Hc0.
Qed.

(** The mode switch as a whole. *)
Lemma dispatch_carried (dt : float) (m m' : MotionObject.t) :
  dispatch Math_cos Math_sin dt m = Some m' ->
  carried m' = carried m
  /\ (flags m' = flags m \/ flags m' = (true, "stopped")).
Proof.
  unfold dispatch.
  repeat case_match;
    try (intros [= <-];
         first [ apply updateLinear_carried
               | apply updateAccelerated_carried
               | apply updateFreefall_carried
               | apply updateProjectile_carried
               | destruct (updateCircular_carried dt m) as (-> & ->);
                 split; [reflexivity|now left] ]).
  apply updateRelative_carried.
Qed.

Lemma dispatch_None (dt : float) (m : MotionObject.t) :
  dispatch Math_cos Math_sin dt m = None -> mesh m = None.
Proof.
  unfold dispatch. repeat case_match; try discriminate.
  apply updateRelative_None.
Qed.

Lemma updateTrail_settings (m : MotionObject.t) :
  settings (_updateTrail m) = settings m
  /\ flags (_updateTrail m) = flags m
  /\ isLaunched (_updateTrail m) = isLaunched m.
Proof.
  unfold _updateTrail, _clearTrail.
  repeat (case_match; cbn); repeat split.
Qed.

Lemma computeStats_settings (m : MotionObject.t) :
  settings (_computeStats m) = settings m
  /\ flags (_computeStats m) = flags m
  /\ isLaunched (_computeStats m) = isLaunched m
  /\ trailPoints (_computeStats m) = trailPoints m
  /\ maxTrailPoints (_computeStats m) = maxTrailPoints m.
Proof. repeat split. Qed.

(** The trail of [_updateTrail]: one point more, the oldest dropped
    beyond the cap. *)
Lemma updateTrail_points (m : MotionObject.t) :
  trailPoints (_updateTrail m)
  = (if bool_decide (maxTrailPoints m
                     < List.length (trailPoints m ++ [position m]))%nat
     then tail (trailPoints m ++ [position m])
     else trailPoints m ++ [position m])%list.
Proof.
  unfold _updateTrail, _clearTrail. cbn.
  repeat (case_match; cbn); reflexivity.
Qed.

(** The states an update that does its work passes through. *)
Lemma update_stages (dt : float) (m m' : MotionObject.t) (st : string) :
  isLaunched m = true -> isStopped m = false ->
  update Math_cos Math_sin dt m = Some (m', st) ->
  exists m1 me,
    dispatch Math_cos Math_sin dt (set_elapsedTime (elapsedTime m + dt) m)
    = Some m1
    /\ mesh m1 = Some me
    /\ m' = _computeStats
              (_updateTrail
                 (set_mesh (Some (set_mesh_position (position m1) me)) m1))
    /\ st = status m'.
Proof.
  intros Hl Hs. rewrite update_unfold, Hl, Hs. cbn [negb orb].
  destruct (dispatch _ _ _ _) as [m1|]; [|discriminate].
  cbn [mbind option_bind].
  destruct (mesh m1) as [me|] eqn:Hme; [|discriminate].
  cbn [mbind option_bind]. intros [= <- <-].
  exists m1, me. repeat split; assumption.
Qed.

(** X1.  Whatever the mode, an update that returns leaves the
    configuration of the entity as it was: its mode, acceleration, mass,
    gravity, drop height, circle, frame velocity and view, drag and
    bounce parameters and trail cap; and it leaves [isLaunched] as it
    was. *)
Theorem update_keeps_settings (dt : float) (m m' : MotionObject.t)
    (st : string) :
  update Math_cos Math_sin dt m = Some (m', st) ->
  settings m' = settings m /\ isLaunched m' = isLaunched m.
Proof.
  intros Hu.
  destruct (negb (isLaunched m) || isStopped m) eqn:Hg.
  { rewrite update_unfold, Hg in Hu. now injection Hu as <- <-. }
  apply orb_false_elim in Hg as [Hl Hs]. apply negb_false_iff in Hl.
  destruct (update_stages dt m m' st Hl Hs Hu) as (m1 & me & Hd & Hme & -> & _).
  apply dispatch_carried in Hd as [Hc _].
  apply carried_fields in Hc as (Hset & Hla & _).
  destruct (updateTrail_settings
              (set_mesh (Some (set_mesh_position (position m1) me)) m1))
    as (Ht & _ & Htl).
  destruct (computeStats_settings
              (_updateTrail
                 (set_mesh (Some (set_mesh_position (position m1) me)) m1)))
    as (-> & _ & -> & _).
  rewrite Ht, Htl. split; [exact Hset|exact Hla].
Qed.

(** X2.  The trail never grows past its cap: if it holds at most
    [maxTrailPoints] points before an update, it does so after. *)
Theorem update_bounds_trail (dt : float) (m m' : MotionObject.t)
    (st : string) :
  (List.length (trailPoints m) <= maxTrailPoints m)%nat ->
  update Math_cos Math_sin dt m = Some (m', st) ->
  (List.length (trailPoints m') <= maxTrailPoints m')%nat.
Proof.
  intros Hle Hu.
  destruct (negb (isLaunched m) || isStopped m) eqn:Hg.
  { rewrite update_unfold, Hg in Hu. now injection Hu as <- <-. }
  apply orb_false_elim in Hg as [Hl Hs]. apply negb_false_iff in Hl.
  destruct (update_stages dt m m' st Hl Hs Hu) as (m1 & me & Hd & Hme & -> & _).
  apply dispatch_carried in Hd as [Hc _].
  apply carried_fields in Hc as (Hset & _ & _ & Htp & _).
  apply settings_cap in Hset.
  set (m2 := set_mesh (Some (set_mesh_position (position m1) me)) m1).
  destruct (updateTrail_settings m2) as (Ht & _ & _).
  apply settings_cap in Ht.
  destruct (computeStats_settings (_updateTrail m2))
    as (_ & _ & _ & -> & ->).
  rewrite Ht, updateTrail_points.
  change (trailPoints m2) with (trailPoints m1).
  change (maxTrailPoints m2) with (maxTrailPoints m1).
  change (maxTrailPoints (set_elapsedTime (elapsedTime m + dt) m))
    with (maxTrailPoints m) in Hset.
  change (trailPoints (set_elapsedTime (elapsedTime m + dt) m))
    with (trailPoints m) in Htp.
  rewrite Hset, Htp.
  case_bool_decide as Hb; [|lia].
  assert (forall l : list Vector3.t,
            List.length (tail l) = (List.length l - 1)%nat) as Htail
    by (intros [|? ?]; cbn; lia).
  rewrite Htail, length_app. cbn. lia.
Qed.

End Footprint.

(** The glider updated once: same settings, one trail point. *)
Lemma update_keeps_settings_witness :
  exists m',
    MotionObject.update series_cos series_sin 0.25 (MotionObject.launch glider)
    = Some (m', "active")
    /\ settings m' = settings (MotionObject.launch glider).
Proof.
  assert (exists m',
            MotionObject.update series_cos series_sin 0.25
              (MotionObject.launch glider) = Some (m', "active"))
    as [m' Hu] by (eexists; vm_compute; reflexivity).
  exists m'. split; [exact Hu|].
  exact (proj1 (update_keeps_settings series_cos series_sin 0.25 _ _ _ Hu)).
Defined.

(** [seasonedGlider] has 200 trail points, as many as its cap allows;
    one more update adds a point and drops the oldest, the point at
    x = 0.25 of the first update. *)
Lemma update_bounds_trail_witness :
  List.length (MotionObject.trailPoints seasonedGlider) = 200%nat
  /\ MotionObject.maxTrailPoints seasonedGlider = 200%nat
  /\ head (MotionObject.trailPoints seasonedGlider)
     = Some (Vector3.mk 0.25 2 0)
  /\ exists m',
       MotionObject.update series_cos series_sin 0.25 seasonedGlider
       = Some (m', "active")
       /\ head (MotionObject.trailPoints m') = Some (Vector3.mk 0.5 2 0)
       /\ last (MotionObject.trailPoints m') = Some (Vector3.mk 50.25 2 0)
       /\ List.length (MotionObject.trailPoints m') = 200%nat
       /\ (List.length (MotionObject.trailPoints m')
           <= MotionObject.maxTrailPoints m')%nat.
Proof.
  assert (List.length (MotionObject.trailPoints seasonedGlider) = 200%nat)
    as Hlen by (vm_compute; reflexivity).
  assert (MotionObject.maxTrailPoints seasonedGlider = 200%nat)
    as Hcap by (vm_compute; reflexivity).
  split; [exact Hlen|]. split; [exact Hcap|].
  split; [vm_compute; reflexivity|].
  assert (exists m',
            MotionObject.update series_cos series_sin 0.25 seasonedGlider
            = Some (m', "active")
            /\ head (MotionObject.trailPoints m')
               = Some (Vector3.mk 0.5 2 0)
            /\ last (MotionObject.trailPoints m')
               = Some (Vector3.mk 50.25 2 0)
            /\ List.length (MotionObject.trailPoints m') = 200%nat)
    as (m' & Hu & Hh & Hl & Hn)
    by (eexists; vm_compute; repeat split; reflexivity).
  exists m'. split; [exact Hu|]. split; [exact Hh|]. split; [exact Hl|].
  split; [exact Hn|].
  apply (update_bounds_trail series_cos series_sin 0.25 seasonedGlider m'
           "active"); [|exact Hu].
  rewrite Hlen, Hcap. lia.
Defined.

(** ** The lifecycle of an entity *)

Section LifecycleFlags.

Import MotionObject.

Variables Math_cos Math_sin : float -> float.

Lemma assign_beyond {A : Type} (v : option A)
    (set : A -> MotionObject.t -> MotionObject.t) (m : MotionObject.t) :
  (forall a m0, beyondParams (set a m0) = beyondParams m0) ->
  beyondParams (assign v set m) = beyondParams m.
Proof. intros H. destruct v; [apply H|reflexivity]. Qed.

Lemma setters_beyond (m : MotionObject.t) :
  (forall v, beyondParams (set_mass v m) = beyondParams m)
  /\ (forall v, beyondParams (set_frameVelocity v m) = beyondParams m)
  /\ (forall v, beyondParams (set_acceleration v m) = beyondParams m)
  /\ (forall v, beyondParams (set_initialVelocity v m) = beyondParams m)
  /\ (forall v, beyondParams (set_velocity v m) = beyondParams m).
Proof. repeat split. Qed.

Lemma dropHeight_beyond (h : float) (m : MotionObject.t) (me me' : Mesh)
    (p ip : Vector3.t) :
  mesh m = Some me ->
  Vector3.x p = Vector3.x (position m) ->
  Vector3.z p = Vector3.z (position m) ->
  Vector3.x ip = Vector3.x (initialPosition m) ->
  Vector3.z ip = Vector3.z (initialPosition m) ->
  beyondParams
    (set_mesh (Some me')
       (set_position (Vector3.set_y h p)
          (set_initialPosition (Vector3.set_y h ip) (set_dropHeight h m))))
  = beyondParams m.
Proof.
  intros H Hx Hz Hix Hiz. unfold beyondParams, hasMesh. cbn.
  now rewrite H, Hx, Hz, Hix, Hiz.
Qed.

Ltac peel_beyond :=
  repeat first
    [ rewrite assign_beyond by (intros; reflexivity)
    | rewrite (proj1 (setters_beyond _))
    | rewrite (proj1 (proj2 (setters_beyond _)))
    | rewrite (proj1 (proj2 (proj2 (setters_beyond _))))
    | rewrite (proj1 (proj2 (proj2 (proj2 (setters_beyond _)))))
    | rewrite (proj2 (proj2 (proj2 (proj2 (setters_beyond _)))))
    | progress case_match ].

(** What [setParams] leaves alone. *)
Lemma setParams_beyond (config : Config) (m m' : MotionObject.t) :
  setParams Math_cos Math_sin config m = Some m' ->
  beyondParams m' = beyondParams m.
Proof.
  unfold setParams. intros H.
  destruct (c_dropHeight config) as [h|].
  - cbn [mbind option_bind] in H.
    match type of H with
    | context [set_dropHeight h ?x] => set (X := x) in *
    end.
    change (mesh (set_position _ _)) with (mesh X) in H.
    destruct (mesh X) as [me|] eqn:Hme; [|discriminate].
    cbn [mbind option_bind] in H. injection H as <-.
    peel_beyond;
      (etrans;
       [apply (dropHeight_beyond h X me); [exact Hme|reflexivity..]|]);
      subst X; peel_beyond; reflexivity.
  - cbn [mbind option_bind] in H. injection H as <-.
    peel_beyond; reflexivity.
Qed.

(** X3.  [setParams] never touches the lifecycle flags, the elapsed
    time, the circle's centre, the bounce threshold, the stats, the trail
    or its cap; of the position and of its snapshot it can change the
    height only; and it neither removes nor creates the mesh.  It raises
    in one case only: a [dropHeight] is given for an entity that has no
    mesh. *)
Theorem setParams_frame (config : Config) (m : MotionObject.t) :
  (forall m',
     setParams Math_cos Math_sin config m = Some m' ->
     beyondParams m' = beyondParams m)
  /\ (setParams Math_cos Math_sin config m = None
      <-> mesh m = None /\ is_Some (c_dropHeight config)).
Proof.
  split; [intros m'; apply setParams_beyond|].
  unfold setParams.
  destruct (c_dropHeight config) as [h|].
  - cbn [mbind option_bind].
    match goal with
    | |- context [set_dropHeight h ?x] => set (X := x)
    end.
    change (mesh (set_position _ _)) with (mesh X).
    assert (hasMesh X = hasMesh m) as HX.
    { assert (beyondParams X = beyondParams m) as HB
        by (subst X; peel_beyond; reflexivity).
      exact (f_equal snd HB). }
    unfold hasMesh in HX.
    destruct (mesh X) as [me|] eqn:Hme; cbn [mbind option_bind].
    + split; [discriminate|]. intros [Hm _]. rewrite Hm in HX.
      discriminate HX.
    + split; [intros _|reflexivity].
      split; [|now eexists]. destruct (mesh m); [discriminate HX|reflexivity].
  - cbn [mbind option_bind].
    split; [discriminate|]. intros [_ [h Hh]]. discriminate Hh.
Qed.

Lemma beyond_flags (a b : MotionObject.t) :
  beyondParams a = beyondParams b ->
  flags a = flags b /\ isLaunched a = isLaunched b.
Proof.
  intros H. split.
  - exact (f_equal (fun c => c.1.1.1.1.1.1.1.1.1.1.1.1.1) H).
  - exact (f_equal (fun c => c.1.1.1.1.1.1.1.1.1.1.1.1.2) H).
Qed.

Lemma launch_flags (m : MotionObject.t) :
  flags (launch m) = (false, "active") /\ isLaunched (launch m) = true.
Proof. unfold launch. cbn. repeat (case_match; cbn); split; reflexivity. Qed.

Lemma reset_flags (m m' : MotionObject.t) :
  reset m = Some m' -> flags m' = (false, "idle") /\ isLaunched m' = false.
Proof.
  unfold reset. cbn. destruct (mesh m); [|discriminate]. cbn.
  intros [= <-]. unfold _clearTrail. cbn. case_match; split; reflexivity.
Qed.

Lemma dispose_flags (m : MotionObject.t) :
  flags (dispose m) = flags m /\ isLaunched (dispose m) = isLaunched m
  /\ mesh (dispose m) = None.
Proof.
  unfold dispose, _clearTrail.
  destruct (mesh m) eqn:Hm; cbn; case_match; cbn; repeat split;
    assumption.
Qed.

(** The flags an update that does its work ends with. *)
Lemma update_flags (dt : float) (m m' : MotionObject.t) (st : string) :
  isLaunched m = true -> isStopped m = false ->
  update Math_cos Math_sin dt m = Some (m', st) ->
  isLaunched m' = true /\ st = status m'
  /\ (flags m' = flags m \/ flags m' = (true, "stopped")).
Proof.
  intros Hl Hs Hu.
  destruct (update_stages Math_cos Math_sin dt m m' st Hl Hs Hu)
    as (m1 & me & Hd & Hme & -> & Hst).
  apply dispatch_carried in Hd as [Hc Hf].
  apply carried_fields in Hc as (_ & Hla & _).
  set (m2 := set_mesh (Some (set_mesh_position (position m1) me)) m1) in *.
  destruct (computeStats_settings (_updateTrail m2)) as (_ & Hf1 & Hl1 & _).
  destruct (updateTrail_settings m2) as (_ & Hf2 & Hl2).
  split; [|split; [exact Hst|]].
  - rewrite Hl1, Hl2. change (isLaunched m2) with (isLaunched m1).
    rewrite Hla. exact Hl.
  - rewrite Hf1, Hf2. change (flags m2) with (flags m1). exact Hf.
Qed.

(** X4.  Every entity is idle, active or stopped, and every method
    keeps it so: the constructor builds an idle entity, [launch] makes
    it active, [reset] idle, [setParams] and [dispose] leave the state
    as it is, and [update] leaves it as it is or stops an active entity,
    returning the status the entity ends with, which is never
    ['remove']. *)
Theorem lifecycle_is_consistent (pos : Vector3.t) (params : Params)
    (config : Config) (dt : float) (m : MotionObject.t) :
  consistent m ->
  (consistent (new pos params)
   /\ isLaunched (new pos params) = false
   /\ flags (new pos params) = (false, "idle"))
  /\ (consistent (launch m)
      /\ isLaunched (launch m) = true
      /\ flags (launch m) = (false, "active"))
  /\ (forall m',
        reset m = Some m' ->
        consistent m'
        /\ isLaunched m' = false /\ flags m' = (false, "idle"))
  /\ (forall m',
        setParams Math_cos Math_sin config m = Some m' ->
        consistent m'
        /\ isLaunched m' = isLaunched m /\ flags m' = flags m)
  /\ (consistent (dispose m)
      /\ isLaunched (dispose m) = isLaunched m
      /\ flags (dispose m) = flags m)
  /\ (forall m' st,
        update Math_cos Math_sin dt m = Some (m', st) ->
        consistent m'
        /\ isLaunched m' = isLaunched m
        /\ (flags m' = flags m
            \/ isLaunched m = true /\ flags m = (false, "active")
               /\ flags m' = (true, "stopped"))
        /\ st = status m'
        /\ (st = "idle" \/ st = "active" \/ st = "stopped")).
Proof.
  intros Hc. unfold consistent in *.
  split; [split; [left; split; reflexivity|split; reflexivity]|].
  split.
  { destruct (launch_flags m) as [Hf Hl]. rewrite Hf, Hl. auto. }
  split.
  { intros m' Hr. apply reset_flags in Hr as [Hf Hl]. rewrite Hf, Hl.
    auto. }
  split.
  { intros m' Hp. apply setParams_beyond, beyond_flags in Hp as [Hf Hl].
    rewrite Hf, Hl. auto. }
  split.
  { destruct (dispose_flags m) as (Hf & Hl & _). rewrite Hf, Hl. auto. }
  intros m' st Hu.
  assert (forall f : bool * string,
            flags m' = f -> status m' = f.2) as Hst
    by (intros f <-; reflexivity).
  destruct Hc as [[Hl Hf] | [Hl [Hf | Hf]]].
  - rewrite update_unfold, Hl in Hu. cbn in Hu. injection Hu as <- <-.
    split; [left; auto|]. split; [reflexivity|]. split; [left; reflexivity|].
    split; [reflexivity|]. left. exact (Hst _ Hf).
  - assert (isStopped m = false) as Hs by exact (f_equal fst Hf).
    destruct (update_flags dt m m' st Hl Hs Hu) as (Hl' & -> & [Hf' | Hf']).
    + split; [right; rewrite Hf', Hf; auto|]. split; [congruence|].
      split; [left; exact Hf'|]. split; [reflexivity|].
      right; left. rewrite Hf in Hf'. exact (Hst _ Hf').
    + split; [right; auto|]. split; [congruence|].
      split; [right; auto|]. split; [reflexivity|].
      right; right. exact (Hst _ Hf').
  - assert (isStopped m = true) as Hs by exact (f_equal fst Hf).
    rewrite update_unfold, Hs, orb_true_r in Hu. injection Hu as <- <-.
    split; [right; auto|]. split; [reflexivity|]. split; [left; reflexivity|].
    split; [reflexivity|]. right; right. exact (Hst _ Hf).
Qed.

(** X5.  After [dispose()] an entity in flight can no longer be updated:
    [update] raises on the missing mesh, in every mode, and so does
    [reset] in every state. *)
Theorem update_after_dispose_raises (dt : float) (m : MotionObject.t) :
  isLaunched m = true -> isStopped m = false ->
  update Math_cos Math_sin dt (dispose m) = None
  /\ reset (dispose m) = None.
Proof.
  intros Hl Hs.
  destruct (dispose_flags m) as (Hf & Hl' & Hme).
  split.
  - rewrite update_unfold, Hl'.
    assert (isStopped (dispose m) = isStopped m) as ->
      by exact (f_equal fst Hf).
    rewrite Hl, Hs. cbn [negb orb].
    destruct (dispatch _ _ _ _) as [m1|] eqn:Hd; [|reflexivity].
    cbn [mbind option_bind].
    apply dispatch_carried in Hd as [Hc _].
    apply carried_fields in Hc as (_ & _ & Hm & _).
    unfold hasMesh in Hm. cbn in Hm. rewrite Hme in Hm.
    destruct (mesh m1); [discriminate|reflexivity].
  - unfold reset. cbn. now rewrite Hme.
Qed.

(** X6.  An entity that is not launched, or that has stopped, is left
    exactly as it is by any number of updates. *)
Theorem resting_entity_is_fixed (dts : list float) (m : MotionObject.t) :
  isLaunched m = false \/ isStopped m = true ->
  updates Math_cos Math_sin dts m = Some m.
Proof.
  intros Hr. induction dts as [|dt dts IH]; [reflexivity|].
  cbn. rewrite update_unfold.
  assert (negb (isLaunched m) || isStopped m = true) as ->
    by (destruct Hr as [-> | ->]; [reflexivity|apply orb_true_r]).
  cbn. exact IH.
Qed.

End LifecycleFlags.

(** [sinker] is idle as built and active once launched; its one-second
    update ends on the ground in a bounce too weak to go on, which stops
    it; [reset()] makes it idle again. *)
Lemma lifecycle_is_consistent_witness :
  consistent sinker
  /\ flags sinker = (false, "idle")
  /\ flags (MotionObject.launch sinker) = (false, "active")
  /\ exists m' m'',
       MotionObject.update series_cos series_sin 1
         (MotionObject.launch sinker) = Some (m', "stopped")
       /\ consistent m'
       /\ MotionObject.isLaunched m' = true
       /\ flags m' = (true, "stopped")
       /\ MotionObject.reset m' = Some m''
       /\ MotionObject.isLaunched m'' = false
       /\ flags m'' = (false, "idle").
Proof.
  assert (consistent sinker) as Hc by (left; split; reflexivity).
  split; [exact Hc|]. split; [reflexivity|].
  destruct (lifecycle_is_consistent series_cos series_sin (Vector3.mk 0 0 0)
              plainParams MotionObject.emptyConfig 1 sinker Hc)
    as (_ & (Hc1 & _ & Hf1) & _).
  split; [exact Hf1|].
  assert (exists m' m'',
            MotionObject.update series_cos series_sin 1
              (MotionObject.launch sinker) = Some (m', "stopped")
            /\ flags m' = (true, "stopped")
            /\ MotionObject.reset m' = Some m'')
    as (m' & m'' & Hu & Hf & Hr)
    by (eexists; eexists; vm_compute; repeat split; reflexivity).
  exists m', m''.
  destruct (lifecycle_is_consistent series_cos series_sin (Vector3.mk 0 0 0)
              plainParams MotionObject.emptyConfig 1
              (MotionObject.launch sinker) Hc1)
    as (_ & _ & _ & _ & _ & Hup).
  destruct (Hup m' "stopped" Hu) as (Hc2 & Hl2 & _).
  destruct (lifecycle_is_consistent series_cos series_sin (Vector3.mk 0 0 0)
              plainParams MotionObject.emptyConfig 1 m' Hc2)
    as (_ & _ & Hre & _).
  destruct (Hre m'' Hr) as (_ & Hl3 & Hf3).
  split; [exact Hu|]. split; [exact Hc2|]. split; [exact Hl2|].
  split; [exact Hf|]. split; [exact Hr|]. split; [exact Hl3|exact Hf3].
Defined.

(** The launched glider, once disposed of, raises on update and on
    reset. *)
Lemma update_after_dispose_raises_witness :
  MotionObject.update series_cos series_sin 0.25
    (MotionObject.dispose (MotionObject.launch glider)) = None
  /\ MotionObject.reset (MotionObject.dispose (MotionObject.launch glider))
     = None.
Proof.
  exact (update_after_dispose_raises series_cos series_sin 0.25
           (MotionObject.launch glider) eq_refl eq_refl).
Defined.

(** The glider before its launch does not move. *)
Lemma resting_entity_is_fixed_witness :
  updates series_cos series_sin [0.25; 0.5] glider = Some glider.
Proof.
  exact (resting_entity_is_fixed series_cos series_sin [0.25; 0.5] glider
           (or_introl eq_refl)).
Defined.

(** ** The kinematics orchestrator never evicts *)

Section NeverEvicts.

Import MotionObject.

Variables Math_cos Math_sin : float -> float.

Lemma update_status (dt : float) (m m' : MotionObject.t) (st : string) :
  update Math_cos Math_sin dt m = Some (m', st) ->
  st = status m \/ st = "stopped".
Proof.
  intros Hu.
  destruct (negb (isLaunched m) || isStopped m) eqn:Hg.
  { rewrite update_unfold, Hg in Hu. injection Hu as <- <-. now left. }
  apply orb_false_elim in Hg as [Hl Hs]. apply negb_false_iff in Hl.
  destruct (update_flags Math_cos Math_sin dt m m' st Hl Hs Hu)
    as (_ & -> & [Hf | Hf]).
  - left. exact (f_equal snd Hf).
  - right. exact (f_equal snd Hf).
Qed.

Lemma filter_all {A : Type} (f : A -> bool) (l : list A) :
  (forall a, a ∈ l -> f a = true) -> List.filter f l = l.
Proof.
  induction l as [|a l IH]; intros H; cbn; [reflexivity|].
  rewrite (H a) by apply list_elem_of_here.
  f_equal. apply IH. intros b Hb. apply H. now apply list_elem_of_further.
Qed.

Lemma filter_none {A : Type} (f : A -> bool) (l : list A) :
  (forall a, a ∈ l -> f a = false) -> List.filter f l = [].
Proof.
  induction l as [|a l IH]; intros H; cbn; [reflexivity|].
  rewrite (H a) by apply list_elem_of_here.
  apply IH. intros b Hb. apply H. now apply list_elem_of_further.
Qed.

(** X7.  [KinematicsSimulation.update] removes and disposes of nothing
    as long as no entity it holds carries the status ['remove'] already:
    a MotionObject's update only ever returns the status it had or
    ['stopped'].  (The entities are distinct and their updates do not
    raise.) *)
Theorem kinematics_never_evicts (deltaTime : float)
    (s : Simulation.t MotionObject.t) :
  NoDup (Simulation.entities s) ->
  (forall a, a ∈ Simulation.entities s ->
     exists m, Simulation.heap s !! a = Some m
               /\ status m <> "remove"
               /\ is_Some (update Math_cos Math_sin
                             (deltaTime * Simulation.timeScale s) m)) ->
  exists s',
    KinematicsSimulation.update Math_cos Math_sin deltaTime s = Some s'
    /\ Simulation.entities s' = Simulation.entities s
    /\ Simulation.disposed s' = Simulation.disposed s
    /\ Simulation.timeScale s' = Simulation.timeScale s.
Proof.
  intros Hnd Hall.
  set (dt := deltaTime * Simulation.timeScale s) in *.
  assert (forall a, a ∈ Simulation.entities s ->
            is_Some (Simulation.verdict (update Math_cos Math_sin) dt
                       (Simulation.heap s) a)
            /\ Simulation.removes (update Math_cos Math_sin) dt
                 (Simulation.heap s) a = false) as Hv.
  { intros a Ha. destruct (Hall a Ha) as (m & Hm & Hst & [[m' st] Hu]).
    unfold Simulation.removes, Simulation.verdict. rewrite Hm.
    cbn [mbind option_bind]. rewrite Hu. cbn [mbind option_bind snd].
    split; [eauto|].
    apply update_status in Hu as [-> | ->]; [|reflexivity].
    apply String.eqb_neq. exact Hst. }
  destruct (update_loop_spec (update Math_cos Math_sin) dispose dt
              (Simulation.entities s) (Simulation.heap s) Hnd
              (fun a Ha => proj1 (Hv a Ha))
              (List.length (Simulation.entities s)) s [])
    as (s' & Hr & He & Hd & Ht).
  { lia. }
  { now rewrite firstn_all, app_nil_r. }
  { reflexivity. }
  rewrite firstn_all in He, Hd. rewrite app_nil_r in He.
  exists s'. split; [exact Hr|].
  split; [|split; [|exact Ht]].
  - rewrite He. apply filter_all. intros a Ha.
    now rewrite (proj2 (Hv a Ha)).
  - rewrite Hd, filter_none; [apply app_nil_r|].
    intros a Ha. exact (proj2 (Hv a Ha)).
Qed.

End NeverEvicts.

(** A kinematics world of two launched entities in real time: one update
    keeps both. *)
Lemma kinematics_never_evicts_witness :
  exists s',
    KinematicsSimulation.update series_cos series_sin 0.25
      (Simulation.mk {[ 0%nat := MotionObject.launch glider;
                        1%nat := MotionObject.launch droppedBall ]}
                     [0%nat; 1%nat] 1.0 []) = Some s'
    /\ Simulation.entities s' = [0%nat; 1%nat]
    /\ Simulation.disposed s' = [].
Proof.
  destruct (kinematics_never_evicts series_cos series_sin 0.25
              (Simulation.mk {[ 0%nat := MotionObject.launch glider;
                                1%nat := MotionObject.launch droppedBall ]}
                             [0%nat; 1%nat] 1.0 []))
    as (s' & Hr & He & Hd & _).
  { apply (bool_decide_unpack _). vm_compute. exact I. }
  { intros a Ha. cbn in Ha.
    repeat (apply elem_of_cons in Ha as [-> | Ha]); [| |inversion Ha].
    - exists (MotionObject.launch glider).
      split; [reflexivity|]. split; [discriminate|]. vm_compute. eauto.
    - exists (MotionObject.launch droppedBall).
      split; [reflexivity|]. split; [discriminate|]. vm_compute. eauto. }
  exists s'. split; [exact Hr|]. split; [exact He|exact Hd].
Defined.

(** ** Motion on the circle and under acceleration *)

Section Modes.

Import MotionObject.

Variables Math_cos Math_sin : float -> float.

(** An update whose mode step left the flags alone, in terms of the
    state [m1] that step produced. *)
Lemma update_of_dispatch (dt : float) (m m1 : MotionObject.t) (me : Mesh) :
  isLaunched m = true -> isStopped m = false ->
  dispatch Math_cos Math_sin dt (set_elapsedTime (elapsedTime m + dt) m)
  = Some m1 ->
  mesh m1 = Some me ->
  exists m',
    update Math_cos Math_sin dt m = Some (m', status m1)
    /\ kept m' (set_mesh (Some (set_mesh_position (position m1) me)) m1)
    /\ settings m' = settings m1.
Proof.
  intros Hl Hs Hd Hme.
  rewrite update_unfold, Hl, Hs. cbn [negb orb]. rewrite Hd.
  cbn [mbind option_bind]. rewrite Hme. cbn [mbind option_bind].
  set (m2 := set_mesh _ m1).
  exists (_computeStats (_updateTrail m2)).
  pose proof (computeStats_kept (_updateTrail m2)) as K.
  pose proof (updateTrail_kept m2) as T.
  destruct (computeStats_settings (_updateTrail m2)) as (Cs & _).
  destruct (updateTrail_settings m2) as (Ts & _).
  unfold kept in *.
  destruct K as (K1 & K2 & K3 & K4 & K5 & K6 & K7 & K8 & K9 & K10 & K11).
  destruct T as (T1 & T2 & T3 & T4 & T5 & T6 & T7 & T8 & T9 & T10 & T11).
  split; [now rewrite K11, T11|].
  split; [|now rewrite Cs, Ts].
  rewrite K1, K2, K3, K4, K5, K6, K7, K8, K9, K10, K11.
  repeat split; assumption.
Qed.

Lemma orbit_step (dt : float) (m : MotionObject.t) :
  orbiting m ->
  exists m',
    update Math_cos Math_sin dt m = Some (m', status m)
    /\ orbiting m'
    /\ status m' = status m
    /\ elapsedTime m' = elapsedTime m + dt
    /\ circularCenter m' = circularCenter m
    /\ Vector3.y (position m') = Vector3.y (circularCenter m)
    /\ Vector3.y (velocity m') = 0.
Proof.
  intros (Hl & Hs & Hm & [me Hme]).
  set (m0 := set_elapsedTime (elapsedTime m + dt) m).
  assert (dispatch Math_cos Math_sin dt m0
          = Some (_updateCircular Math_cos Math_sin dt m0)) as Hd.
  { unfold dispatch. change (motionType m0) with (motionType m).
    now rewrite Hm. }
  destruct (update_of_dispatch dt m _ me Hl Hs Hd Hme)
    as (m' & Hu & K & Hset).
  destruct K as (K1 & K2 & K3 & K4 & K5 & K6 & K7 & K8 & K9 & K10 & K11).
  exists m'. split; [exact Hu|].
  split.
  { unfold orbiting. rewrite K1, K2, K3, K5. repeat split; try assumption.
    now eexists. }
  rewrite K11, K6, K7, K8. repeat split.
  exact (f_equal (fun c => c.1.1.1.1.1.1.1.1.2) Hset).
Qed.

(** X8.  A circular entity never meets the ground test: whatever the
    height of its circle, any number of updates leaves it in flight with
    the status it had, at the height of the circle's centre and with no
    vertical velocity. *)
Theorem circular_never_stops (dts : list float) (m : MotionObject.t) :
  orbiting m ->
  exists m',
    updates Math_cos Math_sin dts m = Some m'
    /\ orbiting m'
    /\ status m' = status m
    /\ elapsedTime m' = elapsedAfter (elapsedTime m) dts
    /\ circularCenter m' = circularCenter m
    /\ (dts <> [] ->
        Vector3.y (position m') = Vector3.y (circularCenter m)
        /\ Vector3.y (velocity m') = 0).
Proof.
  revert m. induction dts as [|dt dts IH]; intros m Ho.
  { exists m. split; [reflexivity|]. split; [exact Ho|].
    do 3 (split; [reflexivity|]). intros H. now contradict H. }
  destruct (orbit_step dt m Ho) as (m1 & Hu & Ho1 & Hs1 & Ht1 & Hc1 & Hp1 & Hv1).
  destruct (IH m1 Ho1) as (m' & Hr & Ho' & Hs' & Ht' & Hc' & Hy').
  exists m'. cbn. rewrite Hu. cbn. split; [exact Hr|].
  split; [exact Ho'|]. split; [congruence|].
  split; [now rewrite Ht', Ht1|]. split; [congruence|].
  intros _. destruct dts as [|dt' dts].
  - cbn in Hr. injection Hr as <-. split; assumption.
  - rewrite <- Hc1. apply Hy'. discriminate.
Qed.

(** *** Analytic runs, for any mode given by its samples *)

Section AnalyticRun.

Variable tag : string.
Variables pos vel : MotionObject.t -> float -> Vector3.t.

(** One update without ground contact puts the entity on its samples and
    leaves the samples what they were. *)
Hypothesis step :
  forall dt m,
    cruising tag m ->
    contactOn pos vel m (elapsedTime m + dt) = false ->
    exists m',
      update Math_cos Math_sin dt m = Some (m', status m)
      /\ cruising tag m'
      /\ status m' = status m
      /\ elapsedTime m' = elapsedTime m + dt
      /\ position m' = pos m (elapsedTime m')
      /\ velocity m' = vel m (elapsedTime m')
      /\ initialPosition m' = initialPosition m
      /\ initialVelocity m' = initialVelocity m
      /\ settings m' = settings m
      /\ (forall t, pos m' t = pos m t /\ vel m' t = vel m t).

Lemma analytic_run (dts : list float) :
  forall m,
    cruising tag m ->
    Forall (fun t => contactOn pos vel m t = false)
           (elapsedTimes (elapsedTime m) dts) ->
    exists m',
      updates Math_cos Math_sin dts m = Some m'
      /\ cruising tag m'
      /\ status m' = status m
      /\ elapsedTime m' = elapsedAfter (elapsedTime m) dts
      /\ initialPosition m' = initialPosition m
      /\ initialVelocity m' = initialVelocity m
      /\ settings m' = settings m
      /\ (dts <> [] ->
          position m' = pos m (elapsedTime m')
          /\ velocity m' = vel m (elapsedTime m')).
Proof.
  induction dts as [|dt dts IH]; intros m Hc Hf.
  { exists m. split; [reflexivity|]. split; [exact Hc|].
    do 5 (split; [reflexivity|]). intros H. now contradict H. }
  cbn in Hf. apply Forall_cons in Hf as [Hf0 Hf].
  destruct (step dt m Hc Hf0)
    as (m1 & Hu & Hc1 & Hs1 & Ht1 & Hp1 & Hv1 & Hip1 & Hiv1 & Hset1 & Hsame).
  destruct (IH m1 Hc1)
    as (m' & Hr & Hc' & Hs' & Ht' & Hip' & Hiv' & Hset' & Hpv').
  { rewrite Ht1. eapply Forall_impl; [exact Hf|].
    intros t Ht. unfold contactOn in *.
    destruct (Hsame t) as [-> ->]. exact Ht. }
  exists m'. cbn. rewrite Hu. cbn. split; [exact Hr|].
  split; [exact Hc'|]. split; [congruence|].
  split; [now rewrite Ht', Ht1|].
  split; [congruence|]. split; [congruence|]. split; [congruence|].
  intros _. destruct dts as [|dt' dts].
  - cbn in Hr. injection Hr as <-. split; assumption.
  - destruct (Hpv' ltac:(discriminate)) as [Hp Hv].
    destruct (Hsame (elapsedTime m')) as [<- <-]. split; assumption.
Qed.

End AnalyticRun.

Lemma handleGroundCollision_rest (m : MotionObject.t) :
  groundContact m = false -> _handleGroundCollision m = m.
Proof. intros H. unfold _handleGroundCollision. now rewrite H. Qed.

Lemma applyDrag_none (dt : float) (m : MotionObject.t) :
  dragMode m = "none" -> _applyDrag dt m = m.
Proof. intros H. unfold _applyDrag. now rewrite H. Qed.

Lemma settings_fields (a b : MotionObject.t) :
  settings a = settings b ->
  motionType a = motionType b /\ acceleration a = acceleration b
  /\ gravity a = gravity b /\ dragMode a = dragMode b.
Proof.
  intros H. repeat split.
  - exact (f_equal (fun c => c.1.1.1.1.1.1.1.1.1.1.1.1.1.1.1.1) H).
  - exact (f_equal (fun c => c.1.1.1.1.1.1.1.1.1.1.1.1.1.1.1.2) H).
  - exact (f_equal (fun c => c.1.1.1.1.1.1.1.1.1.1.1.1.1.2) H).
  - exact (f_equal (fun c => c.1.1.1.1.1.2) H).
Qed.

(** What the three analytic modes share: the update of a cruising
    entity whose mode step is the sample [m1] and meets no ground
    contact. *)
Lemma cruise_step (tag : string) (dt : float) (m m1 : MotionObject.t) :
  cruising tag m ->
  dispatch Math_cos Math_sin dt (set_elapsedTime (elapsedTime m + dt) m)
  = Some (_handleGroundCollision m1) ->
  groundContact m1 = false ->
  kept m1 (set_velocity (velocity m1)
             (set_position (position m1)
                (set_elapsedTime (elapsedTime m + dt) m))) ->
  settings m1 = settings m ->
  exists m',
    update Math_cos Math_sin dt m = Some (m', status m)
    /\ cruising tag m'
    /\ status m' = status m
    /\ elapsedTime m' = elapsedTime m + dt
    /\ position m' = position m1
    /\ velocity m' = velocity m1
    /\ initialPosition m' = initialPosition m
    /\ initialVelocity m' = initialVelocity m
    /\ settings m' = settings m.
Proof.
  intros (Hl & Hs & Hm & Hd & [me Hme]) Hdis Hc K Hset.
  rewrite (handleGroundCollision_rest m1 Hc) in Hdis.
  destruct K as (K1 & K2 & K3 & K4 & K5 & K6 & K7 & K8 & K9 & K10 & K11).
  cbn in K1, K2, K3, K4, K5, K6, K9, K10, K11.
  assert (mesh m1 = Some me) as Hme1 by (now rewrite K5).
  destruct (update_of_dispatch dt m m1 me Hl Hs Hdis Hme1)
    as (m' & Hu & K' & Hset').
  destruct K' as (J1 & J2 & J3 & J4 & J5 & J6 & J7 & J8 & J9 & J10 & J11).
  cbn in J1, J2, J3, J4, J5, J6, J7, J8, J9, J10, J11.
  exists m'. rewrite K11 in Hu. split; [exact Hu|].
  split.
  { unfold cruising. rewrite J1, J2, J3, J4, J5, K1, K2, K3, K4.
    repeat split; try assumption. now eexists. }
  rewrite J11, J6, J7, J8, J9, J10, K11, K6, K9, K10, Hset', Hset.
  repeat split.
Qed.

Lemma dispatch_tag (dt : float) (m : MotionObject.t) :
  (motionType m = "accelerated" ->
   dispatch Math_cos Math_sin dt m = Some (_updateAccelerated dt m))
  /\ (motionType m = "freefall" ->
      dispatch Math_cos Math_sin dt m = Some (_updateFreefall dt m))
  /\ (motionType m = "projectile" ->
      dispatch Math_cos Math_sin dt m = Some (_updateProjectile dt m)).
Proof. unfold dispatch. repeat split; intros ->; reflexivity. Qed.

Lemma accelerated_step (dt : float) (m : MotionObject.t) :
  cruising "accelerated" m ->
  contactOn acceleratedPos acceleratedVel m (elapsedTime m + dt) = false ->
  exists m',
    update Math_cos Math_sin dt m = Some (m', status m)
    /\ cruising "accelerated" m'
    /\ status m' = status m
    /\ elapsedTime m' = elapsedTime m + dt
    /\ position m' = acceleratedPos m (elapsedTime m')
    /\ velocity m' = acceleratedVel m (elapsedTime m')
    /\ initialPosition m' = initialPosition m
    /\ initialVelocity m' = initialVelocity m
    /\ settings m' = settings m
    /\ (forall t, acceleratedPos m' t = acceleratedPos m t
                  /\ acceleratedVel m' t = acceleratedVel m t).
Proof.
  intros Hcr Hc. pose proof Hcr as (Hl & Hs & Hm & Hd & Hme).
  set (m0 := set_elapsedTime (elapsedTime m + dt) m).
  set (m1 := set_velocity (acceleratedVel m (elapsedTime m + dt))
               (set_position (acceleratedPos m (elapsedTime m + dt)) m0)).
  destruct (cruise_step "accelerated" dt m m1 Hcr)
    as (m' & Hu & Hcr' & Hs' & Ht' & Hp' & Hv' & Hip' & Hiv' & Hset').
  { fold m0. rewrite (proj1 (dispatch_tag dt m0) Hm).
    unfold _updateAccelerated. rewrite (applyDrag_none dt m0 Hd).
    change (dragMode m0) with (dragMode m). rewrite Hd. reflexivity. }
  { exact Hc. }
  { unfold kept. repeat split. }
  { reflexivity. }
  exists m'. rewrite Ht'.
  do 4 (split; [first [assumption|reflexivity]|]).
  split; [exact Hp'|]. split; [exact Hv'|].
  do 3 (split; [assumption|]).
  intros t. apply settings_fields in Hset' as (_ & Ha & _).
  unfold acceleratedPos, acceleratedVel. now rewrite Hip', Hiv', Ha.
Qed.

Lemma projectile_step (dt : float) (m : MotionObject.t) :
  cruising "projectile" m ->
  contactOn projectilePos projectileVel m (elapsedTime m + dt) = false ->
  exists m',
    update Math_cos Math_sin dt m = Some (m', status m)
    /\ cruising "projectile" m'
    /\ status m' = status m
    /\ elapsedTime m' = elapsedTime m + dt
    /\ position m' = projectilePos m (elapsedTime m')
    /\ velocity m' = projectileVel m (elapsedTime m')
    /\ initialPosition m' = initialPosition m
    /\ initialVelocity m' = initialVelocity m
    /\ settings m' = settings m
    /\ (forall t, projectilePos m' t = projectilePos m t
                  /\ projectileVel m' t = projectileVel m t).
Proof.
  intros Hcr Hc. pose proof Hcr as (Hl & Hs & Hm & Hd & Hme).
  set (m0 := set_elapsedTime (elapsedTime m + dt) m).
  set (m1 := set_velocity (projectileVel m (elapsedTime m + dt))
               (set_position (projectilePos m (elapsedTime m + dt)) m0)).
  destruct (cruise_step "projectile" dt m m1 Hcr)
    as (m' & Hu & Hcr' & Hs' & Ht' & Hp' & Hv' & Hip' & Hiv' & Hset').
  { fold m0. rewrite (proj2 (proj2 (dispatch_tag dt m0)) Hm).
    unfold _updateProjectile. rewrite (applyDrag_none dt m0 Hd).
    change (dragMode m0) with (dragMode m). rewrite Hd. reflexivity. }
  { exact Hc. }
  { unfold kept. repeat split. }
  { reflexivity. }
  exists m'. rewrite Ht'.
  do 4 (split; [first [assumption|reflexivity]|]).
  split; [exact Hp'|]. split; [exact Hv'|].
  do 3 (split; [assumption|]).
  intros t. apply settings_fields in Hset' as (_ & _ & Hg & _).
  unfold projectilePos, projectileVel. now rewrite Hip', Hiv', Hg.
Qed.

Lemma freefall_step (dt : float) (m : MotionObject.t) :
  cruising "freefall" m ->
  contactOn freefallPos freefallVel m (elapsedTime m + dt) = false ->
  exists m',
    update Math_cos Math_sin dt m = Some (m', status m)
    /\ cruising "freefall" m'
    /\ status m' = status m
    /\ elapsedTime m' = elapsedTime m + dt
    /\ position m' = freefallPos m (elapsedTime m')
    /\ velocity m' = freefallVel m (elapsedTime m')
    /\ initialPosition m' = initialPosition m
    /\ initialVelocity m' = initialVelocity m
    /\ settings m' = settings m
    /\ (forall t, freefallPos m' t = freefallPos m t
                  /\ freefallVel m' t = freefallVel m t).
Proof.
  intros Hcr Hc. pose proof Hcr as (Hl & Hs & Hm & Hd & Hme).
  set (m0 := set_elapsedTime (elapsedTime m + dt) m).
  set (m1 := set_velocity (freefallVel m (elapsedTime m + dt))
               (set_position (freefallPos m (elapsedTime m + dt)) m0)).
  destruct (cruise_step "freefall" dt m m1 Hcr)
    as (m' & Hu & Hcr' & Hs' & Ht' & Hp' & Hv' & Hip' & Hiv' & Hset').
  { fold m0. rewrite (proj1 (proj2 (dispatch_tag dt m0)) Hm).
    unfold _updateFreefall. rewrite (applyDrag_none dt m0 Hd).
    change (dragMode m0) with (dragMode m). rewrite Hd. reflexivity. }
  { exact Hc. }
  { unfold kept. repeat split. }
  { reflexivity. }
  exists m'. rewrite Ht'.
  do 4 (split; [first [assumption|reflexivity]|]).
  split; [exact Hp'|]. split; [exact Hv'|].
  do 3 (split; [assumption|]).
  intros t. apply settings_fields in Hset' as (_ & _ & Hg & _).
  unfold freefallPos, freefallVel. rewrite Hip', Hg, Hv'.
  split; reflexivity.
Qed.

Lemma launch_plain (m0 : MotionObject.t) :
  motionType m0 = "accelerated" \/ motionType m0 = "relative" ->
  launch m0
  = set_initialVelocity (velocity m0)
      (set_initialPosition (position m0)
         (set_isStopped false
            (set_elapsedTime 0
               (set_status "active" (set_isLaunched true m0))))).
Proof.
  intros [H | H]; unfold launch; do 3 (cbn; rewrite ?H); reflexivity.
Qed.

Lemma launch_projectile (m0 : MotionObject.t) :
  motionType m0 = "projectile" ->
  launch m0
  = set_acceleration (Vector3.mk 0 (- gravity m0) 0)
      (set_initialVelocity (velocity m0)
         (set_initialPosition (position m0)
            (set_isStopped false
               (set_elapsedTime 0
                  (set_status "active" (set_isLaunched true m0)))))).
Proof. intros H. unfold launch. do 3 (cbn; rewrite ?H). reflexivity. Qed.

Lemma launch_freefall (m0 : MotionObject.t) :
  motionType m0 = "freefall" ->
  launch m0
  = set_initialVelocity (Vector3.mk 0 0 0)
      (set_velocity (Vector3.mk 0 0 0)
         (set_acceleration (Vector3.mk 0 (- gravity m0) 0)
            (set_initialVelocity (velocity m0)
               (set_initialPosition (position m0)
                  (set_isStopped false
                     (set_elapsedTime 0
                        (set_status "active"
                           (set_isLaunched true m0)))))))).
Proof. intros H. unfold launch. do 3 (cbn; rewrite ?H). reflexivity. Qed.

(** X9.  An accelerated entity without drag is launched and updated any
    number of times, no update meeting the ground test.  Its snapshot is
    the position and velocity it was launched with, and after the last
    update its position is [p0 + u t + a t^2 / 2] and its velocity
    [u + a t], both computed in one step from the snapshot and
    [elapsedTime], the sum of the steps. *)
Theorem accelerated_motion_is_analytic (m0 : MotionObject.t) (me : Mesh)
    (dts : list float) :
  motionType m0 = "accelerated" ->
  dragMode m0 = "none" ->
  mesh m0 = Some me ->
  Forall (fun t => contactOn acceleratedPos acceleratedVel (launch m0) t
                   = false)
         (elapsedTimes 0 dts) ->
  exists m',
    updates Math_cos Math_sin dts (launch m0) = Some m'
    /\ status m' = "active"
    /\ elapsedTime m' = elapsedAfter 0 dts
    /\ initialPosition m' = position m0
    /\ initialVelocity m' = velocity m0
    /\ acceleration m' = acceleration m0
    /\ (dts <> [] ->
        position m' = acceleratedPos m' (elapsedTime m')
        /\ velocity m' = acceleratedVel m' (elapsedTime m')).
Proof.
  intros Hm Hd Hme Hc.
  pose proof (launch_plain m0 (or_introl Hm)) as HL.
  assert (cruising "accelerated" (launch m0)) as Hcr.
  { rewrite HL. unfold cruising. cbn. rewrite Hm, Hd, Hme. eauto. }
  assert (elapsedTime (launch m0) = 0
          /\ initialPosition (launch m0) = position m0
          /\ initialVelocity (launch m0) = velocity m0
          /\ acceleration (launch m0) = acceleration m0
          /\ status (launch m0) = "active")
    as (L0 & Lip & Liv & La & Ls) by (rewrite HL; repeat split).
  destruct (analytic_run "accelerated" acceleratedPos acceleratedVel
              accelerated_step dts (launch m0) Hcr)
    as (m' & Hr & _ & Hs & Ht & Hip & Hiv & Hset & Hpv).
  { rewrite L0. exact Hc. }
  apply settings_fields in Hset as (_ & Ha & _).
  exists m'. split; [exact Hr|]. split; [congruence|].
  split; [now rewrite Ht, L0|]. split; [congruence|].
  split; [congruence|]. split; [congruence|].
  intros Hne. destruct (Hpv Hne) as [-> ->].
  unfold acceleratedPos, acceleratedVel. rewrite Hip, Hiv, Ha.
  split; reflexivity.
Qed.

(** X10.  A projectile-mode entity without drag is launched and updated
    any number of times, no update meeting the ground test.  Launch sets
    its acceleration to gravity downwards; after the last update its
    position is [(x0 + ux t, y0 + uy t - g t^2 / 2, z0 + uz t)] and its
    velocity [(ux, uy - g t, uz)], from the launch snapshot and
    [elapsedTime], the sum of the steps. *)
Theorem projectile_motion_is_analytic (m0 : MotionObject.t) (me : Mesh)
    (dts : list float) :
  motionType m0 = "projectile" ->
  dragMode m0 = "none" ->
  mesh m0 = Some me ->
  Forall (fun t => contactOn projectilePos projectileVel (launch m0) t
                   = false)
         (elapsedTimes 0 dts) ->
  exists m',
    updates Math_cos Math_sin dts (launch m0) = Some m'
    /\ status m' = "active"
    /\ elapsedTime m' = elapsedAfter 0 dts
    /\ initialPosition m' = position m0
    /\ initialVelocity m' = velocity m0
    /\ gravity m' = gravity m0
    /\ acceleration m' = Vector3.mk 0 (- gravity m0) 0
    /\ (dts <> [] ->
        position m' = projectilePos m' (elapsedTime m')
        /\ velocity m' = projectileVel m' (elapsedTime m')).
Proof.
  intros Hm Hd Hme Hc.
  pose proof (launch_projectile m0 Hm) as HL.
  assert (cruising "projectile" (launch m0)) as Hcr.
  { rewrite HL. unfold cruising. cbn. rewrite Hm, Hd, Hme. eauto. }
  assert (elapsedTime (launch m0) = 0
          /\ initialPosition (launch m0) = position m0
          /\ initialVelocity (launch m0) = velocity m0
          /\ gravity (launch m0) = gravity m0
          /\ acceleration (launch m0) = Vector3.mk 0 (- gravity m0) 0
          /\ status (launch m0) = "active")
    as (L0 & Lip & Liv & Lg & La & Ls) by (rewrite HL; repeat split).
  destruct (analytic_run "projectile" projectilePos projectileVel
              projectile_step dts (launch m0) Hcr)
    as (m' & Hr & _ & Hs & Ht & Hip & Hiv & Hset & Hpv).
  { rewrite L0. exact Hc. }
  apply settings_fields in Hset as (_ & Ha & Hg & _).
  exists m'. split; [exact Hr|]. split; [congruence|].
  split; [now rewrite Ht, L0|]. split; [congruence|].
  split; [congruence|]. split; [congruence|]. split; [congruence|].
  intros Hne. destruct (Hpv Hne) as [-> ->].
  unfold projectilePos, projectileVel. rewrite Hip, Hiv, Hg.
  split; reflexivity.
Qed.

(** X11.  A freefall entity without drag is launched and updated any
    number of times, no update meeting the ground test.  Launch discards
    the configured velocity: the entity falls from rest.  After the last
    update its position is [(x0, y0 - g t^2 / 2, z0)] and its velocity
    [(0, -g t, 0)], from the launch position and [elapsedTime], the sum
    of the steps. *)
Theorem freefall_motion_is_analytic (m0 : MotionObject.t) (me : Mesh)
    (dts : list float) :
  motionType m0 = "freefall" ->
  dragMode m0 = "none" ->
  mesh m0 = Some me ->
  Forall (fun t => contactOn freefallPos freefallVel (launch m0) t = false)
         (elapsedTimes 0 dts) ->
  exists m',
    updates Math_cos Math_sin dts (launch m0) = Some m'
    /\ status m' = "active"
    /\ elapsedTime m' = elapsedAfter 0 dts
    /\ initialPosition m' = position m0
    /\ initialVelocity m' = Vector3.mk 0 0 0
    /\ gravity m' = gravity m0
    /\ (dts <> [] ->
        position m' = freefallPos m' (elapsedTime m')
        /\ velocity m'
           = Vector3.mk 0 (- gravity m0 * elapsedTime m') 0).
Proof.
  intros Hm Hd Hme Hc.
  pose proof (launch_freefall m0 Hm) as HL.
  assert (cruising "freefall" (launch m0)) as Hcr.
  { rewrite HL. unfold cruising. cbn. rewrite Hm, Hd, Hme. eauto. }
  assert (elapsedTime (launch m0) = 0
          /\ initialPosition (launch m0) = position m0
          /\ initialVelocity (launch m0) = Vector3.mk 0 0 0
          /\ velocity (launch m0) = Vector3.mk 0 0 0
          /\ gravity (launch m0) = gravity m0
          /\ status (launch m0) = "active")
    as (L0 & Lip & Liv & Lv & Lg & Ls) by (rewrite HL; repeat split).
  destruct (analytic_run "freefall" freefallPos freefallVel
              freefall_step dts (launch m0) Hcr)
    as (m' & Hr & _ & Hs & Ht & Hip & Hiv & Hset & Hpv).
  { rewrite L0. exact Hc. }
  apply settings_fields in Hset as (_ & _ & Hg & _).
  exists m'. split; [exact Hr|]. split; [congruence|].
  split; [now rewrite Ht, L0|]. split; [congruence|].
  split; [congruence|]. split; [congruence|].
  intros Hne. destruct (Hpv Hne) as [-> ->].
  unfold freefallPos, freefallVel. rewrite Hip, Hg, Lv, Lg.
  split; reflexivity.
Qed.

End Modes.

(** [sunkenOrbiter] circles one unit below ground level and is never
    stopped. *)
Lemma circular_never_stops_witness :
  orbiting (MotionObject.launch sunkenOrbiter)
  /\ exists m',
       updates series_cos series_sin [0.5; 0.5]
               (MotionObject.launch sunkenOrbiter) = Some m'
       /\ MotionObject.status m' = "active"
       /\ Vector3.y (MotionObject.position m') = (-1).
Proof.
  assert (orbiting (MotionObject.launch sunkenOrbiter)) as Ho.
  { unfold orbiting. cbn. eauto. }
  split; [exact Ho|].
  destruct (circular_never_stops series_cos series_sin [0.5; 0.5] _ Ho)
    as (m' & Hr & _ & Hs & _ & Hc & Hy).
  exists m'. split; [exact Hr|]. split; [exact Hs|].
  destruct (Hy ltac:(discriminate)) as [-> _]. reflexivity.
Defined.

(** [climber] accelerates upwards from (0, 10, 0) for two half-second
    steps. *)
Lemma accelerated_motion_is_analytic_witness :
  exists m',
    updates series_cos series_sin [0.5; 0.5] (MotionObject.launch climber)
    = Some m'
    /\ MotionObject.elapsedTime m' = 1
    /\ MotionObject.position m' = Vector3.mk 1 11 0
    /\ MotionObject.velocity m' = Vector3.mk 1 2 0.
Proof.
  destruct (accelerated_motion_is_analytic series_cos series_sin climber
              (mkMesh (Vector3.mk 0 10 0) false (Some 1)) [0.5; 0.5]
              eq_refl eq_refl eq_refl)
    as (m' & Hr & _ & Ht & Hip & Hiv & Ha & Hpv).
  { repeat constructor. }
  exists m'. split; [exact Hr|]. split; [exact Ht|].
  destruct (Hpv ltac:(discriminate)) as [-> ->].
  unfold acceleratedPos, acceleratedVel. rewrite Hip, Hiv, Ha, Ht.
  split; reflexivity.
Defined.

(** [thrownBall] rises for two half-second steps. *)
Lemma projectile_motion_is_analytic_witness :
  exists m',
    updates series_cos series_sin [0.5; 0.5] (MotionObject.launch thrownBall)
    = Some m'
    /\ MotionObject.elapsedTime m' = 1
    /\ MotionObject.position m' = Vector3.mk 2 6 0
    /\ MotionObject.velocity m' = Vector3.mk 2 0 0.
Proof.
  destruct (projectile_motion_is_analytic series_cos series_sin thrownBall
              (mkMesh (Vector3.mk 0 1 0) false (Some 1)) [0.5; 0.5]
              eq_refl eq_refl eq_refl)
    as (m' & Hr & _ & Ht & Hip & Hiv & Hg & _ & Hpv).
  { repeat constructor. }
  exists m'. split; [exact Hr|]. split; [exact Ht|].
  destruct (Hpv ltac:(discriminate)) as [-> ->].
  unfold projectilePos, projectileVel. rewrite Hip, Hiv, Hg, Ht.
  split; reflexivity.
Defined.

(** [droppedBall] falls for half a second, from 5 to 3.75. *)
Lemma freefall_motion_is_analytic_witness :
  exists m',
    updates series_cos series_sin [0.25; 0.25]
            (MotionObject.launch droppedBall) = Some m'
    /\ MotionObject.elapsedTime m' = 0.5
    /\ MotionObject.position m' = Vector3.mk 0 3.75 0
    /\ MotionObject.velocity m' = Vector3.mk 0 (-5) 0.
Proof.
  destruct (freefall_motion_is_analytic series_cos series_sin droppedBall
              (mkMesh (Vector3.mk 0 5 0) false (Some 1)) [0.25; 0.25]
              eq_refl eq_refl eq_refl)
    as (m' & Hr & _ & Ht & Hip & Hiv & Hg & Hpv).
  { repeat constructor. }
  exists m'. split; [exact Hr|]. split; [exact Ht|].
  destruct (Hpv ltac:(discriminate)) as [-> ->].
  unfold freefallPos. rewrite Hip, Hg, Ht. split; reflexivity.
Defined.


(** ** The projectile in flight, its reset, stats and preview *)

Section ProjectileFlight.

Import Projectile.

Variables Math_cos Math_sin : float -> float.

(** Facts of binary64 comparison. *)
Lemma ltb_asym (a b : float) : (a <? b) = true -> (b <? a) = false.
Proof.
  rewrite !ltb_spec. unfold SFltb.
  rewrite (SFcompare_antisym (Prim2SF a) (Prim2SF b)).
  destruct (SFcompare (Prim2SF a) (Prim2SF b)) as [[]|]; simpl; congruence.
Qed.

Lemma ltb_leb (a b : float) : (a <? b) = true -> (a <=? b) = true.
Proof.
  rewrite ltb_spec, leb_spec. unfold SFltb, SFleb.
  destruct (SFcompare (Prim2SF a) (Prim2SF b)) as [[]|]; congruence.
Qed.

Lemma ltb_irrefl (a : float) : (a <? a) = false.
Proof.
  destruct (a <? a) eqn:H; [|reflexivity].
  pose proof (ltb_asym a a H). congruence.
Qed.

(** X12.  One update of a launched projectile still in flight: the
    height is computed from the launch position and [elapsedTime]; at or
    below ground level the projectile lands, its mesh is put on the
    ground and the landing timer starts at 0, and the update returns
    ['landed']; otherwise it returns ['active'] with the mesh at the
    computed height.  Either way the mesh is not below ground level. *)
Theorem inflight_update (dt : float) (p : Projectile.t) (me : Mesh) :
  isLaunched p = true -> hasLanded p = false -> mesh p = Some me ->
  let t := elapsedTime p + dt in
  let height :=
    Vector3.y (launchPosition p) + (vy p * t - 0.5 * gravity p * t * t) in
  let landing := height <=? groundLevel p in
  exists p' me',
    update dt p = Some (p', if landing then "landed" else "active")
    /\ elapsedTime p' = t
    /\ hasLanded p' = landing
    /\ (landing = true -> landedTimer p' = 0)
    /\ mesh p' = Some me'
    /\ Vector3.y (mesh_position me')
       = (if landing then groundLevel p else height)
    /\ (Vector3.y (mesh_position me') <? groundLevel p) = false
    /\ material_opacity me' = material_opacity me.
Proof.
  intros Hl Hh Hme. cbv zeta. unfold update. rewrite Hl, Hh. cbn.
  destruct (_ <=? groundLevel p) eqn:Hland; cbn; rewrite Hme; cbn.
  - eexists. eexists. split; [reflexivity|]. cbn.
    repeat split. apply ltb_irrefl.
  - rewrite Hh. eexists. eexists. split; [reflexivity|]. cbn.
    rewrite ?Hh. repeat split; try discriminate.
    destruct (_ <? groundLevel p) eqn:Hlt; [|reflexivity].
    apply ltb_leb in Hlt. cbn in Hlt. congruence.
Qed.

(** [launch()] on a projectile that is not launched. *)
Lemma launch_fresh (p : Projectile.t) :
  isLaunched p = false ->
  let q := launch Math_cos Math_sin p in
  isLaunched q = true /\ hasLanded q = false
  /\ elapsedTime q = 0 /\ landedTimer q = 0
  /\ vx q = initialVelocity p * Math_cos (degToRad (angle p))
  /\ vy q = initialVelocity p * Math_sin (degToRad (angle p))
  /\ ring q = None /\ trajectoryLine q = None
  /\ mesh q = mesh p.
Proof.
  intros H. destruct p as [iv an g ma lp et il hl lt gl x y ld me tl r].
  cbn in H. subst il. cbv zeta.
  destruct r, tl; cbn; repeat split.
Qed.

(** X13.  [reset()] re-arms the launch guard: it clears the flight state
    and puts the mesh back at the launch position, and the next
    [launch()] computes the velocity components anew and starts from
    time 0.  Neither restores the opacity a landed projectile has
    faded to. *)
Theorem reset_rearms_launch (p : Projectile.t) (me : Mesh) :
  mesh p = Some me ->
  exists p',
    reset p = Some p'
    /\ isLaunched p' = false /\ hasLanded p' = false
    /\ elapsedTime p' = 0 /\ landedTimer p' = 0
    /\ vx p' = 0 /\ vy p' = 0
    /\ mesh p'
       = Some (mkMesh (launchPosition p) (material_transparent me)
                      (material_opacity me))
    /\ (let q := launch Math_cos Math_sin p' in
        isLaunched q = true /\ hasLanded q = false
        /\ elapsedTime q = 0 /\ landedTimer q = 0
        /\ vx q = initialVelocity p * Math_cos (degToRad (angle p))
        /\ vy q = initialVelocity p * Math_sin (degToRad (angle p))
        /\ ring q = None /\ trajectoryLine q = None
        /\ opacityOf q = opacityOf p).
Proof.
  intros Hme.
  set (p' := set_mesh (Some (set_mesh_position (launchPosition p) me))
               (set_vy 0 (set_vx 0 (set_landedTimer 0 (set_elapsedTime 0
                  (set_hasLanded false (set_isLaunched false p))))))).
  exists p'. split.
  { unfold reset.
    change (mesh (set_vy 0 ?x)) with (mesh p). rewrite Hme. reflexivity. }
  do 7 (split; [reflexivity|]).
  destruct (launch_fresh p' eq_refl)
    as (Q1 & Q2 & Q3 & Q4 & Q5 & Q6 & Q7 & Q8 & Q9).
  cbv zeta. do 4 (split; [assumption|]).
  split; [exact Q5|]. split; [exact Q6|]. do 2 (split; [assumption|]).
  unfold opacityOf. rewrite Q9, Hme. reflexivity.
Qed.

Lemma Math_max_zero (b : float) : (Math_max 0 b <? 0) = false.
Proof.
  unfold Math_max. cbn.
  destruct (is_nan b); [reflexivity|].
  destruct (0 <? b) eqn:Hpos; [now apply ltb_asym|].
  destruct (b <? 0); reflexivity.
Qed.

(** X14.  No figure of [computeStats()] is below zero, whatever the
    speed, angle and gravity. *)
Theorem computeStats_not_negative (p : Projectile.t) :
  (flightTime (computeStats Math_sin p) <? 0) = false
  /\ (flightMaxHeight (computeStats Math_sin p) <? 0) = false
  /\ (flightRange (computeStats Math_sin p) <? 0) = false.
Proof. unfold computeStats. cbn. repeat split; apply Math_max_zero. Qed.

Lemma trajectoryLoop_frame (vx0 vy0 dtSim : float) (fuel : nat) :
  forall i p points,
    (trajectoryLoop vx0 vy0 dtSim fuel i p points).1 = p.
Proof.
  induction fuel as [|fuel IH]; intros i p points; cbn; [reflexivity|].
  case_match; [reflexivity|apply IH].
Qed.

Lemma trajectoryLoop_length (vx0 vy0 dtSim : float) (fuel : nat) :
  forall i p points,
    (List.length points + Nat.min 1 fuel
     <= List.length (trajectoryLoop vx0 vy0 dtSim fuel i p points).2
     <= List.length points + fuel)%nat.
Proof.
  induction fuel as [|fuel IH]; intros i p points; cbn; [lia|].
  case_match; cbn.
  - rewrite length_app. cbn. lia.
  - specialize (IH (i + 1) p
                  (points ++ [Vector3.mk
                     (Vector3.x (launchPosition p)
                      + Vector3.x (launchDir p) * (vx0 * (i * dtSim)))
                     (Vector3.y (launchPosition p)
                      + (vy0 * (i * dtSim)
                         - 0.5 * gravity p * (i * dtSim) * (i * dtSim)))
                     (Vector3.z (launchPosition p)
                      + Vector3.z (launchDir p) * (vx0 * (i * dtSim)))])%list).
    rewrite length_app in IH. cbn in IH. lia.
Qed.

Lemma trajectoryLoop_two (vx0 vy0 dtSim : float) (fuel : nat)
    (p : Projectile.t) :
  (2 <= List.length
          (trajectoryLoop vx0 vy0 dtSim (S (S fuel)) 0 p []).2)%nat.
Proof.
  remember (S fuel) as k eqn:Hk. cbn [trajectoryLoop].
  replace (0 <? 0) with false by reflexivity. rewrite andb_false_r.
  match goal with
  | |- context [trajectoryLoop ?a ?b ?c k ?i p ?pts] =>
    pose proof (trajectoryLoop_length a b c k i p pts) as H
  end.
  rewrite length_app in H. cbn [List.length] in H. subst k.
  cbn [Nat.min] in H. lia.
Qed.

(** X15.  [computeTrajectoryPoints(n)] hands the projectile back as it
    received it and returns at least one point and at most [n + 1];
    for [n >= 1] it returns at least two, the first sample never ending
    the loop. *)
Theorem computeTrajectoryPoints_bounds (n : nat) (p : Projectile.t) :
  (computeTrajectoryPoints Math_cos Math_sin n p).1 = p
  /\ (1 <= List.length (computeTrajectoryPoints Math_cos Math_sin n p).2
      <= n + 1)%nat
  /\ (n = 0%nat
      \/ (2 <= List.length
                 (computeTrajectoryPoints Math_cos Math_sin n p).2)%nat).
Proof.
  unfold computeTrajectoryPoints. cbv zeta.
  split; [apply trajectoryLoop_frame|].
  split.
  - match goal with
    | |- context [trajectoryLoop ?a ?b ?c (S n) 0 p []] =>
      pose proof (trajectoryLoop_length a b c (S n) 0 p []) as H
    end.
    cbn [List.length Nat.min] in H. lia.
  - destruct n as [|n]; [left; reflexivity|right].
    apply trajectoryLoop_two.
Qed.

(** X16.  [drawTrajectoryLine()] always draws: the 60-sample preview has
    at least two points, so the early return is never taken, and the
    call changes nothing but the trajectory line. *)
Theorem drawTrajectoryLine_draws (p : Projectile.t) :
  exists points,
    drawTrajectoryLine Math_cos Math_sin p
    = set_trajectoryLine (Some points) p
    /\ points
       = (computeTrajectoryPoints Math_cos Math_sin 60
            (clearTrajectoryLine p)).2
    /\ (2 <= List.length points <= 61)%nat.
Proof.
  unfold drawTrajectoryLine.
  set (q := clearTrajectoryLine p).
  assert (Hf : (computeTrajectoryPoints Math_cos Math_sin 60 q).1 = q)
    by apply trajectoryLoop_frame.
  assert (H2 : (2 <= List.length
                      (computeTrajectoryPoints Math_cos Math_sin 60 q).2)%nat)
    by apply trajectoryLoop_two.
  assert (Hb : (List.length
                  (computeTrajectoryPoints Math_cos Math_sin 60 q).2
                <= 61)%nat).
  { unfold computeTrajectoryPoints. cbv zeta.
    match goal with
    | |- context [trajectoryLoop ?a ?b ?c 61 0 q []] =>
      pose proof (trajectoryLoop_length a b c 61 0 q []) as H
    end.
    cbn [List.length] in H. lia. }
  destruct (computeTrajectoryPoints Math_cos Math_sin 60 q) as [q' points].
  cbn [fst snd] in Hf, Hb, H2. subst q'.
  exists points. rewrite bool_decide_eq_false_2 by lia.
  split; [|split; [reflexivity|lia]].
  unfold q, clearTrajectoryLine. destruct (trajectoryLine p); reflexivity.
Qed.

End ProjectileFlight.

(** [glider] given a new horizontal speed and a drop height of 3. *)
Lemma setParams_frame_witness :
  exists m',
    MotionObject.setParams series_cos series_sin liftConfig glider = Some m'
    /\ beyondParams m' = beyondParams glider.
Proof.
  assert (exists m',
            MotionObject.setParams series_cos series_sin liftConfig glider
            = Some m')
    as [m' Hs] by (eexists; vm_compute; reflexivity).
  exists m'. split; [exact Hs|].
  exact (proj1 (setParams_frame series_cos series_sin liftConfig glider)
           m' Hs).
Defined.

(** [firedShell] is still climbing after half a second and has landed
    after five. *)
Lemma inflight_update_witness :
  (exists p',
     Projectile.update 0.5 firedShell = Some (p', "active")
     /\ Projectile.elapsedTime p' = 0.5
     /\ Projectile.hasLanded p' = false)
  /\ exists p',
       Projectile.update 5 firedShell = Some (p', "landed")
       /\ Projectile.hasLanded p' = true
       /\ Projectile.landedTimer p' = 0.
Proof.
  split.
  - destruct (inflight_update 0.5 firedShell
                (mkMesh (Vector3.mk 0 0 0) false (Some 1))
                eq_refl eq_refl eq_refl)
      as (p' & me' & Hu & Ht & Hh & _).
    exists p'. split; [exact Hu|]. split; [exact Ht|exact Hh].
  - destruct (inflight_update 5 firedShell
                (mkMesh (Vector3.mk 0 0 0) false (Some 1))
                eq_refl eq_refl eq_refl)
      as (p' & me' & Hu & _ & Hh & Hl & _).
    exists p'. split; [exact Hu|]. split; [exact Hh|exact (Hl eq_refl)].
Defined.

(** A landed projectile that has faded for 1.75 s is reset and launched
    again. *)
Lemma reset_rearms_launch_witness :
  exists p',
    Projectile.reset (landedProjectile 1.75) = Some p'
    /\ Projectile.isLaunched p' = false
    /\ Projectile.isLaunched (Projectile.launch series_cos series_sin p')
       = true
    /\ Projectile.elapsedTime (Projectile.launch series_cos series_sin p')
       = 0.
Proof.
  destruct (reset_rearms_launch series_cos series_sin
              (landedProjectile 1.75)
              (mkMesh (Vector3.mk 0 0 0) false (Some 1)) eq_refl)
    as (p' & Hr & Hl & _ & _ & _ & _ & _ & _ & Q1 & _ & Q3 & _).
  exists p'. split; [exact Hr|]. split; [exact Hl|].
  split; [exact Q1|exact Q3].
Defined.

(** ** The preview of an entity *)

Section Preview.

Import MotionObject.

Variables Math_cos Math_sin : float -> float.

Lemma clampToGround_ground (py : float) : (clampToGround py <? 0) = false.
Proof.
  unfold clampToGround. destruct (py <? 0) eqn:H; [reflexivity|exact H].
Qed.

Lemma previewLoop_ground (fuel : nat) :
  forall i m points,
    Forall onOrAboveGround points ->
    Forall onOrAboveGround (previewLoop Math_cos Math_sin fuel i m points).2.
Proof.
  induction fuel as [|fuel IH]; intros i m points Hp; [exact Hp|].
  cbn [previewLoop].
  set (p := previewPoint Math_cos Math_sin m (i * 0.05)).
  assert (Forall onOrAboveGround
            (points ++ [Vector3.mk (Vector3.x p)
                          (clampToGround (Vector3.y p)) (Vector3.z p)])%list)
    as Hq.
  { apply Forall_app. split; [exact Hp|].
    constructor; [|constructor]. apply clampToGround_ground. }
  fold (clampToGround (Vector3.y p)).
  destruct (_ && _ && _); [exact Hq|apply IH, Hq].
Qed.

(** X17.  No point of a preview lies below the ground plane, in any
    mode, the circular one included. *)
Theorem preview_never_below_ground (numPoints : nat) (m : MotionObject.t) :
  Forall onOrAboveGround
         (computePreviewPoints Math_cos Math_sin numPoints m).2.
Proof. apply previewLoop_ground. constructor. Qed.

Lemma previewPoint_circular (m : MotionObject.t) (t : float) :
  motionType m = "circular" ->
  Vector3.y (previewPoint Math_cos Math_sin m t)
  = Vector3.y (circularCenter m).
Proof. intros H. unfold previewPoint. rewrite H. reflexivity. Qed.

Lemma previewLoop_circular (fuel : nat) (m : MotionObject.t) :
  motionType m = "circular" ->
  forall i points,
    Forall (fun q => Vector3.y q
                     = clampToGround (Vector3.y (circularCenter m))) points ->
    List.length (previewLoop Math_cos Math_sin fuel i m points).2
    = (List.length points + fuel)%nat
    /\ Forall (fun q => Vector3.y q
                        = clampToGround (Vector3.y (circularCenter m)))
              (previewLoop Math_cos Math_sin fuel i m points).2.
Proof.
  intros Hc. induction fuel as [|fuel IH]; intros i points Hp.
  { cbn. split; [lia|exact Hp]. }
  cbn [previewLoop]. rewrite Hc.
  replace ("circular" === "circular") with true by reflexivity.
  cbn [negb]. rewrite andb_false_r.
  set (p := previewPoint Math_cos Math_sin m (i * 0.05)).
  fold (clampToGround (Vector3.y p)).
  destruct (IH (i + 1)
              (points ++ [Vector3.mk (Vector3.x p)
                            (clampToGround (Vector3.y p)) (Vector3.z p)])%list)
    as [Hl Hf].
  { apply Forall_app. split; [exact Hp|]. constructor; [|constructor].
    cbn. unfold p. now rewrite previewPoint_circular. }
  split; [|exact Hf]. rewrite Hl, length_app. cbn. lia.
Qed.

(** X18.  The preview of a circular entity never stops early: it has
    exactly [numPoints] points, all at the height of the circle's centre
    or, if the centre is below the ground plane, on that plane. *)
Theorem circular_preview_is_full (numPoints : nat) (m : MotionObject.t) :
  motionType m = "circular" ->
  List.length (computePreviewPoints Math_cos Math_sin numPoints m).2
  = numPoints
  /\ Forall (fun q => Vector3.y q
                      = clampToGround (Vector3.y (circularCenter m)))
            (computePreviewPoints Math_cos Math_sin numPoints m).2.
Proof.
  intros Hc. unfold computePreviewPoints.
  destruct (previewLoop_circular numPoints m Hc 0 []) as [Hl Hf];
    [constructor|].
  split; [exact Hl|exact Hf].
Qed.

End Preview.

(** [sunkenOrbiter], whose circle lies one unit below the ground plane,
    is previewed on the plane. *)
Lemma circular_preview_is_full_witness :
  List.length (MotionObject.computePreviewPoints series_cos series_sin 3
                 sunkenOrbiter).2 = 3%nat
  /\ Forall (fun q => Vector3.y q = 0)
            (MotionObject.computePreviewPoints series_cos series_sin 3
               sunkenOrbiter).2.
Proof.
  exact (circular_preview_is_full series_cos series_sin 3 sunkenOrbiter
           eq_refl).
Defined.

(** ** Launching twice *)

Section LaunchTwice.

Import MotionObject.

Lemma launch_other (m0 : MotionObject.t) :
  (motionType m0 === "freefall") = false ->
  (motionType m0 === "projectile") = false ->
  (motionType m0 === "circular") = false ->
  launch m0
  = set_initialVelocity (velocity m0)
      (set_initialPosition (position m0)
         (set_isStopped false
            (set_elapsedTime 0
               (set_status "active" (set_isLaunched true m0))))).
Proof.
  intros Hf Hp Hc. unfold launch. do 3 (cbn; rewrite ?Hf, ?Hp, ?Hc).
  reflexivity.
Qed.

Lemma launch_circular (m0 : MotionObject.t) :
  motionType m0 = "circular" ->
  launch m0
  = set_initialPosition
      (Vector3.mk (Vector3.x (position m0) + circularRadius m0)
                  (Vector3.y (position m0)) (Vector3.z (position m0)))
      (set_position
         (Vector3.mk (Vector3.x (position m0) + circularRadius m0)
                     (Vector3.y (position m0)) (Vector3.z (position m0)))
         (set_position
            (Vector3.mk (Vector3.x (position m0) + circularRadius m0)
                        (Vector3.y (position m0)) (Vector3.z (position m0)))
            (set_circularCenter (position m0)
               (set_initialVelocity (velocity m0)
                  (set_initialPosition (position m0)
                     (set_isStopped false
                        (set_elapsedTime 0
                           (set_status "active"
                              (set_isLaunched true m0))))))))).
Proof. intros H. unfold launch. do 3 (cbn; rewrite ?H). reflexivity. Qed.

(** X20.  In every mode but the circular one a second [launch()] on the
    state the first one left changes nothing.  On a circular entity each
    [launch()] moves the centre of the circle to where the entity stands,
    one radius along x from the centre before. *)
Theorem launch_twice (m : MotionObject.t) :
  (motionType m === "circular") = false /\ launch (launch m) = launch m
  \/ motionType m = "circular"
     /\ circularCenter (launch m) = position m
     /\ position (launch m)
        = Vector3.mk (Vector3.x (position m) + circularRadius m)
                     (Vector3.y (position m)) (Vector3.z (position m))
     /\ circularCenter (launch (launch m)) = position (launch m).
Proof.
  destruct (motionType m === "circular") eqn:Hc.
  - right. apply String.eqb_eq in Hc. split; [exact Hc|].
    assert (motionType (launch m) = "circular") as Hc'
      by (rewrite (launch_circular m Hc); exact Hc).
    rewrite (launch_circular (launch m) Hc').
    split; [|split; [|reflexivity]];
      rewrite (launch_circular m Hc); reflexivity.
  - left. split; [reflexivity|].
    destruct (motionType m === "freefall") eqn:Hf;
      [|destruct (motionType m === "projectile") eqn:Hp].
    + apply String.eqb_eq in Hf.
      assert (motionType (launch m) = "freefall") as Hf'
        by (rewrite (launch_freefall m Hf); exact Hf).
      rewrite (launch_freefall (launch m) Hf'), (launch_freefall m Hf).
      destruct m; vm_compute; reflexivity.
    + apply String.eqb_eq in Hp.
      assert (motionType (launch m) = "projectile") as Hp'
        by (rewrite (launch_projectile m Hp); exact Hp).
      rewrite (launch_projectile (launch m) Hp'), (launch_projectile m Hp).
      destruct m; vm_compute; reflexivity.
    + assert (motionType (launch m) = motionType m) as Ht
        by (rewrite (launch_other m Hf Hp Hc); reflexivity).
      rewrite (launch_other (launch m)) by (rewrite Ht; assumption).
      rewrite (launch_other m Hf Hp Hc).
      destruct m; vm_compute; reflexivity.
Qed.

End LaunchTwice.

(** ** Disposal *)

Section Disposal.

(** X26.  Disposing twice is disposing once, for an entity and for a
    projectile. *)
Theorem dispose_idempotent (m : MotionObject.t) (p : Projectile.t) :
  MotionObject.dispose (MotionObject.dispose m) = MotionObject.dispose m
  /\ Projectile.dispose (Projectile.dispose p) = Projectile.dispose p.
Proof.
  split.
  - destruct m as [me mt ps v a ma ip iv et g dh cr av cc c fv vw dm dc re
                   be bt st la s ss tp tl mx].
    destruct me, tl; reflexivity.
  - destruct p as [iv an g ma lp et il hl lt gl x y ld me tl r].
    destruct me, tl, r; reflexivity.
Qed.

(** X27.  A projectile asks for its removal in one case only: launched,
    landed, and with its landing timer at 2 seconds or more once the
    step is added; the timer is then all the update has changed. *)
Theorem projectile_removed_iff (dt : float) (p p' : Projectile.t) :
  Projectile.update dt p = Some (p', "remove")
  <-> Projectile.isLaunched p = true /\ Projectile.hasLanded p = true
      /\ (2.0 <=? Projectile.landedTimer p + dt) = true
      /\ p' = Projectile.set_landedTimer (Projectile.landedTimer p + dt) p.
Proof.
  unfold Projectile.update.
  destruct (Projectile.isLaunched p) eqn:Hl; cbn [negb].
  2:{ split; [intros [= _ H]; discriminate H|intros (H & _); discriminate H]. }
  destruct (Projectile.hasLanded p) eqn:Hh.
  - cbn [Projectile.landedTimer Projectile.set_landedTimer].
    destruct (2.0 <=? Projectile.landedTimer p + dt) eqn:Ht.
    + split; [intros [= <-]; repeat split|intros (_ & _ & _ & ->); reflexivity].
    + split; [|intros (_ & _ & H & _); discriminate H].
      destruct (Projectile.mesh _); cbn; intros [=].
  - split; [|intros (_ & H & _); discriminate H].
    cbn. destruct (_ <=? Projectile.groundLevel p); cbn;
      destruct (Projectile.mesh p); cbn; rewrite ?Hh; intros [=].
Qed.

End Disposal.

(** ** The trail line *)

Lemma tail_length {A : Type} (l : list A) :
  List.length (tail l) = (List.length l - 1)%nat.
Proof. destruct l; cbn; lia. Qed.

Section Trail.

Import MotionObject.

Variables Math_cos Math_sin : float -> float.

Lemma updateTrail_line (m : MotionObject.t) :
  trailLine (_updateTrail m)
  = if bool_decide (2 < List.length (trailPoints (_updateTrail m)))%nat
    then Some (trailPoints (_updateTrail m))
    else trailLine m.
Proof.
  unfold _updateTrail, _clearTrail. cbn.
  repeat (case_match; cbn); try reflexivity;
    repeat case_bool_decide; cbn in *; congruence.
Qed.

Lemma updateTrail_drawn (m : MotionObject.t) :
  trailDrawn m -> trailDrawn (_updateTrail m).
Proof.
  intros [Hle Hline]. unfold trailDrawn.
  destruct (updateTrail_settings m) as (Hs & _).
  apply settings_cap in Hs. rewrite Hs.
  rewrite updateTrail_line, updateTrail_points.
  assert (List.length (trailPoints m ++ [position m])
          = S (List.length (trailPoints m))) as Hlen
    by (rewrite length_app; cbn; lia).
  split.
  - case_bool_decide; rewrite ?tail_length; lia.
  - intros l. case_bool_decide as H2.
    + intros [= <-]. split; [reflexivity|exact H2].
    + intros Hl. destruct (Hline l Hl) as [-> Hgt]. exfalso.
      apply H2. case_bool_decide; rewrite ?tail_length; lia.
Qed.

Lemma update_drawn (dt : float) (m m' : MotionObject.t) (st : string) :
  trailDrawn m ->
  update Math_cos Math_sin dt m = Some (m', st) ->
  trailDrawn m'.
Proof.
  intros Hd Hu.
  destruct (negb (isLaunched m) || isStopped m) eqn:Hg.
  { rewrite update_unfold, Hg in Hu. now injection Hu as <- <-. }
  apply orb_false_elim in Hg as [Hl Hs]. apply negb_false_iff in Hl.
  destruct (update_stages Math_cos Math_sin dt m m' st Hl Hs Hu)
    as (m1 & me & Hdp & Hme & -> & _).
  apply dispatch_carried in Hdp as [Hc _].
  apply carried_fields in Hc as (Hset & _ & _ & Htp & Htl & _).
  apply settings_cap in Hset.
  set (m2 := set_mesh (Some (set_mesh_position (position m1) me)) m1).
  assert (trailDrawn m2) as H2.
  { unfold trailDrawn.
    change (trailPoints m2) with (trailPoints m1).
    change (maxTrailPoints m2) with (maxTrailPoints m1).
    change (trailLine m2) with (trailLine m1).
    rewrite Hset, Htp, Htl. exact Hd. }
  apply updateTrail_drawn in H2.
  exact H2.
Qed.

(** X19.  The trail line is never out of step with the trail: through
    any number of updates it shows, when it is there, exactly the trail
    points, more than two of them and at most [maxTrailPoints]. *)
Theorem trail_line_shows_trail (dts : list float) (m m' : MotionObject.t) :
  trailDrawn m ->
  updates Math_cos Math_sin dts m = Some m' ->
  trailDrawn m'.
Proof.
  revert m. induction dts as [|dt dts IH]; intros m Hd Hr.
  { injection Hr as <-. exact Hd. }
  cbn [updates] in Hr.
  destruct (update Math_cos Math_sin dt m) as [[m1 st]|] eqn:Hu;
    [|discriminate].
  cbn [mbind option_bind fst] in Hr.
  apply (IH m1); [|exact Hr].
  exact (update_drawn dt m m1 st Hd Hu).
Qed.

End Trail.

(** The launched glider has its trail line after three updates. *)
Lemma trail_line_shows_trail_witness :
  exists m',
    updates series_cos series_sin [0.25; 0.25; 0.25]
            (MotionObject.launch glider) = Some m'
    /\ MotionObject.trailLine m' = Some (MotionObject.trailPoints m')
    /\ trailDrawn m'.
Proof.
  assert (exists m',
            updates series_cos series_sin [0.25; 0.25; 0.25]
                    (MotionObject.launch glider) = Some m'
            /\ MotionObject.trailLine m'
               = Some (MotionObject.trailPoints m'))
    as (m' & Hr & Hl) by (eexists; vm_compute; split; reflexivity).
  exists m'. split; [exact Hr|]. split; [exact Hl|].
  apply (trail_line_shows_trail series_cos series_sin [0.25; 0.25; 0.25]
           (MotionObject.launch glider) m'); [|exact Hr].
  split; [cbn; lia|]. intros l H. discriminate H.
Defined.

(** ** What [setParams] keeps of the constructor's state *)

Section Configured.

Import MotionObject.

Variables Math_cos Math_sin : float -> float.

Lemma configured_ext (a b : MotionObject.t) :
  launchState a = launchState b -> configured b -> configured a.
Proof.
  intros H [Hv Hm]. unfold configured.
  rewrite (f_equal (fun c => c.1.1) H : velocity a = velocity b).
  rewrite (f_equal (fun c => c.1.2) H : initialVelocity a = initialVelocity b).
  rewrite (f_equal (fun c => c.2) H : mass a = mass b).
  split; assumption.
Qed.

Lemma assign_state {A : Type} (v : option A)
    (set : A -> MotionObject.t -> MotionObject.t) (m : MotionObject.t) :
  (forall a m0, launchState (set a m0) = launchState m0) ->
  launchState (assign v set m) = launchState m.
Proof. intros H. destruct v; [apply H|reflexivity]. Qed.

Lemma setters_state (m : MotionObject.t) :
  (forall v, launchState (set_frameVelocity v m) = launchState m)
  /\ (forall v, launchState (set_acceleration v m) = launchState m)
  /\ (forall v, launchState (set_mesh v m) = launchState m)
  /\ (forall v, launchState (set_position v m) = launchState m)
  /\ (forall v, launchState (set_initialPosition v m) = launchState m)
  /\ (forall v, launchState (set_dropHeight v m) = launchState m).
Proof. repeat split. Qed.

Ltac peel_state :=
  repeat first
    [ rewrite assign_state by (intros; reflexivity)
    | rewrite (proj1 (setters_state _))
    | rewrite (proj1 (proj2 (setters_state _)))
    | rewrite (proj1 (proj2 (proj2 (setters_state _))))
    | rewrite (proj1 (proj2 (proj2 (proj2 (setters_state _)))))
    | rewrite (proj1 (proj2 (proj2 (proj2 (proj2 (setters_state _))))))
    | rewrite (proj2 (proj2 (proj2 (proj2 (proj2 (setters_state _))))))
    | progress case_match ].

(** The velocity stages write the velocity and its snapshot alike. *)
Lemma configured_axis (v : option float)
    (axis : float -> Vector3.t -> Vector3.t) (m : MotionObject.t) :
  configured m ->
  configured
    (assign v
       (fun v m => set_initialVelocity (axis v (initialVelocity m))
                     (set_velocity (axis v (velocity m)) m)) m).
Proof.
  intros [Hv Hm]. destruct v as [v|]; [|split; assumption].
  split; [|exact Hm]. cbn. now rewrite Hv.
Qed.

Lemma configured_polar (w : Vector3.t) (m : MotionObject.t) :
  configured m ->
  configured (set_initialVelocity (velocity (set_velocity w m))
                                  (set_velocity w m)).
Proof. intros [_ Hm]. split; [reflexivity|exact Hm]. Qed.

Lemma configured_mass (c : option float) (m : MotionObject.t) :
  configured m -> configured (set_mass (or_default c (mass m)) m).
Proof.
  intros [Hv Hm]. split; [exact Hv|].
  change (mass (set_mass ?v m)) with v.
  unfold or_default. destruct c as [f|]; [|exact Hm].
  destruct (is_zero f || is_nan f) eqn:Hf; [exact Hm|].
  unfold truthy. now rewrite Hf.
Qed.

(** X21.  [setParams] keeps what the constructor establishes: the
    velocity and its launch snapshot stay equal, and the mass stays a
    number that is neither zero nor NaN, whatever the configuration
    asks for. *)
Theorem setParams_keeps_configured (pos : Vector3.t) (params : Params)
    (config : Config) (m m' : MotionObject.t) :
  configured (new pos params)
  /\ (configured m ->
      setParams Math_cos Math_sin config m = Some m' ->
      configured m').
Proof.
  split.
  { split; [reflexivity|].
    change (mass (new pos params)) with (or_default (p_mass params) 1.0).
    unfold or_default. destruct (p_mass params) as [f|]; [|reflexivity].
    destruct (is_zero f || is_nan f) eqn:Hf; [reflexivity|].
    unfold truthy. now rewrite Hf. }
  intros Hc. unfold setParams.
  match goal with
  | |- context [assign (c_vz config) ?f ?x] =>
    set (mv := assign (c_vz config) f x)
  end.
  assert (configured mv) as Hv.
  { subst mv.
    apply (configured_axis _ Vector3.set_z),
          (configured_axis _ Vector3.set_y),
          (configured_axis _ Vector3.set_x).
    destruct (c_velocityMag config) as [mag|];
      [destruct (c_directionAngle config) as [dir|]|].
    - apply configured_polar.
      refine (configured_ext _ m _ Hc). now apply assign_state.
    - refine (configured_ext _ m _ Hc). now apply assign_state.
    - refine (configured_ext _ m _ Hc). now apply assign_state. }
  clearbody mv. intros H.
  destruct (c_dropHeight config) as [h|].
  - cbn [mbind option_bind] in H.
    match type of H with
    | context [set_dropHeight h ?x] => set (X := x) in *
    end.
    change (mesh (set_position _ _)) with (mesh X) in H.
    destruct (mesh X) as [me|] eqn:Hme; [|discriminate].
    cbn [mbind option_bind] in H. injection H as <-.
    apply configured_mass. refine (configured_ext _ mv _ Hv).
    peel_state; subst X; peel_state; reflexivity.
  - cbn [mbind option_bind] in H. injection H as <-.
    apply configured_mass. refine (configured_ext _ mv _ Hv).
    peel_state; reflexivity.
Qed.

End Configured.

(** [glider], as constructed, given a new horizontal speed and a drop
    height of 3. *)
Lemma setParams_keeps_configured_witness :
  exists m',
    MotionObject.setParams series_cos series_sin liftConfig glider = Some m'
    /\ MotionObject.velocity m' = Vector3.mk 2 0 0
    /\ configured m'.
Proof.
  assert (exists m',
            MotionObject.setParams series_cos series_sin liftConfig glider
            = Some m'
            /\ MotionObject.velocity m' = Vector3.mk 2 0 0)
    as (m' & Hs & Hv) by (eexists; vm_compute; split; reflexivity).
  exists m'. split; [exact Hs|]. split; [exact Hv|].
  destruct (setParams_keeps_configured series_cos series_sin
              (Vector3.mk 0 2 0)
              (MotionObject.mkParams None None (Some 1) None None None None
                 None None None None None None None None None None None
                 None None None)
              liftConfig glider m') as [Hn Hk].
  exact (Hk Hn Hs).
Defined.

(** ** The buffers of the graph *)

Section Graph.

Import KinematicsGraph.

(** [pushSample()] with an active, launched entity. *)
Lemma pushSample_active (h : gmap nat MotionObject.t) (g : KinematicsGraph.t)
    (a : nat) (obj : MotionObject.t) :
  activeObject g = Some a -> h !! a = Some obj ->
  MotionObject.isLaunched obj = true ->
  pushSample h g
  = Some (if bool_decide (MAX_SAMPLES g
                          < List.length (timeData g
                                         ++ [MotionObject.elapsedTime obj]))%nat
          then mk (Some a) (MAX_SAMPLES g)
                  (tail (timeData g ++ [MotionObject.elapsedTime obj]))
                  (tail (posData g
                         ++ [Vector3.y (MotionObject.position obj)]))
                  (tail (velData g
                         ++ [Vector3.length (MotionObject.velocity obj)]))
                  (tail (accData g ++ [sampledAcceleration obj]))
          else mk (Some a) (MAX_SAMPLES g)
                  (timeData g ++ [MotionObject.elapsedTime obj])
                  (posData g ++ [Vector3.y (MotionObject.position obj)])
                  (velData g
                   ++ [Vector3.length (MotionObject.velocity obj)])
                  (accData g ++ [sampledAcceleration obj]))%list.
Proof.
  intros Ha Ho Hl. unfold pushSample. rewrite Ha. cbn [mbind option_bind].
  rewrite Ho. cbn [mbind option_bind]. rewrite Hl. cbn [negb].
  cbn [timeData posData velData accData MAX_SAMPLES activeObject].
  rewrite ?Ha. unfold sampledAcceleration.
  destruct (MotionObject.motionType obj === "circular");
    destruct (MotionObject.motionType obj === "freefall");
    case_bool_decide; reflexivity.
Qed.

Lemma pushSample_aligned (h : gmap nat MotionObject.t)
    (g g' : KinematicsGraph.t) :
  aligned g -> pushSample h g = Some g' ->
  aligned g' /\ MAX_SAMPLES g' = MAX_SAMPLES g
  /\ activeObject g' = activeObject g.
Proof.
  intros (Hp & Hv & Ha & Hle) H.
  destruct (activeObject g) as [a|] eqn:Hact.
  2:{ unfold pushSample in H. rewrite Hact in H. injection H as <-.
      rewrite Hact. repeat split; assumption. }
  destruct (h !! a) as [obj|] eqn:Ho.
  2:{ unfold pushSample in H. rewrite Hact in H. cbn in H.
      rewrite Ho in H. discriminate H. }
  destruct (MotionObject.isLaunched obj) eqn:Hl.
  2:{ unfold pushSample in H. rewrite Hact in H. cbn in H.
      rewrite Ho in H. cbn in H. rewrite Hl in H. injection H as <-.
      rewrite Hact. repeat split; assumption. }
  pose proof (pushSample_active h g a obj Hact Ho Hl) as Hpush.
  rewrite Hpush in H. injection H as <-.
  unfold aligned.
  case_bool_decide as Hb; cbn [timeData posData velData accData MAX_SAMPLES
                               activeObject];
    rewrite ?tail_length, ?length_app in *; cbn [List.length] in *;
    repeat split; lia.
Qed.

(** X22.  Whatever is called on a graph, and in whatever order, its four
    buffers keep one sample each per row, at most [MAX_SAMPLES] rows,
    and [MAX_SAMPLES] is never changed. *)
Theorem graph_buffers_stay_aligned (cs : list GraphCall)
    (g g' : KinematicsGraph.t) :
  aligned g ->
  graphCalls cs g = Some g' ->
  aligned g' /\ MAX_SAMPLES g' = MAX_SAMPLES g.
Proof.
  revert g. induction cs as [|c cs IH]; intros g Hal Hr.
  { injection Hr as <-. split; [exact Hal|reflexivity]. }
  cbn [graphCalls] in Hr.
  destruct (graphCall c g) as [g1|] eqn:Hc; [|discriminate].
  cbn [mbind option_bind] in Hr.
  assert (aligned g1 /\ MAX_SAMPLES g1 = MAX_SAMPLES g) as [Hal1 Hm].
  { destruct c as [h|obj|]; cbn [graphCall] in Hc.
    - destruct (pushSample_aligned h g g1 Hal Hc) as (H1 & H2 & _).
      split; assumption.
    - injection Hc as <-. split; [|reflexivity].
      unfold aligned. cbn. repeat split; lia.
    - injection Hc as <-. split; [|reflexivity].
      unfold aligned. cbn. repeat split; lia. }
  destruct (IH g1 Hal1 Hr) as [H1 H2]. split; [exact H1|congruence].
Qed.

Lemma ringPush_push {A : Type} (cap : nat) (l : list A) (x : A) :
  (0 < cap)%nat -> (List.length l <= cap)%nat ->
  (if bool_decide (cap < List.length (l ++ [x]))%nat
   then tail (l ++ [x]) else (l ++ [x])%list)
  = ringPush cap l x.
Proof.
  intros Hpos Hle. unfold ringPush. rewrite length_app. cbn [List.length].
  case_bool_decide as Hb.
  - rewrite bool_decide_eq_false_2 by lia.
    destruct l as [|y l]; [cbn in Hb; lia|reflexivity].
  - rewrite bool_decide_eq_true_2 by lia. reflexivity.
Qed.

(** X23.  A sample of a launched active entity is always recorded as the
    newest row of all four buffers: the elapsed time, the height, the
    speed and the acceleration of the mode.  Each buffer grows by its
    entry while it holds fewer than [MAX_SAMPLES] rows and from then on
    loses its oldest entry for it; nothing else of the graph changes. *)
Theorem pushSample_ring (h : gmap nat MotionObject.t) (g : KinematicsGraph.t)
    (a : nat) (obj : MotionObject.t) :
  aligned g -> (0 < MAX_SAMPLES g)%nat ->
  activeObject g = Some a -> h !! a = Some obj ->
  MotionObject.isLaunched obj = true ->
  pushSample h g
  = Some (mk (Some a) (MAX_SAMPLES g)
             (ringPush (MAX_SAMPLES g) (timeData g)
                       (MotionObject.elapsedTime obj))
             (ringPush (MAX_SAMPLES g) (posData g)
                       (Vector3.y (MotionObject.position obj)))
             (ringPush (MAX_SAMPLES g) (velData g)
                       (Vector3.length (MotionObject.velocity obj)))
             (ringPush (MAX_SAMPLES g) (accData g)
                       (sampledAcceleration obj)))
  /\ List.length (ringPush (MAX_SAMPLES g) (timeData g)
                           (MotionObject.elapsedTime obj))
     = Nat.min (S (List.length (timeData g))) (MAX_SAMPLES g)
  /\ last (ringPush (MAX_SAMPLES g) (timeData g)
                    (MotionObject.elapsedTime obj))
     = Some (MotionObject.elapsedTime obj).
Proof.
  intros (Hp & Hv & Ha & Hle) Hpos Hact Ho Hl.
  rewrite (pushSample_active h g a obj Hact Ho Hl).
  split.
  - rewrite <- (ringPush_push (MAX_SAMPLES g) (timeData g)) by lia.
    rewrite <- (ringPush_push (MAX_SAMPLES g) (posData g)) by lia.
    rewrite <- (ringPush_push (MAX_SAMPLES g) (velData g)) by lia.
    rewrite <- (ringPush_push (MAX_SAMPLES g) (accData g)) by lia.
    rewrite !length_app. cbn [List.length]. rewrite Hp, Hv, Ha.
    case_bool_decide; reflexivity.
  - unfold ringPush. case_bool_decide as Hb.
    + rewrite length_app, last_snoc. cbn [List.length]. split; [lia|reflexivity].
    + rewrite length_app, tail_length, last_snoc. cbn [List.length].
      split; [lia|reflexivity].
Qed.

End Graph.

(** ** Removal on request *)

Section Registry.

Import Simulation.

Context {E : Type}.
Variable entity_dispose : E -> E.

Lemma indexOf_first (a : nat) (l : list nat) :
  match indexOf a l with
  | Some i =>
    exists l1 l2,
      l = (l1 ++ a :: l2)%list /\ (a ∉ l1)
      /\ delete i l = (l1 ++ l2)%list
  | None => a ∉ l
  end.
Proof.
  induction l as [|b l IH]; cbn [indexOf].
  { apply not_elem_of_nil. }
  case_bool_decide as Hab.
  - subst b. exists [], l. split; [reflexivity|].
    split; [apply not_elem_of_nil|reflexivity].
  - destruct (indexOf a l) as [i|]; cbn.
    + destruct IH as (l1 & l2 & -> & Hn & Hd).
      exists (b :: l1), l2. split; [reflexivity|]. split.
      * intros [->|Hin]%elem_of_cons; [now apply Hab|now apply Hn].
      * cbn. f_equal. exact Hd.
    + intros [->|Hin]%elem_of_cons; [now apply Hab|now apply IH].
Qed.

(** X24.  [removeObject(obj)] disposes of [obj] whether or not the
    collection holds it, and takes out of the collection the first
    occurrence of [obj] only: an entity registered twice stays in it,
    disposed of. *)
Theorem removeObject_first_occurrence (a : nat) (s : Simulation.t E)
    (e : E) :
  heap s !! a = Some e ->
  exists s',
    removeObject entity_dispose a s = Some s'
    /\ heap s' = <[a := entity_dispose e]> (heap s)
    /\ disposed s' = (disposed s ++ [a])%list
    /\ timeScale s' = timeScale s
    /\ ((a ∉ entities s) /\ entities s' = entities s
        \/ exists l1 l2,
             entities s = (l1 ++ a :: l2)%list /\ (a ∉ l1)
             /\ entities s' = (l1 ++ l2)%list).
Proof.
  intros He. unfold removeObject.
  pose proof (indexOf_first a (entities s)) as Hi.
  destruct (indexOf a (entities s)) as [i|].
  - destruct Hi as (l1 & l2 & Hl & Hn & Hd).
    unfold dispose_at. cbn [heap entities timeScale disposed].
    rewrite He. cbn [mbind option_bind].
    eexists. split; [reflexivity|]. cbn [heap entities timeScale disposed].
    repeat split. right. exists l1, l2. repeat split; assumption.
  - unfold dispose_at. rewrite He. cbn [mbind option_bind].
    eexists. split; [reflexivity|]. cbn [heap entities timeScale disposed].
    repeat split. left. split; [exact Hi|reflexivity].
Qed.

Lemma dispose_all (l : list nat) :
  forall s : Simulation.t E,
    (forall a, a ∈ l -> is_Some (heap s !! a)) ->
    exists s',
      foldl (fun acc a => s ← acc; dispose_at entity_dispose a s) (Some s) l
      = Some s'
      /\ entities s' = entities s /\ timeScale s' = timeScale s
      /\ disposed s' = (disposed s ++ l)%list
      /\ (forall a, a ∉ l -> heap s' !! a = heap s !! a)
      /\ (forall a, is_Some (heap s' !! a) <-> is_Some (heap s !! a))
      /\ (NoDup l ->
          forall a, a ∈ l -> heap s' !! a = entity_dispose <$> heap s !! a).
Proof.
  induction l as [|b l IH]; intros s Hin.
  { exists s. cbn. rewrite app_nil_r. repeat split; try tauto.
    intros _ a Ha. now apply not_elem_of_nil in Ha. }
  destruct (Hin b) as [e He]; [apply list_elem_of_here|].
  cbn [foldl]. cbn [mbind option_bind]. unfold dispose_at at 2.
  rewrite He. cbn [mbind option_bind].
  set (s1 := mk (<[b := entity_dispose e]> (heap s)) (entities s)
                (timeScale s) (disposed s ++ [b])%list).
  assert (forall a, is_Some (heap s1 !! a) <-> is_Some (heap s !! a)) as Hdom.
  { intros a. cbn [heap s1]. destruct (decide (a = b)) as [->|Hne].
    - rewrite lookup_insert_eq, He. split; eauto.
    - now rewrite lookup_insert_ne. }
  destruct (IH s1) as (s' & Hr & Hes & Hts & Hds & Hout & Hd & Hnd).
  { intros a Ha. apply Hdom, Hin, list_elem_of_further, Ha. }
  exists s'. split; [exact Hr|]. split; [exact Hes|]. split; [exact Hts|].
  split; [rewrite Hds; cbn [disposed s1]; now rewrite <- app_assoc|].
  split; [|split].
  - intros a Ha. apply not_elem_of_cons in Ha as [Hne Ha].
    rewrite (Hout a Ha). cbn [heap s1]. now rewrite lookup_insert_ne.
  - intros a. rewrite Hd. apply Hdom.
  - intros Hno a Ha. apply NoDup_cons in Hno as [Hb Hno].
    apply elem_of_cons in Ha as [->|Ha].
    + rewrite (Hout b Hb). cbn [heap s1].
      now rewrite lookup_insert_eq, He.
    + rewrite (Hnd Hno a Ha). cbn [heap s1].
      rewrite lookup_insert_ne; [reflexivity|]. intros ->. now apply Hb.
Qed.

(** X25.  [removeAll()] empties the collection and disposes of every
    entity it held, in the order of the collection; entities outside it
    are left as they are. *)
Theorem removeAll_disposes_everything (s : Simulation.t E) :
  NoDup (entities s) ->
  (forall a, a ∈ entities s -> is_Some (heap s !! a)) ->
  exists s',
    removeAll entity_dispose s = Some s'
    /\ entities s' = [] /\ count s' = 0%nat
    /\ timeScale s' = timeScale s
    /\ disposed s' = (disposed s ++ entities s)%list
    /\ (forall a, a ∈ entities s ->
                  heap s' !! a = entity_dispose <$> heap s !! a)
    /\ (forall a, a ∉ entities s -> heap s' !! a = heap s !! a).
Proof.
  intros Hnd Hin. unfold removeAll.
  destruct (dispose_all (entities s) s Hin)
    as (s1 & Hr & Hes & Hts & Hds & Hout & _ & Hdis).
  rewrite Hr. cbn [mbind option_bind].
  eexists. split; [reflexivity|].
  cbn [heap entities timeScale disposed count List.length].
  repeat split; try assumption. exact (Hdis Hnd).
Qed.

End Registry.

(** The second of three landed projectiles is removed on request. *)
Lemma removeObject_first_occurrence_witness :
  exists s',
    Simulation.removeObject Projectile.dispose 1%nat landedWorld = Some s'
    /\ Simulation.entities s' = [0%nat; 2%nat]
    /\ Simulation.disposed s' = [1%nat].
Proof.
  destruct (removeObject_first_occurrence Projectile.dispose 1%nat
              landedWorld (landedProjectile 0.5) eq_refl)
    as (s' & Hr & _ & Hd & _ & _).
  exists s'. split; [exact Hr|]. split; [|exact Hd].
  assert (Simulation.entities
            <$> Simulation.removeObject Projectile.dispose 1%nat landedWorld
          = Some [0%nat; 2%nat]) as He by (vm_compute; reflexivity).
  rewrite Hr in He. now injection He.
Defined.

(** All three landed projectiles are removed at once. *)
Lemma removeAll_disposes_everything_witness :
  exists s',
    Simulation.removeAll Projectile.dispose landedWorld = Some s'
    /\ Simulation.count s' = 0%nat
    /\ Simulation.disposed s' = [0%nat; 1%nat; 2%nat].
Proof.
  destruct (removeAll_disposes_everything Projectile.dispose landedWorld)
    as (s' & Hr & _ & Hc & _ & Hd & _).
  { apply (bool_decide_unpack _). vm_compute. exact I. }
  { intros a Ha. cbn in Ha.
    repeat (apply elem_of_cons in Ha as [-> | Ha]);
      [vm_compute; eauto .. | inversion Ha]. }
  exists s'. split; [exact Hr|]. split; [exact Hc|exact Hd].
Defined.

(** ** The mesh after an update *)

Section MeshSync.

Import MotionObject.

Variables Math_cos Math_sin : float -> float.

(** X28.  Every update that does its work ends with the mesh at the
    position of the entity, in every mode. *)
Theorem update_syncs_mesh (dt : float) (m m' : MotionObject.t)
    (st : string) :
  isLaunched m = true -> isStopped m = false ->
  update Math_cos Math_sin dt m = Some (m', st) ->
  exists me', mesh m' = Some me' /\ mesh_position me' = position m'.
Proof.
  intros Hl Hs Hu.
  destruct (update_stages Math_cos Math_sin dt m m' st Hl Hs Hu)
    as (m1 & me & _ & _ & -> & _).
  set (m2 := set_mesh (Some (set_mesh_position (position m1) me)) m1).
  destruct (computeStats_kept (_updateTrail m2))
    as (_ & _ & _ & _ & K5 & _ & K7 & _).
  destruct (updateTrail_kept m2) as (_ & _ & _ & _ & T5 & _ & T7 & _).
  exists (set_mesh_position (position m1) me).
  rewrite K5, K7, T5, T7. split; reflexivity.
Qed.

Lemma dispatch_relative (dt : float) (m : MotionObject.t) :
  motionType m = "relative" ->
  dispatch Math_cos Math_sin dt m = _updateRelative dt m.
Proof. intros H. unfold dispatch. now rewrite H. Qed.

Lemma updateRelative_riding (dt : float) (m : MotionObject.t) (me : Mesh) :
  viewInWorldFrame m = false -> dragMode m = "none" -> mesh m = Some me ->
  _updateRelative dt m
  = Some
      (set_mesh
         (Some (set_mesh_position
                  (Vector3.sub
                     (Vector3.mk
                        (Vector3.x (position m)
                         + Vector3.x (Vector3.add (velocity m)
                                                  (frameVelocity m)) * dt)
                        (Vector3.y (position m)
                         + Vector3.y (Vector3.add (velocity m)
                                                  (frameVelocity m)) * dt)
                        (Vector3.z (position m)
                         + Vector3.z (Vector3.add (velocity m)
                                                  (frameVelocity m)) * dt))
                     (Vector3.multiplyScalar (frameVelocity m)
                                             (elapsedTime m)))
                  me))
         (set_position
            (Vector3.mk
               (Vector3.x (position m)
                + Vector3.x (Vector3.add (velocity m) (frameVelocity m)) * dt)
               (Vector3.y (position m)
                + Vector3.y (Vector3.add (velocity m) (frameVelocity m)) * dt)
               (Vector3.z (position m)
                + Vector3.z (Vector3.add (velocity m) (frameVelocity m)) * dt))
            m)).
Proof.
  intros Hv Hd Hme. unfold _updateRelative.
  rewrite (applyDrag_none dt m Hd).
  change (viewInWorldFrame (set_position _ m)) with (viewInWorldFrame m).
  rewrite Hv. cbn [negb].
  change (mesh (set_position _ m)) with (mesh m).
  rewrite Hme. reflexivity.
Qed.

(** X29.  An entity in relative motion that is viewed in the moving
    frame meets no ground test: an update moves it by the sum of its own
    and the frame's velocity, leaves its velocity and its lifecycle
    flags as they were, and ends with the mesh at the entity's world
    position, not at the frame-relative one. *)
Theorem frame_view_skips_ground (dt : float) (m : MotionObject.t) :
  riding m ->
  exists m' me',
    update Math_cos Math_sin dt m = Some (m', status m)
    /\ riding m'
    /\ flags m' = flags m
    /\ elapsedTime m' = elapsedTime m + dt
    /\ position m'
       = Vector3.mk
           (Vector3.x (position m)
            + (Vector3.x (velocity m) + Vector3.x (frameVelocity m)) * dt)
           (Vector3.y (position m)
            + (Vector3.y (velocity m) + Vector3.y (frameVelocity m)) * dt)
           (Vector3.z (position m)
            + (Vector3.z (velocity m) + Vector3.z (frameVelocity m)) * dt)
    /\ velocity m' = velocity m
    /\ mesh m' = Some me'
    /\ mesh_position me' = position m'.
Proof.
  intros (Hl & Hs & Hm & Hv & Hd & [me Hme]).
  set (m0 := set_elapsedTime (elapsedTime m + dt) m).
  pose proof (updateRelative_riding dt m0 me Hv Hd Hme) as Hr.
  rewrite <- (dispatch_relative dt m0 Hm) in Hr.
  match type of Hr with
  | _ = Some ?x => set (m1 := x) in *
  end.
  destruct (update_of_dispatch Math_cos Math_sin dt m m1
              (set_mesh_position
                 (Vector3.sub (position m1)
                    (Vector3.multiplyScalar (frameVelocity m0)
                                            (elapsedTime m0))) me)
              Hl Hs Hr eq_refl)
    as (m' & Hu & K & Hset).
  destruct K as (K1 & K2 & K3 & K4 & K5 & K6 & K7 & K8 & K9 & K10 & K11).
  exists m', (set_mesh_position (position m1) me).
  split; [exact Hu|].
  assert (viewInWorldFrame m' = viewInWorldFrame m) as Hview
    by exact (f_equal (fun c => c.1.1.1.1.1.1.2) Hset).
  split.
  { unfold riding. rewrite K1, K2, K3, K4, K5, Hview.
    repeat split; try assumption. now eexists. }
  unfold flags. rewrite K2, K11, K6, K7, K8, K5.
  repeat split.
Qed.

Lemma computeStats_impact (m : MotionObject.t) :
  (timeToImpact (stats m) <? 0) = false ->
  (timeToImpact (stats (_computeStats m)) <? 0) = false.
Proof.
  intros H. unfold _computeStats. cbn.
  repeat (case_match; cbn); first [exact H | apply Math_max_zero].
Qed.

(** X30.  No update makes the time to impact shown in the stats
    negative. *)
Theorem time_to_impact_not_negative (dt : float) (m m' : MotionObject.t)
    (st : string) :
  (timeToImpact (stats m) <? 0) = false ->
  update Math_cos Math_sin dt m = Some (m', st) ->
  (timeToImpact (stats m') <? 0) = false.
Proof.
  intros Hi Hu.
  destruct (negb (isLaunched m) || isStopped m) eqn:Hg.
  { rewrite update_unfold, Hg in Hu. now injection Hu as <- <-. }
  apply orb_false_elim in Hg as [Hl Hs]. apply negb_false_iff in Hl.
  destruct (update_stages Math_cos Math_sin dt m m' st Hl Hs Hu)
    as (m1 & me & Hdp & Hme & -> & _).
  apply dispatch_carried in Hdp as [Hc _].
  apply carried_fields in Hc as (_ & _ & _ & _ & _ & Hst).
  apply computeStats_impact.
  set (m2 := set_mesh (Some (set_mesh_position (position m1) me)) m1).
  assert (stats (_updateTrail m2) = stats m1) as ->.
  { unfold _updateTrail, _clearTrail. repeat (case_match; cbn); reflexivity. }
  rewrite Hst. exact Hi.
Qed.

End MeshSync.

(** The launched glider after a quarter of a second. *)
Lemma update_syncs_mesh_witness :
  exists m' me',
    MotionObject.update series_cos series_sin 0.25 (MotionObject.launch glider)
    = Some (m', "active")
    /\ MotionObject.mesh m' = Some me'
    /\ mesh_position me' = MotionObject.position m'.
Proof.
  assert (exists m',
            MotionObject.update series_cos series_sin 0.25
              (MotionObject.launch glider) = Some (m', "active"))
    as [m' Hu] by (eexists; vm_compute; reflexivity).
  destruct (update_syncs_mesh series_cos series_sin 0.25
              (MotionObject.launch glider) m' "active" eq_refl eq_refl Hu)
    as (me' & Hme & Hp).
  exists m', me'. split; [exact Hu|]. split; [exact Hme|exact Hp].
Defined.

(** [frameRider] starts on the ground moving down and is one unit below
    it, still active, after one second. *)
Lemma frame_view_skips_ground_witness :
  exists m',
    MotionObject.update series_cos series_sin 1 frameRider
    = Some (m', "active")
    /\ MotionObject.position m' = Vector3.mk 1 (-1) 0
    /\ MotionObject.isStopped m' = false.
Proof.
  assert (riding frameRider) as Hr.
  { unfold riding. cbn. repeat split. eauto. }
  destruct (frame_view_skips_ground series_cos series_sin 1 frameRider Hr)
    as (m' & me' & Hu & (_ & Hs & _) & _ & _ & Hp & _).
  exists m'. split; [exact Hu|]. split; [exact Hp|exact Hs].
Defined.

(** [thrownBall] is due back at its launch height after 2 seconds.
    After half a second the stats show 1.5 seconds to impact; after an
    update of 2.05 seconds, still above the ground, the difference
    would be negative and the stats show 0. *)
Lemma time_to_impact_not_negative_witness :
  (exists m',
     MotionObject.update series_cos series_sin 0.5
       (MotionObject.launch thrownBall) = Some (m', "active")
     /\ timeToImpact (MotionObject.stats m') = 1.5
     /\ (timeToImpact (MotionObject.stats m') <? 0) = false)
  /\ (2 * 10 / 10 - 2.05 <? 0) = true
  /\ exists m',
       MotionObject.update series_cos series_sin 2.05
         (MotionObject.launch thrownBall) = Some (m', "active")
       /\ timeToImpact (MotionObject.stats m') = 0
       /\ (timeToImpact (MotionObject.stats m') <? 0) = false.
Proof.
  split; [|split; [reflexivity|]].
  - assert (exists m',
              MotionObject.update series_cos series_sin 0.5
                (MotionObject.launch thrownBall) = Some (m', "active")
              /\ timeToImpact (MotionObject.stats m') = 1.5)
      as (m' & Hu & Ht) by (eexists; vm_compute; split; reflexivity).
    exists m'. split; [exact Hu|]. split; [exact Ht|].
    exact (time_to_impact_not_negative series_cos series_sin 0.5
             (MotionObject.launch thrownBall) m' "active" eq_refl Hu).
  - assert (exists m',
              MotionObject.update series_cos series_sin 2.05
                (MotionObject.launch thrownBall) = Some (m', "active")
              /\ timeToImpact (MotionObject.stats m') = 0)
      as (m' & Hu & Ht) by (eexists; vm_compute; split; reflexivity).
    exists m'. split; [exact Hu|]. split; [exact Ht|].
    exact (time_to_impact_not_negative series_cos series_sin 2.05
             (MotionObject.launch thrownBall) m' "active" eq_refl Hu).
Defined.

(** A graph that is given the launched [groundedBall] to plot and is
    sampled twice. *)
Lemma graph_buffers_stay_aligned_witness :
  exists g',
    graphCalls [SetActiveObject (Some 0%nat);
                PushSample (Simulation.heap frozenWorld);
                PushSample (Simulation.heap frozenWorld)]
               KinematicsGraph.new = Some g'
    /\ aligned g'
    /\ KinematicsGraph.MAX_SAMPLES g' = 300%nat
    /\ List.length (KinematicsGraph.timeData g') = 2%nat.
Proof.
  assert (exists g',
            graphCalls [SetActiveObject (Some 0%nat);
                        PushSample (Simulation.heap frozenWorld);
                        PushSample (Simulation.heap frozenWorld)]
                       KinematicsGraph.new = Some g'
            /\ List.length (KinematicsGraph.timeData g') = 2%nat)
    as (g' & Hr & Hl) by (eexists; vm_compute; split; reflexivity).
  destruct (graph_buffers_stay_aligned _ KinematicsGraph.new g'
              ltac:(unfold aligned; cbn; lia) Hr) as [Ha Hm].
  exists g'. split; [exact Hr|]. split; [exact Ha|].
  split; [exact Hm|exact Hl].
Defined.

(** [fullGraph] holds 300 rows, the oldest the height 2 of the glider.
    Sampled once more while its entity is the launched [droppedBall], it
    still holds 300 rows: the glider's row is gone and the newest is the
    height 5 and the gravity 10 of the ball. *)
Lemma pushSample_ring_witness :
  List.length (KinematicsGraph.posData fullGraph) = 300%nat
  /\ head (KinematicsGraph.posData fullGraph) = Some 2
  /\ exists g',
       KinematicsGraph.pushSample
         {[ 0%nat := MotionObject.launch droppedBall ]} fullGraph
       = Some g'
       /\ KinematicsGraph.timeData g' = replicate 300 0
       /\ KinematicsGraph.posData g' = (replicate 299 0 ++ [5])%list
       /\ KinematicsGraph.velData g' = (replicate 299 5 ++ [0])%list
       /\ KinematicsGraph.accData g' = (replicate 299 0 ++ [10])%list.
Proof.
  split; [vm_compute; reflexivity|]. split; [vm_compute; reflexivity|].
  destruct (pushSample_ring {[ 0%nat := MotionObject.launch droppedBall ]}
              fullGraph 0%nat (MotionObject.launch droppedBall))
    as (Hp & _).
  { unfold aligned. vm_compute. repeat split; lia. }
  { vm_compute. lia. }
  { vm_compute. reflexivity. }
  { reflexivity. }
  { reflexivity. }
  eexists. split; [exact Hp|].
  cbn [KinematicsGraph.timeData KinematicsGraph.posData
       KinematicsGraph.velData KinematicsGraph.accData].
  repeat split; vm_compute; reflexivity.
Defined.
